(** * jsDAV: the WebDAV server core, embedded in Rocq

    A shallow embedding of the parts of [lib/DAV/server.js],
    [lib/DAV/property/href.js], [lib/DAV/property/resourceType.js] and
    [lib/DAVACL/abstractPrincipalCollection.js] that the properties below
    talk about.

    Conventions.
    - JavaScript strings are Rocq strings (sequences of 8-bit code units);
      the request line and the headers node hands to the server are in that
      range.
    - A function that reports through a node-style callback [cb(err, value)]
      becomes a function returning a [result]; the cases where the source
      never invokes its callback are kept as an explicit outcome.
    - The server is modelled without plugins: [emit] has no subscriber and
      returns [false].
    - Definitions come first, grouped by source file; all lemmas follow. *)

From Stdlib Require Import String Ascii List Bool Arith ZArith Lia DecimalString.
Import ListNotations.
Set Warnings "-register-all".
Open Scope string_scope.

(* ================================================================== *)
(** * Part I: definitions                                              *)
(* ================================================================== *)

(** ** JavaScript strings: the built-ins the server calls *)

Module JS.

(** [s.charAt(0)], as an optional character ([None] is the empty string). *)
Definition charAt0 (s : string) : option ascii :=
  match s with
  | EmptyString => None
  | String c _ => Some c
  end.

(** [s.substr(n)]: everything from offset [n] on. *)
Fixpoint substr (n : nat) (s : string) : string :=
  match n, s with
  | O, _ => s
  | S n', String _ s' => substr n' s'
  | S _, EmptyString => EmptyString
  end.

(** [s.indexOf(pat) === 0]: [pat] is a prefix of [s]. *)
Fixpoint startsWith (pat s : string) : bool :=
  match pat, s with
  | EmptyString, _ => true
  | String p pat', String a s' => Ascii.eqb p a && startsWith pat' s'
  | String _ _, EmptyString => false
  end.

(** [s.indexOf(pat)]: offset of the first occurrence, [None] for [-1]. *)
Fixpoint indexOf (pat s : string) : option nat :=
  if startsWith pat s then Some O
  else match s with
       | EmptyString => None
       | String _ s' => option_map S (indexOf pat s')
       end.

(** [s.indexOf(pat) > -1]. *)
Definition contains (pat s : string) : bool :=
  match indexOf pat s with Some _ => true | None => false end.

(** [s.replace(pat, rep)] with a string pattern: only the FIRST occurrence
    is replaced ([rep] has no [$] in the uses below). *)
Fixpoint replace (pat rep s : string) : string :=
  if startsWith pat s then rep ++ substr (String.length pat) s
  else match s with
       | EmptyString => EmptyString
       | String c s' => String c (replace pat rep s')
       end.

(** Value of a hexadecimal digit. *)
Definition hexval (c : ascii) : option nat :=
  let n := nat_of_ascii c in
  if ((48 <=? n) && (n <=? 57))%nat then Some (n - 48)
  else if ((65 <=? n) && (n <=? 70))%nat then Some (n - 55)
  else if ((97 <=? n) && (n <=? 102))%nat then Some (n - 87)
  else None.

(** The global [unescape]: [%XX] and [%uXXXX] are decoded, every other
    character is copied.  A [%uXXXX] escape of a code unit above 255 has
    no counterpart in 8-bit strings; the model leaves such an escape as it
    is, and no theorem below decodes one. *)
Fixpoint unescape (s : string) : string :=
  match s with
  | EmptyString => EmptyString
  | String c rest =>
      if Ascii.eqb c "%" then
        match rest with
        | String a (String b rest2) =>
            if Ascii.eqb a "u" then
              match rest2 with
              | String h2 (String h3 (String h4 rest4)) =>
                  match hexval b, hexval h2, hexval h3, hexval h4 with
                  | Some x1, Some x2, Some x3, Some x4 =>
                      if ((x1 =? 0) && (x2 =? 0))%nat
                      then String (ascii_of_nat (16 * x3 + x4)) (unescape rest4)
                      else String c (unescape rest)
                  | _, _, _, _ => String c (unescape rest)
                  end
              | _ => String c (unescape rest)
              end
            else
              match hexval a, hexval b with
              | Some x, Some y => String (ascii_of_nat (16 * x + y)) (unescape rest2)
              | _, _ => String c (unescape rest)
              end
        | _ => String c (unescape rest)
        end
      else String c (unescape rest)
  end.

(** [s.toUpperCase()] on the ASCII letters. *)
Definition upcase (c : ascii) : ascii :=
  let n := nat_of_ascii c in
  if ((97 <=? n) && (n <=? 122))%nat then ascii_of_nat (n - 32) else c.

Fixpoint toUpperCase (s : string) : string :=
  match s with
  | EmptyString => EmptyString
  | String c s' => String (upcase c) (toUpperCase s')
  end.

(** Truthiness of a string: every string but the empty one. *)
Definition truthy (s : string) : bool :=
  match s with EmptyString => false | _ => true end.

End JS.

(** ** [lib/DAV/util.js] *)

Module Util.

Fixpoint ltrim (c : ascii) (s : string) : string :=
  match s with
  | EmptyString => EmptyString
  | String a s' => if Ascii.eqb a c then ltrim c s' else s
  end.

Fixpoint rtrim (c : ascii) (s : string) : string :=
  match s with
  | EmptyString => EmptyString
  | String a s' =>
      match rtrim c s' with
      | EmptyString => if Ascii.eqb a c then EmptyString else String a EmptyString
      | t => String a t
      end
  end.

(** Modelled from the spec: [Util.trim(str, ch)] of lib/DAV/util.js, which
    is not among the sources.  The spec has it "trim leading/trailing
    slash"; as in the PHP function it ports, every leading and every
    trailing occurrence of the character is removed. *)
Definition trim (s : string) (c : ascii) : string := rtrim c (ltrim c s).

(** A string [s] does not begin with the character [c]. *)
Definition notHead (c : ascii) (s : string) : Prop :=
  match s with String a _ => a <> c | EmptyString => True end.

End Util.

(** ** [lib/DAV/exceptions.js] *)

Module Exc.

(** Modelled from the spec: the exception kinds of lib/DAV/exceptions.js
    (not among the sources) and the status code each one declares.  The
    [Exc.NotFound] and [Exc.MethodNotAllowed] of lib/shared/exceptions,
    which the principal collection raises, are the 404 and the 405 kind.
    [ReferenceError], [TypeError] and [RangeError] are the JavaScript
    run-time errors; [handleError] answers them with 500. *)
Inductive t : Type :=
  | jsDAV_Exception
  | jsDAV_Exception_BadRequest
  | jsDAV_Exception_Forbidden
  | jsDAV_Exception_FileNotFound
  | jsDAV_Exception_MethodNotAllowed
  | jsDAV_Exception_Conflict
  | jsDAV_Exception_PreconditionFailed
  | jsDAV_Exception_UnsupportedMediaType
  | jsDAV_Exception_RequestedRangeNotSatisfiable
  | jsDAV_Exception_NotImplemented
  | ReferenceError
  | TypeError
  | RangeError.

Definition code (e : t) : Z :=
  match e with
  | jsDAV_Exception => 500
  | jsDAV_Exception_BadRequest => 400
  | jsDAV_Exception_Forbidden => 403
  | jsDAV_Exception_FileNotFound => 404
  | jsDAV_Exception_MethodNotAllowed => 405
  | jsDAV_Exception_Conflict => 409
  | jsDAV_Exception_PreconditionFailed => 412
  | jsDAV_Exception_UnsupportedMediaType => 415
  | jsDAV_Exception_RequestedRangeNotSatisfiable => 416
  | jsDAV_Exception_NotImplemented => 501
  | ReferenceError => 500
  | TypeError => 500
  | RangeError => 500
  end%Z.

End Exc.

(** The outcome of a call that either returns or throws (or, for a
    callback, is handed either a value or an error). *)
Inductive result (A : Type) : Type :=
  | Ok (a : A)
  | Throw (e : Exc.t).
Arguments Ok {A} a.
Arguments Throw {A} e.

(** ** [lib/DAV/server.js]: base uri and [calculateUri] *)

Module Uri.

(** [setBaseUri]: a base uri always ends with a slash. *)
Definition endsWithSlash (s : string) : bool :=
  match JS.charAt0 (JS.substr (String.length s - 1) s) with
  | Some c => Ascii.eqb c "/"
  | None => false
  end.

Definition setBaseUri (uri : string) : string :=
  if endsWithSlash uri then uri else uri ++ "/".

Section CalculateUri.

(** [Url.parse(uri).pathname] of node, which is not part of the server:
    the path node finds in an absolute URL, [None] when it finds none
    (the property is then [null]). *)
Variable pathname : string -> option string.

(** The uri after the first two statements of [calculateUri].  A uri that
    does not begin with a slash and holds "://" is replaced by its
    pathname; when there is none, [uri.replace] is called on [null], a
    TypeError. *)
Definition normalize (uri : string) : result string :=
  if negb (match JS.charAt0 uri with Some c => Ascii.eqb c "/" | None => false end)
     && JS.contains "://" uri
  then match pathname uri with
       | Some p => Ok (JS.replace "//" "/" p)
       | None => Throw Exc.TypeError
       end
  else Ok (JS.replace "//" "/" uri).

Definition calculateUri (baseUri uri : string) : result string :=
  match normalize uri with
  | Throw e => Throw e
  | Ok uri =>
      if JS.startsWith baseUri uri then
        Ok (Util.trim (JS.unescape (JS.substr (String.length baseUri) uri)) "/")
      else if String.eqb (uri ++ "/") baseUri then Ok ""
      else Throw Exc.jsDAV_Exception_Forbidden
  end.

End CalculateUri.

End Uri.

(** ** The href property, [jsDAV_Property_Href] *)

Module Href.

(** A DOM node, as far as the property reads it. *)
Inductive DomNode : Type :=
  | Element (namespaceURI localName : string) (childNodes : list DomNode)
  | TextNode (data : string).

Definition getFirstChild (dom : DomNode) : option DomNode :=
  match dom with
  | Element _ _ (c :: _) => Some c
  | _ => None
  end.

Fixpoint textContent (dom : DomNode) : string :=
  match dom with
  | TextNode data => data
  | Element _ _ cs =>
      (fix all (l : list DomNode) : string :=
         match l with
         | [] => EmptyString
         | c :: l' => textContent c ++ all l'
         end) cs
  end.

(** Modelled from the spec: [Util.toClarkNotation] of lib/DAV/util.js,
    which is not among the sources.  An element is named
    [{namespace}local]; anything else (no node, a text node) has no Clark
    name. *)
Definition toClarkNotation (dom : option DomNode) : option string :=
  match dom with
  | Some (Element ns local _) => Some ("{" ++ ns ++ "}" ++ local)
  | _ => None
  end.

(** What [serialize] reads of the server. *)
Record Server : Type := {
  xmlNamespaces : list (string * string);
  baseUri : string
}.

Definition getBaseUri (server : Server) : string := baseUri server.

Fixpoint lookup (k : string) (o : list (string * string)) : option string :=
  match o with
  | [] => None
  | (k', v) :: o' => if String.eqb k k' then Some v else lookup k o'
  end.

(** String concatenation with a value that may be [undefined]. *)
Definition toStr (v : option string) : string :=
  match v with Some s => s | None => "undefined" end.

Record jsDAV_Property_Href : Type := {
  href : string;
  autoPrefix : bool
}.

(** The constructor; [autoPrefix] is [None] when the argument is absent or
    not a boolean. *)
Definition new (href : string) (autoPrefix : option bool) : jsDAV_Property_Href :=
  {| href := href;
     autoPrefix := match autoPrefix with Some b => b | None => true end |}.

Definition getHref (this : jsDAV_Property_Href) : string := href this.

Definition serialize (this : jsDAV_Property_Href) (server : Server) (dom : string)
  : string :=
  let propPrefix := toStr (lookup "DAV:" (xmlNamespaces server)) in
  dom ++ "<" ++ propPrefix ++ ":href>"
      ++ (if autoPrefix this then getBaseUri server else "")
      ++ href this ++ "</" ++ propPrefix ++ ":href>".

(** [unserialize]; [None] is the [undefined] of a function that falls off
    its end. *)
Definition unserialize (dom : DomNode) : option jsDAV_Property_Href :=
  match toClarkNotation (getFirstChild dom) with
  | Some name =>
      if String.eqb name "{DAV:}href" then
        match getFirstChild dom with
        | Some c => Some (new (textContent c) (Some false))
        | None => None
        end
      else None
  | None => None
  end.

(** The text [serialize] puts between the two href tags. *)
Definition emitted (this : jsDAV_Property_Href) (server : Server) : string :=
  (if autoPrefix this then getBaseUri server else "") ++ href this.

End Href.

(** ** [lib/DAVACL/abstractPrincipalCollection.js] *)

Module PrincipalCollection.

(** What a callback has received by the time the call has run its course:
    nothing at all, or an error, or a value. *)
Inductive outcome (A : Type) : Type :=
  | NeverCalled
  | Called (r : result A).
Arguments NeverCalled {A}.
Arguments Called {A} r.

Section Collection.

(** The principal records of the backend and the nodes built from them. *)
Variables PrincipalInfo Node : Type.

(** The principal backend: what it hands to the callback, as
    [(err, value)]; a missing value is [None]. *)
Record Backend : Type := {
  getPrincipalsByPrefix : string -> option Exc.t * list PrincipalInfo;
  getPrincipalByPath : string -> option Exc.t * option PrincipalInfo
}.

Record jsDAVACL_AbstractPrincipalCollection : Type := {
  principalPrefix : string;
  principalBackend : Backend;
  disableListing : bool;
  (** the method a concrete collection supplies *)
  getChildForPrincipal : PrincipalInfo -> outcome Node
}.

(** [initialize]; [disableListing] keeps the prototype's [false]. *)
Definition initialize (backend : Backend) (prefix : option string)
    (childFor : PrincipalInfo -> outcome Node)
  : jsDAVACL_AbstractPrincipalCollection :=
  {| principalPrefix :=
       match prefix with
       | Some p => if JS.truthy p then p else "principals"
       | None => "principals"
       end;
     principalBackend := backend;
     disableListing := false;
     getChildForPrincipal := childFor |}.

(** The [Async.list(principals).each(...).end(...)] of [getChildren].  The
    iterator calls [next] only with an error, so after a first child has
    been built the list is not advanced and [end] is not reached. *)
Definition eachPrincipal (this : jsDAVACL_AbstractPrincipalCollection)
    (principals : list PrincipalInfo) : outcome (list Node) :=
  match principals with
  | [] => Called (Ok [])
  | principalInfo :: _ =>
      match getChildForPrincipal this principalInfo with
      | Called (Throw err) => Called (Throw err)
      | Called (Ok _) => NeverCalled
      | NeverCalled => NeverCalled
      end
  end.

Definition getChildren (this : jsDAVACL_AbstractPrincipalCollection)
  : outcome (list Node) :=
  if disableListing this then
    Called (Throw Exc.jsDAV_Exception_MethodNotAllowed)
  else
    match getPrincipalsByPrefix (principalBackend this) (principalPrefix this) with
    | (Some err, _) => Called (Throw err)
    | (None, principals) => eachPrincipal this principals
    end.

Definition getChild (this : jsDAVACL_AbstractPrincipalCollection) (name : string)
  : outcome Node :=
  match getPrincipalByPath (principalBackend this)
          (principalPrefix this ++ "/" ++ name) with
  | (_, None) => Called (Throw Exc.jsDAV_Exception_FileNotFound)
  | (_, Some principalInfo) => getChildForPrincipal this principalInfo
  end.

End Collection.

Arguments principalPrefix {PrincipalInfo Node} _.
Arguments principalBackend {PrincipalInfo Node} _.
Arguments disableListing {PrincipalInfo Node} _.
Arguments getChildForPrincipal {PrincipalInfo Node} _ _.
Arguments getPrincipalsByPrefix {PrincipalInfo} _ _.
Arguments getPrincipalByPath {PrincipalInfo} _ _.
Arguments getChildren {PrincipalInfo Node} _.
Arguments getChild {PrincipalInfo Node} _ _.

End PrincipalCollection.

(** ** JavaScript values, as far as the server computes with them *)

Module JsVal.

(** Numbers are the integers, [JNaN] the one non-number.  The code
    computes in double precision, which is exact on the integers between
    -2^53 and 2^53 and rounds beyond; a statement below that involves
    arithmetic on a size or an offset taken from the request or from a node
    is made for sizes and offsets in that range ([safeInteger]). *)
Inductive t : Type :=
  | JUndefined
  | JNull
  | JBool (b : bool)
  | JNum (n : Z)
  | JNaN
  | JStr (s : string).

(** [typeof v]. *)
Definition typeof (v : t) : string :=
  match v with
  | JUndefined => "undefined"
  | JNull => "object"
  | JBool _ => "boolean"
  | JNum _ | JNaN => "number"
  | JStr _ => "string"
  end.

(** ToBoolean. *)
Definition truthy (v : t) : bool :=
  match v with
  | JUndefined | JNull | JNaN => false
  | JBool b => b
  | JNum n => negb (Z.eqb n 0)
  | JStr s => JS.truthy s
  end.

Definition isDigit (c : ascii) : bool :=
  ((48 <=? nat_of_ascii c) && (nat_of_ascii c <=? 57))%nat.

Fixpoint digitsVal (acc : Z) (s : string) : option Z :=
  match s with
  | EmptyString => Some acc
  | String c s' =>
      if isDigit c
      then digitsVal (10 * acc + Z.of_nat (nat_of_ascii c - 48)) s'
      else None
  end.

(** ToNumber, [None] being NaN.  Of the strings, the empty one and the
    runs of decimal digits are converted; these are the only strings the
    server subtracts or compares with a number. *)
Definition toNumber (v : t) : option Z :=
  match v with
  | JUndefined | JNaN => None
  | JNull => Some 0%Z
  | JBool b => Some (if b then 1 else 0)%Z
  | JNum n => Some n
  | JStr s => digitsVal 0 s
  end.

Definition ofNumber (n : option Z) : t :=
  match n with Some z => JNum z | None => JNaN end.

(** ToString. *)
Definition toString (v : t) : string :=
  match v with
  | JUndefined => "undefined"
  | JNull => "null"
  | JBool b => if b then "true" else "false"
  | JNum n => NilEmpty.string_of_int (Z.to_int n)
  | JNaN => "NaN"
  | JStr s => s
  end.

(** [a < b]: two strings are compared as strings, code unit by code unit;
    anything else is compared as numbers, and a NaN makes it false. *)
Definition lt (a b : t) : bool :=
  match a, b with
  | JStr s1, JStr s2 => String.ltb s1 s2
  | _, _ =>
      match toNumber a, toNumber b with
      | Some x, Some y => Z.ltb x y
      | _, _ => false
      end
  end.

(** [a > b]. *)
Definition gt (a b : t) : bool := lt b a.

(** [a - b]. *)
Definition sub (a b : t) : t :=
  match toNumber a, toNumber b with
  | Some x, Some y => JNum (x - y)
  | _, _ => JNaN
  end.

(** [a + b] for a number [a] and a number [b]. *)
Definition addNum (a b : t) : t :=
  match toNumber a, toNumber b with
  | Some x, Some y => JNum (x + y)
  | _, _ => JNaN
  end.

(** [a == "literal"] against a non-numeric string literal: only that very
    string is loosely equal to it. *)
Definition looseEqStr (a : t) (lit : string) : bool :=
  match a with JStr s => String.eqb s lit | _ => false end.

(** [parseInt(v)] of a number. *)
Definition parseInt (v : t) : t :=
  match v with
  | JNum n => JNum n
  | JStr s => match s with EmptyString => JNaN | _ => ofNumber (digitsVal 0 s) end
  | _ => JNaN
  end.

(** ToInteger, as an argument that counts bytes. *)
Definition toNat (v : t) : nat :=
  match toNumber v with Some z => Z.to_nat z | None => O end.

(** A non-negative integer that double precision holds exactly, with room
    for one more. *)
Definition safeInteger (n : Z) : Prop := (0 <= n < 2 ^ 53)%Z.

End JsVal.

(** ** [lib/DAV/server.js]: requests, depth, ranges *)

Module Request.

Import JsVal.

(** An object whose keys are strings, in the order of insertion. *)
Fixpoint get {A : Type} (k : string) (o : list (string * A)) : option A :=
  match o with
  | [] => None
  | (k', v) :: o' => if String.eqb k k' then Some v else get k o'
  end.

Fixpoint set {A : Type} (k : string) (v : A) (o : list (string * A)) : list (string * A) :=
  match o with
  | [] => [(k, v)]
  | (k', v') :: o' => if String.eqb k k' then (k, v) :: o' else (k', v') :: set k v o'
  end.

Fixpoint delete {A : Type} (k : string) (o : list (string * A)) : list (string * A) :=
  match o with
  | [] => []
  | (k', v') :: o' => if String.eqb k k' then o' else (k', v') :: delete k o'
  end.

(** The request: node lower-cases the header names and keeps the values as
    strings. *)
Record t : Type := {
  url : string;
  headers : list (string * string)
}.

(** [this.httpRequest.headers[name]]. *)
Definition header (name : string) (req : t) : JsVal.t :=
  match get name (headers req) with
  | Some s => JStr s
  | None => JUndefined
  end.

Definition DEPTH_INFINITY : Z := (-1)%Z.

(** [getHTTPDepth(def)], on the value found under [headers["depth"]]. *)
Definition getHTTPDepth_of (depth : JsVal.t) (def : Z) : JsVal.t :=
  let def := if Z.eqb def 0 then DEPTH_INFINITY else def in
  if negb (truthy depth) then JNum def
  else if looseEqStr depth "infinity" then JNum DEPTH_INFINITY
  else if negb (String.eqb (typeof depth) "number") then JNum def
  else parseInt depth.

Definition getHTTPDepth (req : t) (def : Z) : JsVal.t :=
  getHTTPDepth_of (header "depth" req) def.

(** The depth [httpPropfind] hands to [getPropertiesForPath]:
    [depth = getHTTPDepth(1); if (depth !== 0) depth = 1]. *)
Definition propfindDepth_of (depth : JsVal.t) : Z :=
  match getHTTPDepth_of depth 1 with
  | JNum 0 => 0%Z
  | _ => 1%Z
  end.

Definition propfindDepth (req : t) : Z := propfindDepth_of (header "depth" req).

(** The regular expression of [getHTTPRange]: the text "bytes=" in either
    letter case, a possibly empty run of digits, a dash, a possibly empty
    run of digits, and nothing more.  [matchRange] returns the two runs. *)
Fixpoint spanDigits (s : string) : string * string :=
  match s with
  | EmptyString => (EmptyString, EmptyString)
  | String c s' =>
      if isDigit c
      then let (d, r) := spanDigits s' in (String c d, r)
      else (EmptyString, s)
  end.

Definition matchRange (range : string) : option (string * string) :=
  if String.eqb (JS.toUpperCase (substring 0 6 range)) "BYTES=" then
    let (m1, r1) := spanDigits (JS.substr 6 range) in
    match r1 with
    | String c r2 =>
        if Ascii.eqb c "-" then
          let (m2, r3) := spanDigits r2 in
          match r3 with
          | EmptyString => Some (m1, m2)
          | _ => None
          end
        else None
    | EmptyString => None
    end
  else None.

(** [getHTTPRange()]: [None] is [null]; in the pair an empty group has
    become [JNull], a non-empty one stays a string. *)
Definition getHTTPRange (req : t) : option (JsVal.t * JsVal.t) :=
  match header "range" req with
  | JStr range =>
      if negb (JS.truthy range) then None
      else match matchRange range with
           | None => None
           | Some (m1, m2) =>
               if String.eqb m1 "" && String.eqb m2 "" then None
               else Some (if JS.truthy m1 then JStr m1 else JNull,
                          if JS.truthy m2 then JStr m2 else JNull)
           end
  | _ => None
  end.

End Request.

(** ** [lib/DAV/server.js]: the body of [httpGet] *)

Module Get.

Import JsVal Request.

Record Response : Type := {
  status : Z;
  respHeaders : list (string * JsVal.t);
  respBody : string
}.

(** [o[k]] of an object of values. *)
Definition field (k : string) (o : list (string * JsVal.t)) : JsVal.t :=
  match get k o with Some v => v | None => JUndefined end.

(** node's [source.copy(target, targetStart, sourceStart)]: bytes of
    [source] from [sourceStart] on are written into [target] from
    [targetStart] on, as many as fit; the result is [target] afterwards. *)
Definition Buffer_copy (source target : string) (targetStart sourceStart : nat)
  : string :=
  let room := (String.length target - targetStart)%nat in
  let data := substring sourceStart room source in
  substring 0 targetStart target ++ data
    ++ JS.substr (targetStart + String.length data) target.

Section Respond.

(** [new Date(v).getTime()], [None] for an invalid date. *)
Variable parseDate : JsVal.t -> option Z.

(** What [new Buffer(n)] holds before anything is written to it. *)
Variable newBuffer : nat -> string.

(** [modified > ifRangeDate] on two dates. *)
Definition dateGt (a b : option Z) : bool :=
  match a, b with
  | Some x, Some y => Z.ltb y x
  | _, _ => false
  end.

(** The [if (nodeSize && range && ifRange)] block.  [new Date] does not
    throw, so the [catch] branch with the ETag comparison is never run. *)
Definition ignoreRange (httpHeaders : list (string * JsVal.t)) (ifRange : JsVal.t)
  : bool :=
  if negb (truthy (field "Last-Modified" httpHeaders)) then true
  else dateGt (parseDate (field "Last-Modified" httpHeaders)) (parseDate ifRange).

(** The 206 answer, once [start] and [end] are known.  [new Buffer(offlen)]
    throws a RangeError for a size that is negative or not a number, and
    [body.copy(newStream, offlen, start)] throws one for a [start] beyond
    the end of [body].  Both are thrown inside the callback of
    [getHTTPHeaders]; of the errors below, RangeError is the one that is
    thrown and not handed to [handleError].  A size above the largest
    buffer node allocates, which no content held in memory reaches, is not
    told apart. *)
Definition partial (httpHeaders : list (string * JsVal.t)) (nodeSize start end_ : JsVal.t)
    (body : string) : result Response :=
  let offlen := addNum (sub end_ start) (JNum 1) in
  match toNumber offlen with
  | None => Throw Exc.RangeError
  | Some size =>
      if (size <? 0)%Z then Throw Exc.RangeError
      else if (String.length body <? toNat start)%nat then Throw Exc.RangeError
      else
        let newStream := newBuffer (toNat offlen) in
        let newStream := Buffer_copy body newStream (toNat offlen) (toNat start) in
        let httpHeaders := set "Content-Length" offlen httpHeaders in
        let httpHeaders :=
          set "Content-Range"
              (JStr ("bytes " ++ toString start ++ "-" ++ toString end_ ++ "/"
                              ++ toString nodeSize)) httpHeaders in
        Ok {| status := 206; respHeaders := httpHeaders; respBody := newStream |}
  end.

(** The [if (!ignoreRangeHeader && nodeSize && range)] block. *)
Definition ranged (httpHeaders : list (string * JsVal.t)) (nodeSize : JsVal.t)
    (range : JsVal.t * JsVal.t) (body : string) : result Response :=
  if truthy (fst range) then
    let start := fst range in
    let end_ := if truthy (snd range) then snd range else sub nodeSize (JNum 1) in
    if gt start nodeSize then
      Throw Exc.jsDAV_Exception_RequestedRangeNotSatisfiable
    else if lt end_ start then
      Throw Exc.jsDAV_Exception_RequestedRangeNotSatisfiable
    else
      let end_ := if gt end_ nodeSize then sub nodeSize (JNum 1) else end_ in
      partial httpHeaders nodeSize start end_ body
  else
    let start := sub nodeSize (snd range) in
    let end_ := sub nodeSize (JNum 1) in
    let start := if lt start (JNum 0) then JNum 0 else start in
    partial httpHeaders nodeSize start end_ body.

(** The callback of [getHTTPHeaders] in [httpGet]: from the headers of the
    node and its content to the response. *)
Definition respond (req : Request.t) (httpHeaders : list (string * JsVal.t))
    (body : string) : result Response :=
  let httpHeaders :=
    if negb (truthy (field "Content-Type" httpHeaders))
    then set "Content-Type" (JStr "application/octet-stream") httpHeaders
    else httpHeaders in
  let nodeSize :=
    if truthy (field "Content-Length" httpHeaders)
    then field "Content-Length" httpHeaders else JNull in
  let httpHeaders :=
    if truthy (field "Content-Length" httpHeaders)
    then delete "Content-Length" httpHeaders else httpHeaders in
  let range := getHTTPRange req in
  let ifRange := header "if-range" req in
  let ignoreRangeHeader :=
    match range with
    | Some _ =>
        if truthy nodeSize && truthy ifRange
        then ignoreRange httpHeaders ifRange else false
    | None => false
    end in
  match range with
  | Some r =>
      if negb ignoreRangeHeader && truthy nodeSize
      then ranged httpHeaders nodeSize r body
      else
        Ok {| status := 200;
              respHeaders := if truthy nodeSize
                             then set "Content-Length" nodeSize httpHeaders
                             else httpHeaders;
              respBody := body |}
  | None =>
      Ok {| status := 200;
            respHeaders := if truthy nodeSize
                           then set "Content-Length" nodeSize httpHeaders
                           else httpHeaders;
            respBody := body |}
  end.

End Respond.

(** A date reader for the examples: a run of digits is a time. *)
Definition digitsDate (v : JsVal.t) : option Z :=
  match v with JStr s => digitsVal 0 s | JNum n => Some n | _ => None end.

(** A [new Buffer(n)] that comes filled with NUL bytes. *)
Fixpoint zeroBuffer (n : nat) : string :=
  match n with
  | O => EmptyString
  | S n' => String zero (zeroBuffer n')
  end.

End Get.

(** ** [lib/DAV/server.js]: nodes and property values *)

Module Node.

(** The [resourceType] field of a [jsDAV_Property_ResourceType]. *)
Inductive ResourceType : Type :=
  | RTNull
  | RTNum (n : Z)
  | RTStr (s : string)
  | RTList (l : list string).

Definition NODE_FILE : Z := 1.
Definition NODE_DIRECTORY : Z := 2.

(** The constructor of lib/DAV/property/resourceType.js. *)
Definition jsDAV_Property_ResourceType (resourceType : ResourceType) : ResourceType :=
  match resourceType with
  | RTNum 1 => RTNull
  | RTNum 2 => RTStr "{DAV:}collection"
  | other => other
  end.

(** A property value: a plain JavaScript value or one of the property
    objects the server creates. *)
Inductive PropValue : Type :=
  | Plain (v : JsVal.t)
  | GetLastModified (time : JsVal.t)
  | ResourceTypeProp (resourceType : ResourceType)
  | SupportedReportSet.

(** A node, by what the server asks of it: [hasFeature] for the four
    interfaces, and the getters; [get] is what [node.get] hands to its
    callback, the content or an error. *)
Record t : Type := {
  path : string;
  IFILE : bool;
  ICOLLECTION : bool;
  IPROPERTIES : bool;
  IQUOTA : bool;
  getETag : option string;
  getLastModified : JsVal.t;
  getSize : Z;
  getContentType : option string;
  getQuotaInfo : JsVal.t * JsVal.t;
  getProperties : list string -> list (string * PropValue);
  get : result string
}.

End Node.

(** ** [lib/DAV/server.js]: [checkPreconditions] *)

Module Precond.

Import JsVal Request.

(** The double quote, and a string between double quotes. *)
Definition dquote : ascii := ascii_of_nat 34.
Definition quoted (s : string) : string := String dquote (s ++ String dquote "").

(** How [checkPreconditions] ends. *)
Inductive Verdict : Type :=
  | Failed (e : Exc.t)        (* cbprecond(err) *)
  | Redirected (status : Z)   (* the status is written, the response ended,
                                 and cbprecond(null, true) *)
  | Passed                    (* cbprecond(null, false) *)
  | Silent                    (* cbprecond is not called *)
  | Crashed (e : Exc.t).      (* an exception thrown before cbprecond is
                                 called *)

Section CheckPreconditions.

Variable pathname : string -> option string.
Variable baseUri : string.
Variable getNodeForPath : string -> result Node.t.
Variable parseDate : JsVal.t -> option Z.
Variable req : Request.t.
Variable handleAsGET : bool.

Definition getRequestUri : result string :=
  Uri.calculateUri pathname baseUri (url req).

(** [etag !== s] and [etag === s] for the value [getETag()] returned. *)
Definition etagIs (etag : option string) (s : string) : bool :=
  match etag with Some e => String.eqb e s | None => false end.

Definition etagTruthy (etag : option string) : bool :=
  match etag with Some e => JS.truthy e | None => false end.

(** [afterIfModifiedSince]; [node] is the closure variable.  Where the
    node has changed after the date, [finale] calls
    [Exc.jsDAV_Exception_PreconditionFailed(...)] without [new]: what the
    callback is handed is what that call returns.  The constructor is in
    lib/DAV/exceptions.js, which is not among the sources; as a
    constructor it returns nothing, so the callback is handed
    [undefined], and a callback without an error goes on as after
    [cbprecond(null, false)]. *)
Definition afterIfModifiedSince (uri : string) (node : option Node.t) : Verdict :=
  let ifUnmodifiedSince := header "if-unmodified-since" req in
  if truthy ifUnmodifiedSince then
    let date := parseDate ifUnmodifiedSince in
    let finale (node : Node.t) : Verdict :=
      let lastMod := Node.getLastModified node in
      if truthy lastMod
         && Get.dateGt (parseDate (JStr ("@" ++ toString lastMod))) date
      then Passed
      else Passed in
    match node with
    | None =>
        match getNodeForPath uri with
        | Throw err => Failed err
        | Ok n => finale n
        end
    | Some n => finale n
    end
  else Passed.

(** [afterIfNoneMatch].  It is declared inside the [if (ifNoneMatch = ...)]
    block and only called there, with [ifNoneMatch] the header as it was
    read. *)
Definition afterIfNoneMatch (ifNoneMatch : JsVal.t) (uri : string)
    (node : option Node.t) : Verdict :=
  let ifModifiedSince := header "if-modified-since" req in
  if negb (truthy ifNoneMatch) && truthy ifModifiedSince then
    match node with
    | None =>
        match getNodeForPath uri with
        | Throw err => Failed err
        | Ok _ => Crashed Exc.TypeError
        end
    | Some _ => Silent
    end
  else afterIfModifiedSince uri node.

(** [afterIfMatch]; [node] is set when an If-Match header made the server
    fetch it. *)
Definition afterIfMatch (uri : string) (node : option Node.t) : Verdict :=
  match header "if-none-match" req with
  | JStr ifNoneMatch =>
      if JS.truthy ifNoneMatch then
        match node with
        | None =>
            match getNodeForPath uri with
            | Ok n =>
                let ifNoneMatch := Util.trim ifNoneMatch dquote in
                if String.eqb ifNoneMatch "*"
                   || (etagTruthy (Node.getETag n) && etagIs (Node.getETag n) ifNoneMatch)
                then
                  if handleAsGET then Redirected 304
                  else Failed Exc.jsDAV_Exception_PreconditionFailed
                else Silent
            | Throw _ => afterIfNoneMatch (JStr ifNoneMatch) uri None
            end
        | Some n => afterIfNoneMatch (JStr ifNoneMatch) uri (Some n)
        end
      else Passed
  | _ => Passed
  end.

Definition checkPreconditions : Verdict :=
  match getRequestUri with
  | Throw ex => Failed ex
  | Ok uri =>
      match header "if-match" req with
      | JStr ifMatch =>
          if JS.truthy ifMatch then
            match getNodeForPath uri with
            | Throw _ => Failed Exc.jsDAV_Exception_PreconditionFailed
            | Ok n =>
                if negb (String.eqb ifMatch "*")
                   && negb (etagIs (Node.getETag n) (Util.trim ifMatch dquote))
                then Failed Exc.jsDAV_Exception_PreconditionFailed
                else afterIfMatch uri (Some n)
            end
          else afterIfMatch uri None
      | _ => afterIfMatch uri None
      end
  end.

End CheckPreconditions.

End Precond.

(** ** [lib/DAV/server.js]: [updateProperties] *)

Module Update.

Import JsVal Request.

(** A JavaScript array, as [updateProperties] uses the three it creates:
    [arr[name] = null] adds the key [name], and [length] is one more than
    the largest array index among the keys.  A key is an array index when
    it is the decimal numeral, without leading zero, of an integer below
    2^32 - 1. *)
Record JsArray : Type := {
  length : N;
  keys : list string
}.

Definition emptyArray : JsArray := {| length := 0; keys := [] |}.

Definition arrayIndex (k : string) : option N :=
  match k with
  | EmptyString => None
  | String c rest =>
      if isDigit c && (negb (Ascii.eqb c "0") || String.eqb rest "") then
        match digitsVal 0 k with
        | Some z => if (z <? 2 ^ 32 - 1)%Z then Some (Z.to_N z) else None
        | None => None
        end
      else None
  end.

Definition mem (k : string) (l : list string) : bool :=
  existsb (String.eqb k) l.

(** [arr[k] = null].  The key "length" is the length itself: [null] sets
    it to 0, which removes every element under an array index. *)
Definition assign (k : string) (arr : JsArray) : JsArray :=
  if String.eqb k "length" then
    {| length := 0;
       keys := filter (fun k' => match arrayIndex k' with
                                 | Some _ => false
                                 | None => true
                                 end) (keys arr) |}
  else
    {| length := match arrayIndex k with
                 | Some i => N.max (length arr) (i + 1)
                 | None => length arr
                 end;
       keys := if mem k (keys arr) then keys arr else (keys arr ++ [k])%list |}.

(** [result[status][k] = null] on the object of status buckets. *)
Definition assignIn (status k : string) (result : list (string * JsArray))
  : list (string * JsArray) :=
  match get status result with
  | Some arr => set status (assign k arr) result
  | None => result
  end.

Definition assignAll (status : string) (names : list string)
    (result : list (string * JsArray)) : list (string * JsArray) :=
  fold_left (fun r k => assignIn status k r) names result.

Definition protectedProperties : list string :=
  [ "{DAV:}getcontentlength"; "{DAV:}getetag"; "{DAV:}getlastmodified";
    "{DAV:}lockdiscovery"; "{DAV:}resourcetype"; "{DAV:}supportedlock";
    "{DAV:}quota-available-bytes"; "{DAV:}quota-used-bytes";
    "{DAV:}alternate-URI-set"; "{DAV:}principal-URL"; "{DAV:}group-membership";
    "{DAV:}supported-privilege-set"; "{DAV:}current-user-privilege-set";
    "{DAV:}acl"; "{DAV:}acl-restrictions"; "{DAV:}inherited-acl-set";
    "{DAV:}principal-collection-set"; "{DAV:}current-user-principal" ].

(** [this.protectedProperties.indexOf(name) > -1]. *)
Definition isProtected (name : string) : bool := mem name protectedProperties.

(** What [node.updateProperties] may return. *)
Inductive NodeUpdate : Type :=
  | UTrue
  | UFalse
  | UNull
  | UObject (r : list (string * JsArray))
  | UOther.

(** What [updateProperties] returns: the status buckets left, and [href]. *)
Record Result : Type := {
  statuses : list (string * JsArray);
  href : string
}.

Definition initial : list (string * JsArray) :=
  [("200", emptyArray); ("403", emptyArray); ("424", emptyArray)].

(** The buckets as they stand before the empty ones are removed:
    [remaining] are the keys still in [remainingProperties]. *)
Definition withRemaining (result : list (string * JsArray)) (remaining : list string)
  : list (string * JsArray) :=
  assignAll "424" remaining result.

(** "Removing empty array values": every bucket whose [length] is 0 goes. *)
Definition strip (result : list (string * JsArray)) : list (string * JsArray) :=
  filter (fun e => negb (N.eqb (length (snd e)) 0)) result.

(** All buckets of [result] have length 0. *)
Definition allEmpty (result : list (string * JsArray)) : Prop :=
  Forall (fun e => length (snd e) = 0%N) result.

Definition finish (result : list (string * JsArray)) (remaining : list string)
    (uri : string) : Result :=
  {| statuses := strip (withRemaining result remaining); href := uri |}.

Section UpdateProperties.

(** The store behind the nodes, and [node.updateProperties(properties)]
    acting on it. *)
Variable Store : Type.
Variable node_updateProperties :
  Node.t -> list (string * Node.PropValue) -> Store -> NodeUpdate * Store.

Variable getNodeForPath : string -> result Node.t.

Definition names (properties : list (string * Node.PropValue)) : list string :=
  map fst properties.

(** [updateProperties(uri, properties)].  [remainingProperties] is the very
    object [properties], so the [delete] in the loop over the protected
    names removes them from both. *)
Definition updateProperties (uri : string)
    (properties : list (string * Node.PropValue)) (store : Store)
  : result Result * Store :=
  match getNodeForPath uri with
  | Throw e => (Throw e, store)
  | Ok node =>
      if negb (Node.IPROPERTIES node) then
        (Ok (finish (assignAll "403" (names properties) initial) [] uri), store)
      else
        let result := assignAll "403" (filter isProtected (names properties)) initial in
        let remainingProperties :=
          filter (fun n => negb (isProtected n)) (names properties) in
        if existsb isProtected (names properties) then
          (Ok (finish result remainingProperties uri), store)
        else
          let (updateResult, store') := node_updateProperties node properties store in
          match updateResult with
          | UTrue =>
              (Ok (finish (assignAll "200" (names properties) result) [] uri), store')
          | UFalse => (Throw Exc.ReferenceError, store')
          | UObject r => (Ok (finish r [] uri), store')
          | UNull => (Throw Exc.TypeError, store')
          | UOther => (Throw Exc.jsDAV_Exception, store')
          end
  end.

End UpdateProperties.

End Update.

(** ** [lib/DAV/server.js]: [getCopyAndMoveInfo] and [httpMove] *)

Module CopyMove.

Import JsVal Request.

(** Modelled from the spec: [Util.splitPath] of lib/DAV/util.js, which is
    not among the sources; the spec has it "split parent/name".  The parent
    is what precedes the last slash, the name what follows it. *)
Fixpoint splitPath (path : string) : string * string :=
  match path with
  | EmptyString => (EmptyString, EmptyString)
  | String c rest =>
      let (parent, name) := splitPath rest in
      if JS.contains "/" rest then (String c parent, name)
      else if Ascii.eqb c "/" then (EmptyString, rest)
      else (EmptyString, String c rest)
  end.

(** [err.type == "jsDAV_Exception_FileNotFound"]. *)
Definition isFileNotFound (e : Exc.t) : bool :=
  match e with Exc.jsDAV_Exception_FileNotFound => true | _ => false end.

(** The Overwrite header: absent or empty it counts as "T"; [None] is the
    value that is neither T nor F once upper-cased. *)
Definition overwriteFlag (overwrite : JsVal.t) : option bool :=
  let overwrite :=
    match overwrite with
    | JStr s => if JS.truthy s then s else "T"
    | _ => "T"
    end in
  if String.eqb (JS.toUpperCase overwrite) "T" then Some true
  else if String.eqb (JS.toUpperCase overwrite) "F" then Some false
  else None.

Record Info : Type := {
  source : string;
  destination : string;
  destinationExists : bool;
  destinationNode : option Node.t
}.

(** What the client is sent: a status written by the handler, or the error
    document [handleError] makes of an exception, under the code of the
    exception. *)
Inductive Reply : Type :=
  | Status (code : Z)
  | Error (e : Exc.t).

Definition statusOf (r : Reply) : Z :=
  match r with Status c => c | Error e => Exc.code e end.

Section Tree.

(** The tree: its state, the lookup, and the two operations that change
    it, [node.delete()] and [tree.move(source, destination)].  Such an
    operation hands its callback an error or none, and leaves a tree
    behind in either case. *)
Variable Tree : Type.
Variable getNodeForPath : Tree -> string -> result Node.t.
Variable delete : Tree -> Node.t -> option Exc.t * Tree.
Variable move : Tree -> string -> string -> option Exc.t * Tree.

Variable pathname : string -> option string.
Variable baseUri : string.

Definition getCopyAndMoveInfo (tree : Tree) (req : Request.t) : result Info :=
  match Uri.calculateUri pathname baseUri (url req) with
  | Throw ex => Throw ex
  | Ok source =>
      match header "destination" req with
      | JStr dest =>
          if negb (JS.truthy dest) then Throw Exc.jsDAV_Exception_BadRequest
          else
            match Uri.calculateUri pathname baseUri dest with
            | Throw ex => Throw ex
            | Ok destination =>
                match overwriteFlag (header "overwrite" req) with
                | None => Throw Exc.jsDAV_Exception_BadRequest
                | Some overwrite =>
                    let destinationDir := fst (splitPath destination) in
                    match getNodeForPath tree destinationDir with
                    | Throw err =>
                        Throw (if isFileNotFound err
                               then Exc.jsDAV_Exception_Conflict else err)
                    | Ok destinationParent =>
                        if negb (Node.ICOLLECTION destinationParent) then
                          Throw Exc.jsDAV_Exception_UnsupportedMediaType
                        else
                          match getNodeForPath tree destination with
                          | Throw err =>
                              if isFileNotFound err then
                                Ok {| source := source;
                                      destination := destination;
                                      destinationExists := false;
                                      destinationNode := None |}
                              else Throw err
                          | Ok node =>
                              if negb overwrite then
                                Throw Exc.jsDAV_Exception_PreconditionFailed
                              else
                                Ok {| source := source;
                                      destination := destination;
                                      destinationExists := true;
                                      destinationNode := Some node |}
                          end
                    end
                end
            end
      | _ => Throw Exc.jsDAV_Exception_BadRequest
      end
  end.

(** [httpMove]: the reply and the tree afterwards. *)
Definition httpMove (tree : Tree) (req : Request.t) : Reply * Tree :=
  match getCopyAndMoveInfo tree req with
  | Throw err => (Error err, tree)
  | Ok moveInfo =>
      let afterDelete (tree : Tree) : Reply * Tree :=
        match move tree (source moveInfo) (destination moveInfo) with
        | (Some err, tree') => (Error err, tree')
        | (None, tree') =>
            (Status (if destinationExists moveInfo then 204 else 201), tree')
        end in
      if destinationExists moveInfo then
        match destinationNode moveInfo with
        | Some node =>
            match delete tree node with
            | (Some err, tree') => (Error err, tree')
            | (None, tree') => afterDelete tree'
            end
        | None => (Error Exc.TypeError, tree)
        end
      else afterDelete tree
  end.

End Tree.

End CopyMove.

(** ** [lib/DAV/server.js]: [getPropertiesForPath] *)

Module Propfind.

Import JsVal Node Request.

(** [newProperties]: the two status buckets, and [href] once
    [afterGetProperty] has assigned it. *)
Record Entry : Type := {
  p200 : list (string * PropValue);
  p404 : list (string * PropValue);
  href : option string
}.

Definition resourcetype : string := "{DAV:}resourcetype".

(** [typeof v != "undefined"] for what a bucket holds under a key. *)
Definition defined (v : option PropValue) : bool :=
  match v with
  | None | Some (Plain JUndefined) => false
  | Some _ => true
  end.

(** Truthiness of what a bucket holds under a key; objects are truthy. *)
Definition truthyProp (v : option PropValue) : bool :=
  match v with
  | None => false
  | Some (Plain x) => truthy x
  | Some _ => true
  end.

(** [v.getValue()]: the resource type property has the method, a value
    without it makes the call a TypeError. *)
Definition getValue (v : PropValue) : result ResourceType :=
  match v with
  | ResourceTypeProp rt => Ok rt
  | _ => Throw Exc.TypeError
  end.

Definition isNull (rt : ResourceType) : bool :=
  match rt with RTNull => true | _ => false end.

(** Modelled from the spec: [Util.makeUnique] of lib/DAV/util.js, which is
    not among the sources; it is "making sure there's no double entries".
    The first occurrence of each name is kept. *)
Fixpoint makeUnique (l : list string) : list string :=
  match l with
  | [] => []
  | x :: l' => x :: filter (fun y => negb (String.eqb y x)) (makeUnique l')
  end.

Definition defaultProperties : list string :=
  [ "{DAV:}getlastmodified"; "{DAV:}getcontentlength"; "{DAV:}resourcetype";
    "{DAV:}quota-used-bytes"; "{DAV:}quota-available-bytes"; "{DAV:}getetag";
    "{DAV:}getcontenttype" ].

(** [afterGetProperty(rprop, rpath, remRT, newProps, cbnext)], up to the
    store into [returnPropertyList]; no plugin listens to
    "afterGetProperties". *)
Definition afterGetProperty (allProperties : bool) (rprop rpath : string)
    (remRT : bool) (newProps : Entry) : result Entry :=
  let p404' :=
    if negb allProperties && truthyProp (get rprop (p200 newProps))
    then delete rprop (p404 newProps) else p404 newProps in
  let rpath := Util.trim rpath "/" in
  let rt := get resourcetype (p200 newProps) in
  let slash : result bool :=
    if negb (String.eqb rpath "") && truthyProp rt then
      match rt with
      | Some v =>
          match getValue v with
          | Ok r => Ok (negb (isNull r))
          | Throw e => Throw e
          end
      | None => Ok false
      end
    else Ok false in
  match slash with
  | Throw e => Throw e
  | Ok slash =>
      Ok {| p200 := if remRT then delete resourcetype (p200 newProps)
                    else p200 newProps;
            p404 := p404';
            href := Some (if slash then rpath ++ "/" else rpath) |}
  end.

(** The chain of [if (prop == ...)] in the inner loop: [None] when the
    branch goes straight on to the next property, [Some v] when it ends in
    [afterGetProperty], after storing [v] in the 200 bucket if there is
    one. *)
Definition provide (node : Node.t) (prop : string) : option (option PropValue) :=
  if String.eqb prop "{DAV:}getlastmodified" then
    Some (Some (GetLastModified (getLastModified node)))
  else if String.eqb prop "{DAV:}getcontentlength" then
    if IFILE node then Some (Some (Plain (parseInt (JNum (getSize node))))) else None
  else if String.eqb prop "{DAV:}resourcetype" then
    Some (Some (ResourceTypeProp
                  (jsDAV_Property_ResourceType
                     (RTNum (if ICOLLECTION node then NODE_DIRECTORY else NODE_FILE)))))
  else if String.eqb prop "{DAV:}quota-used-bytes" then
    if IQUOTA node then Some (Some (Plain (fst (getQuotaInfo node)))) else None
  else if String.eqb prop "{DAV:}quota-available-bytes" then
    if IQUOTA node then Some (Some (Plain (snd (getQuotaInfo node)))) else None
  else if String.eqb prop "{DAV:}getetag" then
    if IFILE node then
      Some (match getETag node with
            | Some etag => if JS.truthy etag then Some (Plain (JStr etag)) else None
            | None => None
            end)
    else None
  else if String.eqb prop "{DAV:}getcontenttype" then
    if IFILE node then
      Some (match getContentType node with
            | Some ct => if JS.truthy ct then Some (Plain (JStr ct)) else None
            | None => None
            end)
    else None
  else if String.eqb prop "{DAV:}supported-report-set" then
    Some (Some SupportedReportSet)
  else None.

(** One round of the inner loop.  The state is [newProperties] and whether
    it has been stored in [returnPropertyList] yet; what is stored is the
    object itself, so the list sees every later change. *)
Definition each (allProperties remRT : bool) (myPath : string) (node : Node.t)
    (state : result (Entry * bool)) (prop : string) : result (Entry * bool) :=
  match state with
  | Throw e => Throw e
  | Ok (newProperties, stored) =>
      if defined (get prop (p200 newProperties)) then Ok (newProperties, stored)
      else
        match provide node prop with
        | None => Ok (newProperties, stored)
        | Some v =>
            let newProperties :=
              match v with
              | Some x => {| p200 := set prop x (p200 newProperties);
                             p404 := p404 newProperties;
                             href := href newProperties |}
              | None => newProperties
              end in
            match afterGetProperty allProperties prop myPath remRT newProperties with
            | Ok np => Ok (np, true)
            | Throw e => Throw e
            end
        end
  end.

(** [propertyNames] as the inner loop of a node finds it, and [removeRT]. *)
Definition namesFor (allProperties : bool) (own : list (string * PropValue))
    (propertyNames : list string) : list string * bool :=
  let propertyNames :=
    if allProperties
    then makeUnique (defaultProperties ++ map fst own)%list
    else propertyNames in
  if Update.mem resourcetype propertyNames then (propertyNames, false)
  else ((propertyNames ++ [resourcetype])%list, true).

(** The outer loop body for the node under [myPath]: the property names
    left behind for the next node, and the entry, if one was stored. *)
Definition forNode (allProperties : bool) (propertyNames : list string)
    (myPath : string) (node : Node.t)
  : result (list string * option Entry) :=
  let own := if IPROPERTIES node then getProperties node propertyNames else [] in
  let newProperties := {| p200 := own; p404 := []; href := None |} in
  let (propertyNames, removeRT) := namesFor allProperties own propertyNames in
  match fold_left (each allProperties removeRT myPath node) propertyNames
          (Ok (newProperties, false)) with
  | Throw e => Throw e
  | Ok (np, stored) => Ok (propertyNames, if stored then Some np else None)
  end.

(** [nodes]: the object literal has the target under the key "path"; every
    child is then added under its own [path].  (A key that is an array
    index would be enumerated before the others; nothing below depends on
    the order of the nodes.) *)
Definition nodesOf (parentNode : Node.t) (cNodes : list Node.t)
  : list (string * Node.t) :=
  fold_left (fun nodes c => set (Node.path c) c nodes) cNodes [("path", parentNode)].

(** The outer loop. *)
Fixpoint forNodes (allProperties : bool) (propertyNames : list string)
    (nodes : list (string * Node.t)) (returnPropertyList : list (string * Entry))
  : result (list (string * Entry)) :=
  match nodes with
  | [] => Ok returnPropertyList
  | (myPath, node) :: rest =>
      match forNode allProperties propertyNames myPath node with
      | Throw e => Throw e
      | Ok (propertyNames, Some np) =>
          forNodes allProperties propertyNames rest
            (set (Util.trim myPath "/") np returnPropertyList)
      | Ok (propertyNames, None) =>
          forNodes allProperties propertyNames rest returnPropertyList
      end
  end.

Section Tree.

Variable getNodeForPath : string -> result Node.t.
Variable getChildren : Node.t -> result (list Node.t).

Definition getPropertiesForPath (path : string) (propertyNames : list string)
    (depth : Z) : result (list (string * Entry)) :=
  let depth := if Z.eqb depth 0 then 0%Z else 1%Z in
  match getNodeForPath path with
  | Throw err => Throw err
  | Ok parentNode =>
      let allProperties := (List.length propertyNames =? 0)%nat in
      if Z.eqb depth 1 && ICOLLECTION parentNode then
        match getChildren parentNode with
        | Throw err => Throw err
        | Ok cNodes =>
            forNodes allProperties propertyNames (nodesOf parentNode cNodes) []
        end
      else forNodes allProperties propertyNames (nodesOf parentNode []) []
  end.

(** [httpPropfind], from the parsed request on: the multi-status entries. *)
Definition httpPropfind (pathname : string -> option string) (baseUri : string)
    (req : Request.t) (requestedProperties : list string)
  : result (list (string * Entry)) :=
  let depth := propfindDepth req in
  match Uri.calculateUri pathname baseUri (url req) with
  | Throw ex => Throw ex
  | Ok path => getPropertiesForPath path requestedProperties depth
  end.

End Tree.



(** [s] ends with a slash. *)
Definition endsWithSlash (s : string) : Prop := exists t, s = t ++ "/".



End Propfind.

(** ** Requests with one more header; runs of digits *)

Module Headers.

(** The request [req] with the header [name: value] in front of the
    others, so that it is the one [headers[name]] finds. *)
Definition withHeader (name value : string) (req : Request.t) : Request.t :=
  {| Request.url := Request.url req;
     Request.headers := (name, value) :: Request.headers req |}.

(** Every character of [s] is a decimal digit. *)
Fixpoint allDigits (s : string) : bool :=
  match s with
  | EmptyString => true
  | String c s' => JsVal.isDigit c && allDigits s'
  end.

(** A group of the range expression as [getHTTPRange] returns it. *)
Definition group (m : string) : JsVal.t :=
  if JS.truthy m then JsVal.JStr m else JsVal.JNull.

(** [v] is [null] or a non-empty run of digits. *)
Definition nullOrDigits (v : JsVal.t) : Prop :=
  v = JsVal.JNull
  \/ exists d, v = JsVal.JStr d /\ d <> "" /\ allDigits d = true.

End Headers.

(** ** [lib/DAV/server.js]: [httpCopy], [httpDelete], [httpPut], [httpOptions] *)

Module Handlers.

Import JsVal Request.

(** [arr.join(",")]. *)
Fixpoint join (l : list string) : string :=
  match l with
  | [] => EmptyString
  | [x] => x
  | x :: rest => x ++ "," ++ join rest
  end.

(** The methods every uri allows. *)
Definition baseMethods : list string :=
  [ "OPTIONS"; "GET"; "HEAD"; "DELETE"; "PROPFIND"; "PUT"; "PROPPATCH";
    "COPY"; "MOVE"; "REPORT" ].

Definition VERSION : string := "0.1".

(** How a request that goes through callbacks ends: with an answer, with
    an exception thrown inside a callback of the tree, for which the
    handler sends nothing, or with nothing at all. *)
Inductive Outcome : Type :=
  | Answered (r : CopyMove.Reply)
  | Uncaught (e : Exc.t)
  | Unanswered.

Section Tree.

(** The tree and the operations of its nodes that change it:
    [node.delete()], [tree.move], [tree.copy], [node.put(data)] and
    [parent.createFile(name, data)].  Each hands its callback an error or
    none, and leaves a tree behind in either case. *)
Variable Tree : Type.
Variable getNodeForPath : Tree -> string -> result Node.t.
Variable delete : Tree -> Node.t -> option Exc.t * Tree.
Variable move : Tree -> string -> string -> option Exc.t * Tree.
Variable copy : Tree -> string -> string -> option Exc.t * Tree.
Variable put : Tree -> Node.t -> string -> option Exc.t * Tree.
Variable node_createFile : Tree -> Node.t -> string -> string -> option Exc.t * Tree.

Variable pathname : string -> option string.
Variable baseUri : string.
Variable parseDate : JsVal.t -> option Z.

(** [httpCopy]: the reply and the tree afterwards. *)
Definition httpCopy (tree : Tree) (req : Request.t) : CopyMove.Reply * Tree :=
  match CopyMove.getCopyAndMoveInfo Tree getNodeForPath pathname baseUri tree req with
  | Throw err => (CopyMove.Error err, tree)
  | Ok copyInfo =>
      let afterDelete (tree : Tree) : CopyMove.Reply * Tree :=
        match copy tree (CopyMove.source copyInfo) (CopyMove.destination copyInfo) with
        | (Some err, tree') => (CopyMove.Error err, tree')
        | (None, tree') =>
            (CopyMove.Status (if CopyMove.destinationExists copyInfo then 204 else 201),
             tree')
        end in
      if CopyMove.destinationExists copyInfo then
        match CopyMove.destinationNode copyInfo with
        | Some node =>
            match delete tree node with
            | (Some err, tree') => (CopyMove.Error err, tree')
            | (None, tree') => afterDelete tree'
            end
        | None => (CopyMove.Error Exc.TypeError, tree)
        end
      else afterDelete tree
  end.

(** [httpDelete]. *)
Definition httpDelete (tree : Tree) (req : Request.t) : CopyMove.Reply * Tree :=
  match Uri.calculateUri pathname baseUri (url req) with
  | Throw ex => (CopyMove.Error ex, tree)
  | Ok uri =>
      match getNodeForPath tree uri with
      | Throw err => (CopyMove.Error err, tree)
      | Ok node =>
          match delete tree node with
          | (Some err, tree') => (CopyMove.Error err, tree')
          | (None, tree') => (CopyMove.Status 204, tree')
          end
      end
  end.

(** [createFile(uri, data, cbcreatefile)]: what the callback is handed
    ([None] for no error), and the tree afterwards.  The parent is not
    asked whether it is a collection: on a node that is none, and so has
    no method [createFile], the call is a TypeError and the callback is
    never reached. *)
Definition createFile (tree : Tree) (uri data : string)
  : result (option Exc.t) * Tree :=
  let parts := CopyMove.splitPath uri in
  match getNodeForPath tree (fst parts) with
  | Throw err => (Ok (Some err), tree)
  | Ok parent =>
      if negb (Node.ICOLLECTION parent) then (Throw Exc.TypeError, tree)
      else
        match node_createFile tree parent (snd parts) data with
        | (err, tree') => (Ok err, tree')
        end
  end.

(** [httpPut], from [afterGetFile] on, with the body in hand.  The
    callback given to [createFile] has no parameter: whatever [createFile]
    reports to it, the answer is 201. *)
Definition httpPut (tree : Tree) (req : Request.t) (body : string)
  : Outcome * Tree :=
  match Uri.calculateUri pathname baseUri (url req) with
  | Throw ex => (Answered (CopyMove.Error ex), tree)
  | Ok uri =>
      match getNodeForPath tree uri with
      | Throw err =>
          if CopyMove.isFileNotFound err then
            match createFile tree uri body with
            | (Ok _, tree') => (Answered (CopyMove.Status 201), tree')
            | (Throw e, tree') => (Uncaught e, tree')
            end
          else (Answered (CopyMove.Error err), tree)
      | Ok node =>
          match Precond.checkPreconditions pathname baseUri (getNodeForPath tree)
                  parseDate req false with
          | Precond.Failed err => (Answered (CopyMove.Error err), tree)
          | Precond.Crashed err => (Uncaught err, tree)
          | Precond.Redirected status => (Answered (CopyMove.Status status), tree)
          | Precond.Silent => (Unanswered, tree)
          | Precond.Passed =>
              if negb (Node.IFILE node) then
                (Answered (CopyMove.Error Exc.jsDAV_Exception_Conflict), tree)
              else
                match put tree node body with
                | (Some err, tree') => (Answered (CopyMove.Error err), tree')
                | (None, tree') => (Answered (CopyMove.Status 200), tree')
                end
          end
      end
  end.

(** [getAllowedMethods(uri)]; without plugins nothing is added to the
    list but MKCOL. *)
Definition getAllowedMethods (tree : Tree) (uri : string) : list string :=
  let methods :=
    match getNodeForPath tree uri with
    | Throw _ => (baseMethods ++ ["MKCOL"])%list
    | Ok _ => baseMethods
    end in
  Propfind.makeUnique methods.

(** [httpOptions]: 200 with these headers, or the error of a uri outside
    the base uri. *)
Definition httpOptions (tree : Tree) (req : Request.t) : result Get.Response :=
  match Uri.calculateUri pathname baseUri (url req) with
  | Throw ex => Throw ex
  | Ok uri =>
      let methods := getAllowedMethods tree uri in
      let features := ["1"; "3"; "extended-mkcol"] in
      Ok {| Get.status := 200;
            Get.respHeaders :=
              [ ("Allow", JStr (JS.toUpperCase (join methods)));
                ("MS-Author-Via", JStr "DAV");
                ("Accept-Ranges", JStr "bytes");
                ("X-jsDAV-Version", JStr VERSION);
                ("Content-Length", JNum 0);
                ("DAV", JStr (join features)) ];
            Get.respBody := "" |}
  end.

End Tree.

End Handlers.

(** ** [lib/DAV/server.js]: [getProperties], [getHTTPHeaders], [httpHead], [httpGet] *)

Module Serve.

Import JsVal Node Request.

(** The four properties [getHTTPHeaders] asks for, and the header each
    one becomes, in the order of the object literal. *)
Definition headerProperties : list string :=
  [ "{DAV:}getcontenttype"; "{DAV:}getcontentlength"; "{DAV:}getlastmodified";
    "{DAV:}getetag" ].

Definition propertyMap : list (string * string) :=
  [ ("{DAV:}getcontenttype", "Content-Type");
    ("{DAV:}getcontentlength", "Content-Length");
    ("{DAV:}getlastmodified", "Last-Modified");
    ("{DAV:}getetag", "ETag") ].

(** A header value that is no property object. *)
Definition plainValue (v : PropValue) : option JsVal.t :=
  match v with Plain x => Some x | _ => None end.

(** The headers as the plain values [Get.respond] computes with; [None]
    when one of them is a property object. *)
Fixpoint plainHeaders (hs : list (string * PropValue))
  : option (list (string * JsVal.t)) :=
  match hs with
  | [] => Some []
  | (k, v) :: rest =>
      match plainValue v, plainHeaders rest with
      | Some x, Some r => Some ((k, x) :: r)
      | _, _ => None
      end
  end.

(** How a GET or HEAD request ends. *)
Inductive Answer : Type :=
  | Sent (r : Get.Response)   (* writeHead and end *)
  | Failed (e : Exc.t)        (* handleError(e) *)
  | Thrown (e : Exc.t)        (* an exception thrown inside a callback, for
                                 which the handler does not call
                                 handleError *)
  | NoAnswer                  (* nothing is written *)
  | ObjectHeader.             (* a node supplied a property object as the
                                 value of a header: not described here *)

Section Tree.

Variable getNodeForPath : string -> result Node.t.
Variable getChildren : Node.t -> result (list Node.t).

(** [Util.dateFormat(p.getTime(), Util.DATE_RFC1123)] of the property [p]
    made from the time [dt]; neither lib/DAV/util.js nor the property is
    among the sources. *)
Variable dateFormat : JsVal.t -> string.

Variable pathname : string -> option string.
Variable baseUri : string.
Variable parseDate : JsVal.t -> option Z.
Variable newBuffer : nat -> string.

(** [getProperties(path, propertyNames)]: the 200 bucket of the entry
    under the key "path"; when there is no such entry, reading its "200"
    is a TypeError. *)
Definition getProperties (path : string) (propertyNames : list string)
  : result (list (string * PropValue)) :=
  match Propfind.getPropertiesForPath getNodeForPath getChildren path
          propertyNames 0 with
  | Throw err => Throw err
  | Ok result =>
      match get "path" result with
      | Some entry => Ok (Propfind.p200 entry)
      | None => Throw Exc.TypeError
      end
  end.

(** The value a header gets from a property. *)
Definition headerValue (v : PropValue) : PropValue :=
  match v with
  | GetLastModified time => Plain (JStr (dateFormat time))
  | other => other
  end.

Definition getHTTPHeaders (path : string) : result (list (string * PropValue)) :=
  match getProperties path headerProperties with
  | Throw err => Throw err
  | Ok properties =>
      Ok (fold_left
            (fun headers (entry : string * string) =>
               match get (fst entry) properties with
               | Some v =>
                   if Propfind.truthyProp (Some v)
                   then set (snd entry) (headerValue v) headers
                   else headers
               | None => headers
               end)
            propertyMap [])
  end.

(** [httpHead].  The headers written are the [headers] of the callback of
    [getNodeForPath], the empty object: the callback of [getHTTPHeaders]
    has a parameter of the same name, which [afterHeaders] does not
    see. *)
Definition httpHead (req : Request.t) : result Get.Response :=
  match Uri.calculateUri pathname baseUri (url req) with
  | Throw ex => Throw ex
  | Ok uri =>
      match getNodeForPath uri with
      | Throw err => Throw err
      | Ok node =>
          let headers : list (string * JsVal.t) := [] in
          let afterHeaders :=
            Ok {| Get.status := 200; Get.respHeaders := headers;
                  Get.respBody := "" |} in
          if IFILE node then
            match getHTTPHeaders uri with
            | Throw err => Throw err
            | Ok _ => afterHeaders
            end
          else afterHeaders
      end
  end.

(** [httpGet]. *)
Definition httpGet (req : Request.t) : Answer :=
  match Uri.calculateUri pathname baseUri (url req) with
  | Throw ex => Failed ex
  | Ok uri =>
      match Precond.checkPreconditions pathname baseUri getNodeForPath parseDate
              req true with
      | Precond.Failed err => Failed err
      | Precond.Crashed err => Thrown err
      | Precond.Redirected status =>
          Sent {| Get.status := status; Get.respHeaders := []; Get.respBody := "" |}
      | Precond.Silent => NoAnswer
      | Precond.Passed =>
          match getNodeForPath uri with
          | Throw err => Failed err
          | Ok node =>
              if negb (IFILE node) then Failed Exc.jsDAV_Exception_NotImplemented
              else
                match Node.get node with
                | Throw err => Failed err
                | Ok body =>
                    match getHTTPHeaders uri with
                    | Throw err => Failed err
                    | Ok httpHeaders =>
                        match plainHeaders httpHeaders with
                        | None => ObjectHeader
                        | Some httpHeaders =>
                            match Get.respond parseDate newBuffer req httpHeaders
                                    body with
                            | Throw Exc.RangeError => Thrown Exc.RangeError
                            | Throw err => Failed err
                            | Ok r => Sent r
                            end
                        end
                    end
                end
          end
      end
  end.

End Tree.

(** The headers of a node that has no properties of its own. *)
Definition nodeHeaders (dateFormat : JsVal.t -> string) (node : Node.t)
  : list (string * JsVal.t) :=
  (if IFILE node then
     match getContentType node with
     | Some ct => if JS.truthy ct then [("Content-Type", JStr ct)] else []
     | None => []
     end
   else [])
  ++ (if IFILE node && negb (Z.eqb (getSize node) 0)
      then [("Content-Length", JNum (getSize node))] else [])
  ++ [("Last-Modified", JStr (dateFormat (getLastModified node)))]
  ++ (if IFILE node then
        match getETag node with
        | Some etag => if JS.truthy etag then [("ETag", JStr etag)] else []
        | None => []
        end
      else []).

End Serve.

(** ** [lib/DAV/property/resourceType.js]: [serialize] *)

Module ResourceTypeXml.

Import Node.

(** The characters of [s] before its first closing brace, and what
    follows that brace. *)
Fixpoint untilBrace (s : string) : option (string * string) :=
  match s with
  | EmptyString => None
  | String c s' =>
      if Ascii.eqb c "}" then Some (EmptyString, s')
      else match untilBrace s' with
           | Some (before, after) => Some (String c before, after)
           | None => None
           end
  end.

(** The characters the dot of a regular expression does not match, of
    those a string of 8-bit characters can hold: line feed and carriage
    return. *)
Definition isLineTerminator (c : ascii) : bool :=
  Ascii.eqb c (ascii_of_nat 10) || Ascii.eqb c (ascii_of_nat 13).

(** The longest prefix of [s] the dot matches throughout. *)
Fixpoint line (s : string) : string :=
  match s with
  | EmptyString => EmptyString
  | String c s' => if isLineTerminator c then EmptyString else String c (line s')
  end.

(** The two groups of the expression that reads a name in Clark notation:
    an opening brace, the namespace up to the first closing brace, and the
    rest of the line. *)
Definition matchClark (s : string) : option (string * string) :=
  match s with
  | String c s' =>
      if Ascii.eqb c "{" then
        match untilBrace s' with
        | Some (ns, rest) => Some (ns, line rest)
        | None => None
        end
      else None
  | EmptyString => None
  end.

(** The element for a namespace the server has no prefix for. *)
Definition custom (ns name : string) : string :=
  "<custom:" ++ name ++ " xmlns:custom=" ++ Precond.quoted ns ++ "/>".

Section Serialize.

(** [server.xmlNamespaces] is a plain object: under a name it does not
    hold itself, a lookup finds what every object inherits ([toString],
    [constructor], ...).  [inherited name] is the text such a member
    becomes in a string concatenation, [None] where nothing is inherited
    under the name; an inherited member is an object, which is truthy. *)
Variable inherited : string -> option string.

(** [server.xmlNamespaces[ns]], as the text it contributes and whether it
    is truthy. *)
Definition prefixOf (server : Href.Server) (ns : string) : option (string * bool) :=
  match Href.lookup ns (Href.xmlNamespaces server) with
  | Some recPrefix => Some (recPrefix, JS.truthy recPrefix)
  | None =>
      match inherited ns with
      | Some text => Some (text, true)
      | None => None
      end
  end.

(** What one entry of the resource type adds to the document. *)
Definition element (server : Href.Server) (recResourceType : string) : string :=
  match matchClark recResourceType with
  | Some (ns, name) =>
      match prefixOf server ns with
      | Some (recPrefix, true) => "<" ++ recPrefix ++ ":" ++ name ++ "/>"
      | _ => custom ns name
      end
  | None => EmptyString
  end.

(** [serialize(server, recDom)] of a property whose [resourceType] field
    is [this].  A number is falsy when it is 0 and otherwise wrapped in an
    array, where it is skipped for not being a string. *)
Definition serialize (this : ResourceType) (server : Href.Server) (recDom : string)
  : string :=
  match this with
  | RTNull => recDom
  | RTNum _ => recDom
  | RTStr s => if JS.truthy s then recDom ++ element server s else recDom
  | RTList l => fold_left (fun dom s => dom ++ element server s) l recDom
  end.

End Serialize.

(** No character of [s] satisfies [p]. *)
Fixpoint without (p : ascii -> bool) (s : string) : bool :=
  match s with
  | EmptyString => true
  | String c s' => negb (p c) && without p s'
  end.

(** The name [{ns}name] in Clark notation. *)
Definition clark (ns name : string) : string := "{" ++ ns ++ "}" ++ name.

End ResourceTypeXml.

(** ** [lib/DAV/server.js]: [httpMkcol], [createCollection] *)

Module Mkcol.

Import JsVal Node Request.

(** The errors of [createCollection]: the one for a resource type the
    server cannot create, and the others. *)
Inductive Failure : Type :=
  | jsDAV_Exception_InvalidResourceType
  | Raised (e : Exc.t).

(** What becomes of the callback [cbcreatecoll]: it is called with an
    error and a result, either of which may be missing; or an exception is
    thrown before it is called; or it is not called. *)
Inductive Outcome (R : Type) : Type :=
  | Called (err : option Failure) (result : option R)
  | Thrown (e : Exc.t)
  | Unanswered.
Arguments Called {R} err result.
Arguments Thrown {R} e.
Arguments Unanswered {R}.

(** How a MKCOL request ends. *)
Inductive Answer : Type :=
  | Sent (r : Get.Response)
  | Refused (e : Failure)       (* handleError(e) *)
  | Crashed (e : Exc.t)         (* an exception nobody catches *)
  | NoAnswer.

(** What the XML body of a request comes to, from [Util.loadDOMDocument]
    to the call of [afterParse]. *)
Inductive Parsed : Type :=
  | ParseRefused (e : Exc.t)
  | ParseThrown (e : Exc.t)
  | ParseOk (resourceType : list string) (properties : list (string * PropValue)).

(** [properties.length]: the value under the key "length", if the object
    has one; a property object there counts as no number. *)
Definition propertiesLength (properties : list (string * PropValue)) : JsVal.t :=
  match get "length" properties with
  | Some (Plain v) => v
  | Some _ => JNaN
  | None => JUndefined
  end.

Section Tree.

(** The tree, and the operations of its nodes the creation uses:
    [parent.getChild(name)] with the error and the child it hands on,
    [parent.hasFeature(jsDAV.__IEXTCOLLECTION__)],
    [parent.createExtendedCollection(name, resourceType, properties)],
    [parent.createDirectory(name)], with the error it hands on and the
    tree it leaves, and [node.updateProperties]. *)
Variable Tree : Type.
Variable E : Type.
Variable getNodeForPath : Tree -> string -> result Node.t.
Variable node_getChild : Tree -> Node.t -> string -> option Exc.t * option Node.t.
Variable IEXTCOLLECTION : Node.t -> bool.
Variable createExtendedCollection :
  Tree -> Node.t -> string -> list string -> list (string * PropValue)
  -> Outcome (list E) * Tree.
Variable node_createDirectory : Tree -> Node.t -> string -> option Exc.t * Tree.
Variable node_updateProperties :
  Node.t -> list (string * PropValue) -> Tree -> Update.NodeUpdate * Tree.

(** The XML side of the server, which is not among the sources: reading
    the request body, and [generateMultiStatus] with the property
    [response] it serializes. *)
Variable parseBody : string -> Parsed.
Variable generateMultiStatus : list E -> string.

Variable pathname : string -> option string.
Variable baseUri : string.

(** [createCollection(uri, resourceType, properties, cbcreatecoll)].
    [updateProperties] takes two arguments and returns its result: the
    function passed to it as a third is never called, so that neither
    [cbcreatecoll] nor [rollback] is reached after it. *)
Definition createCollection (tree : Tree) (uri : string) (resourceType : list string)
    (properties : list (string * PropValue)) : Outcome (list E) * Tree :=
  let path := CopyMove.splitPath uri in
  let parentUri := fst path in
  let newName := snd path in
  if negb (Update.mem "{DAV:}collection" resourceType) then
    (Called (Some jsDAV_Exception_InvalidResourceType) None, tree)
  else
    match getNodeForPath tree parentUri with
    | Throw _ => (Called (Some (Raised Exc.jsDAV_Exception_Conflict)) None, tree)
    | Ok parent =>
        if negb (ICOLLECTION parent) then
          (Called (Some (Raised Exc.jsDAV_Exception_Conflict)) None, tree)
        else
          let create : Outcome (list E) * Tree :=
            if IEXTCOLLECTION parent then
              createExtendedCollection tree parent newName resourceType properties
            else if (1 <? List.length resourceType)%nat then
              (Called (Some jsDAV_Exception_InvalidResourceType) None, tree)
            else
              match node_createDirectory tree parent newName with
              | (Some err, tree') => (Called (Some (Raised err)) None, tree')
              | (None, tree') =>
                  if gt (propertiesLength properties) (JNum 0) then
                    match Update.updateProperties Tree node_updateProperties
                            (getNodeForPath tree') uri properties tree' with
                    | (Throw e, tree'') => (Thrown e, tree'')
                    | (Ok _, tree'') => (Unanswered, tree'')
                    end
                  else (Called None None, tree')
              end in
          match node_getChild tree parent newName with
          | (_, Some _) =>
              (Called (Some (Raised Exc.jsDAV_Exception_MethodNotAllowed)) None, tree)
          | (Some err, None) =>
              if negb (CopyMove.isFileNotFound err)
              then (Called (Some (Raised err)) None, tree)
              else create
          | (None, None) => create
          end
    end.

(** [createDirectory(uri)]. *)
Definition createDirectory (tree : Tree) (uri : string) : Outcome (list E) * Tree :=
  createCollection tree uri ["{DAV:}collection"] [].

(** [afterParse] of [httpMkcol]. *)
Definition afterParse (tree : Tree) (req : Request.t) (resourceType : list string)
    (properties : list (string * PropValue)) : Answer * Tree :=
  match Uri.calculateUri pathname baseUri (url req) with
  | Throw ex => (Refused (Raised ex), tree)
  | Ok uri =>
      match createCollection tree uri resourceType properties with
      | (Called (Some err) _, tree') => (Refused err, tree')
      | (Called None (Some (entry :: entries)), tree') =>
          (Sent {| Get.status := 207;
                   Get.respHeaders :=
                     [("Content-Type", JStr "application/xml; charset=utf-8")];
                   Get.respBody := generateMultiStatus (entry :: entries) |}, tree')
      | (Called None _, tree') =>
          (Sent {| Get.status := 201;
                   Get.respHeaders := [("Content-Length", JStr "0")];
                   Get.respBody := "" |}, tree')
      | (Thrown e, tree') => (Crashed e, tree')
      | (Unanswered, tree') => (NoAnswer, tree')
      end
  end.

(** [httpMkcol], once the request body has arrived. *)
Definition httpMkcol (tree : Tree) (req : Request.t) (requestBody : string)
  : Answer * Tree :=
  if JS.truthy requestBody then
    match header "content-type" req with
    | JStr contentType =>
        if negb (JS.startsWith "application/xml" contentType)
           && negb (JS.startsWith "text/xml" contentType)
        then (Refused (Raised Exc.jsDAV_Exception_UnsupportedMediaType), tree)
        else
          match parseBody requestBody with
          | ParseRefused e => (Refused (Raised e), tree)
          | ParseThrown e => (Crashed e, tree)
          | ParseOk resourceType properties =>
              afterParse tree req resourceType properties
          end
    | _ => (Crashed Exc.TypeError, tree)
    end
  else afterParse tree req ["{DAV:}collection"] [].

End Tree.

End Mkcol.

(** ** [lib/DAV/server.js]: the constructor's [tmpDir], [guessBaseUri] *)

Module Setup.

(** [s.lastIndexOf(c)] for a one-character [c]; [None] is -1. *)
Fixpoint lastIndexOf (c : ascii) (s : string) : option nat :=
  match s with
  | EmptyString => None
  | String a s' =>
      match lastIndexOf c s' with
      | Some i => Some (S i)
      | None => if Ascii.eqb a c then Some O else None
      end
  end.

(** [this.tmpDir] as the constructor leaves it; [None] stands for options
    without a [tmpDir].  [substring(0, idx - 1)] with [idx] 0 is the empty
    string. *)
Definition tmpDir (given : option string) : string :=
  let tmpDir :=
    match given with
    | Some s => if JS.truthy s then s else "/tmp"
    | None => "/tmp"
    end in
  match lastIndexOf "/" tmpDir with
  | Some idx =>
      if (idx =? String.length tmpDir - 1)%nat
      then substring 0 (idx - 1) tmpDir
      else tmpDir
  | None => tmpDir
  end.

Section GuessBaseUri.

(** [Url.parse(uri).pathname] of node, [None] when there is none. *)
Variable pathname : string -> option string.

(** [s.substr(start)] where [start] is [a - b]: a negative start counts
    from the end of the string. *)
Definition substrFrom (a b : nat) (s : string) : string :=
  if (b <=? a)%nat then JS.substr (a - b) s
  else JS.substr (String.length s - (b - a)) s.

(** [guessBaseUri]; [httpRequest] is [None] until a request has come in.
    Where the request uri ends with the path, the next statement names
    [decodedUrisubstr], which is not defined. *)
Definition guessBaseUri (httpRequest : option Request.t) : result string :=
  match httpRequest with
  | None => Ok "/"
  | Some req =>
      let uri := Request.url req in
      match pathname uri with
      | Some pathInfo =>
          if JS.truthy pathInfo then
            let uri :=
              match JS.indexOf "?" uri with
              | Some pos => substring 0 pos uri
              | None => uri
              end in
            let decodedUri := JS.unescape uri in
            if String.eqb
                 (substrFrom (String.length decodedUri) (String.length pathInfo)
                    decodedUri)
                 pathInfo
            then Throw Exc.ReferenceError
            else Throw Exc.jsDAV_Exception
          else Ok "/"
      | None => Ok "/"
      end
  end.

End GuessBaseUri.

End Setup.

(** ** Sample nodes and trees for the examples *)

Module Sample.

(** A file with the given ETag. *)
Definition fileWithETag (p etag : string) : Node.t :=
  {| Node.path := p; Node.IFILE := true; Node.ICOLLECTION := false;
     Node.IPROPERTIES := false; Node.IQUOTA := false;
     Node.getETag := Some etag; Node.getLastModified := JsVal.JNull;
     Node.getSize := 3; Node.getContentType := None;
     Node.getQuotaInfo := (JsVal.JNull, JsVal.JNull);
     Node.getProperties := fun _ => []; Node.get := Ok "abc" |}.

(** A tree with the single file "f". *)
Definition oneFile (etag : string) (uri : string) : result Node.t :=
  if String.eqb uri "f" then Ok (fileWithETag "f" etag)
  else Throw Exc.jsDAV_Exception_FileNotFound.

(** A node with properties of its own, at "f". *)
Definition propsNode : Node.t :=
  {| Node.path := "f"; Node.IFILE := true; Node.ICOLLECTION := false;
     Node.IPROPERTIES := true; Node.IQUOTA := false;
     Node.getETag := Some "abc"; Node.getLastModified := JsVal.JNull;
     Node.getSize := 3; Node.getContentType := None;
     Node.getQuotaInfo := (JsVal.JNull, JsVal.JNull);
     Node.getProperties := fun _ => []; Node.get := Ok "abc" |}.

Definition propsTree (uri : string) : result Node.t :=
  if String.eqb uri "f" then Ok propsNode
  else Throw Exc.jsDAV_Exception_FileNotFound.

(** A node store that records every property list it is asked to write,
    and reports success. *)
Definition recordingUpdate (node : Node.t) (properties : list (string * Node.PropValue))
    (store : list (list (string * Node.PropValue)))
  : Update.NodeUpdate * list (list (string * Node.PropValue)) :=
  (Update.UTrue, properties :: store).

(** A tree as a list of paths and nodes. *)
Definition ListTree : Type := list (string * Node.t).

Definition collectionAt (p : string) : Node.t :=
  {| Node.path := p; Node.IFILE := false; Node.ICOLLECTION := true;
     Node.IPROPERTIES := false; Node.IQUOTA := false;
     Node.getETag := None; Node.getLastModified := JsVal.JNull;
     Node.getSize := 0; Node.getContentType := None;
     Node.getQuotaInfo := (JsVal.JNull, JsVal.JNull);
     Node.getProperties := fun _ => []; Node.get := Ok "" |}.

Definition listLookup (tree : ListTree) (uri : string) : result Node.t :=
  match Request.get uri tree with
  | Some n => Ok n
  | None => Throw Exc.jsDAV_Exception_FileNotFound
  end.

Definition listDelete (tree : ListTree) (node : Node.t) : option Exc.t * ListTree :=
  (None, Request.delete (Node.path node) tree).

Definition listMove (tree : ListTree) (source destination : string)
  : option Exc.t * ListTree :=
  match Request.get source tree with
  | Some n => (None, Request.set destination n (Request.delete source tree))
  | None => (Some Exc.jsDAV_Exception_FileNotFound, tree)
  end.

(** A server that is sent no absolute URL node finds a path in. *)
Definition noPathname (uri : string) : option string := None.


(** Two of the members every plain object inherits, as the text they
    become in a string concatenation. *)
Definition objectMembers (name : string) : option string :=
  if String.eqb name "toString" then Some "function toString() { [native code] }"
  else if String.eqb name "constructor" then Some "function Object() { [native code] }"
  else None.

(** The root collection with the two files "a" and "b". *)
Definition abTree : ListTree :=
  [("", collectionAt ""); ("a", fileWithETag "a" "1"); ("b", fileWithETag "b" "2")].

(** The children of the sample collections: "" holds the file "a" and the
    collection "sub"; "odd" holds a collection whose path is a lone
    slash. *)
Definition sampleChildren (n : Node.t) : result (list Node.t) :=
  if String.eqb (Node.path n) "" then Ok [fileWithETag "a" "1"; collectionAt "sub"]
  else if String.eqb (Node.path n) "odd" then Ok [collectionAt "/"]
  else Ok [].

Definition sampleLookup (uri : string) : result Node.t :=
  if String.eqb uri "" then Ok (collectionAt "")
  else if String.eqb uri "odd" then Ok (collectionAt "odd")
  else if String.eqb uri "a" then Ok (fileWithETag "a" "1")
  else if String.eqb uri "sub" then Ok (collectionAt "sub")
  else Throw Exc.jsDAV_Exception_FileNotFound.

(** A node store that answers [false], and one that answers with a
    detailed object. *)
Definition refusingUpdate (node : Node.t) (properties : list (string * Node.PropValue))
    (store : nat) : Update.NodeUpdate * nat :=
  (Update.UFalse, S store).

Definition detailedUpdate (node : Node.t) (properties : list (string * Node.PropValue))
    (store : nat) : Update.NodeUpdate * nat :=
  (Update.UObject [("200", {| Update.length := 1; Update.keys := ["0"] |});
                   ("403", Update.emptyArray)], S store).

(** Copying, overwriting and creating in a list tree. *)
Definition listCopy (tree : ListTree) (source destination : string)
  : option Exc.t * ListTree :=
  match Request.get source tree with
  | Some n => (None, Request.set destination n tree)
  | None => (Some Exc.jsDAV_Exception_FileNotFound, tree)
  end.

Definition listPut (tree : ListTree) (node : Node.t) (data : string)
  : option Exc.t * ListTree :=
  (None, Request.set (Node.path node) (fileWithETag (Node.path node) data) tree).

Definition listCreateFile (tree : ListTree) (parent : Node.t) (name data : string)
  : option Exc.t * ListTree :=
  (None, Request.set name (fileWithETag name data) tree).

(** A backend that fails half-way: it removes the source and then reports
    an error. *)
Definition brokenMove (tree : ListTree) (source destination : string)
  : option Exc.t * ListTree :=
  (Some Exc.jsDAV_Exception, Request.delete source tree).

(** Children and new collections in a list tree; no node of it is an
    extended collection, and its XML side is left empty. *)
Definition childPath (parent : Node.t) (name : string) : string :=
  if String.eqb (Node.path parent) "" then name else Node.path parent ++ "/" ++ name.

Definition listGetChild (tree : ListTree) (parent : Node.t) (name : string)
  : option Exc.t * option Node.t :=
  match Request.get (childPath parent name) tree with
  | Some n => (None, Some n)
  | None => (Some Exc.jsDAV_Exception_FileNotFound, None)
  end.

Definition listCreateDirectory (tree : ListTree) (parent : Node.t) (name : string)
  : option Exc.t * ListTree :=
  (None,
   Request.set (childPath parent name) (collectionAt (childPath parent name)) tree).

Definition noExtended (tree : ListTree) (parent : Node.t) (name : string)
    (resourceType : list string) (properties : list (string * Node.PropValue))
  : Mkcol.Outcome (list unit) * ListTree :=
  (Mkcol.Unanswered, tree).

Definition listUpdate (node : Node.t) (properties : list (string * Node.PropValue))
    (tree : ListTree) : Update.NodeUpdate * ListTree :=
  (Update.UTrue, tree).

Definition noBody (requestBody : string) : Mkcol.Parsed :=
  Mkcol.ParseRefused Exc.jsDAV_Exception_BadRequest.

Definition noMultiStatus (entries : list unit) : string := "".

End Sample.

(* ================================================================== *)
(** * Part II: lemmas                                                  *)
(* ================================================================== *)

Example calculateUri_unescape_examples :
  Uri.calculateUri (fun _ => Some "/dav/a%20b/") "/dav/" "http://host/dav/a%20b/?q"
  = Ok "a b"
  /\ Uri.calculateUri (fun _ => None) "/dav/" "x://" = Throw Exc.TypeError
  /\ JS.unescape "%u0041%4a%zz%u00e9%u12" = String "A" (String "J" ("%zz" ++ String (ascii_of_nat 233) "%u12")).
Proof. repeat split; reflexivity. Qed.

Example calculateUri_examples (pathname : string -> option string) :
  Uri.calculateUri pathname "/" "/a//b//c" = Ok "a/b//c"
  /\ Uri.calculateUri pathname "/" "/a/b//c" = Ok "a/b/c"
  /\ Uri.calculateUri pathname "/" "/%2541" = Ok "%41"
  /\ Uri.calculateUri pathname "/" "/%41" = Ok "A"
  /\ Uri.calculateUri pathname "/dav/" "/other" = Throw Exc.jsDAV_Exception_Forbidden.
Proof. repeat split; reflexivity. Qed.

(** ** Facts about the string built-ins *)

Section StringFacts.

Lemma append_assoc (s t u : string) : (s ++ t) ++ u = s ++ (t ++ u).
Proof. induction s as [|c s IH]; [reflexivity|]. cbn [append]. now rewrite IH. Qed.



Lemma substr_app (s t : string) : JS.substr (String.length s) (s ++ t) = t.
Proof. induction s as [|c s IH]; simpl; [now destruct t | exact IH]. Qed.






Lemma ltrim_notHead (c : ascii) (s : string) : Util.notHead c (Util.ltrim c s).
Proof.
  induction s as [|a s IH]; simpl; [exact I|].
  destruct (Ascii.eqb_spec a c); [exact IH | assumption].
Qed.

Lemma ltrim_id (c : ascii) (s : string) : Util.notHead c s -> Util.ltrim c s = s.
Proof.
  destruct s as [|a s]; simpl; [reflexivity|]. intros H.
  now destruct (Ascii.eqb_spec a c).
Qed.

Lemma rtrim_cons (c a : ascii) (s : string) :
  Util.rtrim c (String a s) =
  match Util.rtrim c s with
  | EmptyString => if Ascii.eqb a c then EmptyString else String a EmptyString
  | t => String a t
  end.
Proof. reflexivity. Qed.

Lemma rtrim_notHead (c : ascii) (s : string) :
  Util.notHead c s -> Util.notHead c (Util.rtrim c s).
Proof.
  destruct s as [|a s]; [trivial|]. rewrite rtrim_cons. intros H.
  destruct (Util.rtrim c s); [|exact H].
  now destruct (Ascii.eqb_spec a c).
Qed.

Lemma rtrim_idem (c : ascii) (s : string) :
  Util.rtrim c (Util.rtrim c s) = Util.rtrim c s.
Proof.
  induction s as [|a s IH]; [reflexivity|]. rewrite rtrim_cons.
  destruct (Util.rtrim c s) as [|b t] eqn:E.
  - destruct (Ascii.eqb_spec a c) as [->|n]; [reflexivity|].
    rewrite rtrim_cons. cbn [Util.rtrim]. now destruct (Ascii.eqb_spec a c).
  - now rewrite rtrim_cons, IH.
Qed.

Lemma trim_notHead (c : ascii) (s : string) : Util.notHead c (Util.trim s c).
Proof. apply rtrim_notHead, ltrim_notHead. Qed.

Lemma trim_idem (c : ascii) (s : string) :
  Util.trim (Util.trim s c) c = Util.trim s c.
Proof.
  unfold Util.trim.
  rewrite (ltrim_id c (Util.rtrim c (Util.ltrim c s))).
  - apply rtrim_idem.
  - apply rtrim_notHead, ltrim_notHead.
Qed.

(** What [rtrim] returns does not end with the trimmed character. *)
Lemma rtrim_last (c : ascii) (s t : string) :
  Util.rtrim c s <> t ++ String c "".
Proof.
  revert t. induction s as [|a s IH]; intros t; [now destruct t|].
  rewrite rtrim_cons.
  destruct (Util.rtrim c s) as [|b u] eqn:E.
  - destruct (Ascii.eqb_spec a c) as [->|n].
    + now destruct t.
    + destruct t as [|x t]; cbn [append]; [congruence|]. now destruct t.
  - destruct t as [|x t]; cbn [append]; [discriminate|].
    intros H. injection H as _ H. now apply (IH t).
Qed.



End StringFacts.

(** ** [calculateUri] *)

Section CalculateUriFacts.

Lemma last_char (a : ascii) (s : string) :
  exists b c, String a s = b ++ String c ""
              /\ JS.substr (String.length s) (String a s) = String c "".
Proof.
  revert a. induction s as [|x s IH]; intros a.
  - now exists "", a.
  - destruct (IH x) as (b & c & E & F).
    exists (String a b), c. cbn [append]. now rewrite <- E.
Qed.

Lemma setBaseUri_slash (uri : string) : exists b, Uri.setBaseUri uri = b ++ "/".
Proof.
  unfold Uri.setBaseUri, Uri.endsWithSlash.
  destruct uri as [|a s]; [now exists ""|].
  destruct (last_char a s) as (b & c & E & F).
  cbn [String.length]. rewrite Nat.sub_succ, Nat.sub_0_r, F. cbn [JS.charAt0].
  destruct (Ascii.eqb_spec c "/") as [->|_]; [now exists b | now exists (String a s)].
Qed.

Variable pathname : string -> option string.


Lemma calculateUri_inv (baseUri x r : string) :
  Uri.calculateUri pathname baseUri x = Ok r ->
  Util.notHead "/" r /\ Util.trim r "/" = r.
Proof.
  unfold Uri.calculateUri.
  destruct (Uri.normalize pathname x) as [u|]; [|discriminate].
  destruct (JS.startsWith baseUri u).
  - intros [= <-]. split; [apply trim_notHead | apply trim_idem].
  - destruct (String.eqb _ _); [|discriminate].
    intros [= <-]. now split.
Qed.




End CalculateUriFacts.



(** ** The href property *)

Section HrefFacts.

Import Href.

(** C10.  [unserialize] yields a property exactly when the first child of
    the element is [{DAV:}href]; that property carries the child's text
    with [autoPrefix] false, so [serialize] writes the text unchanged, with
    no base uri in front; and when the text is what a property wrote (its
    href, after the base uri if it prefixes), reading it back and writing
    it again gives the same output. *)
Theorem href_unserialize_roundtrip (dom : DomNode) :
  (forall p, unserialize dom = Some p ->
     toClarkNotation (getFirstChild dom) = Some "{DAV:}href"
     /\ (exists c, getFirstChild dom = Some c /\ href p = textContent c)
     /\ autoPrefix p = false
     /\ forall server out,
          serialize p server out =
          out ++ "<" ++ toStr (lookup "DAV:" (xmlNamespaces server)) ++ ":href>"
              ++ href p
              ++ "</" ++ toStr (lookup "DAV:" (xmlNamespaces server)) ++ ":href>")
  /\ (toClarkNotation (getFirstChild dom) <> Some "{DAV:}href" ->
      unserialize dom = None)
  /\ (forall server p0 c,
        getFirstChild dom = Some c ->
        toClarkNotation (Some c) = Some "{DAV:}href" ->
        textContent c = emitted p0 server ->
        exists q, unserialize dom = Some q
                  /\ href q = emitted p0 server
                  /\ forall out, serialize q server out = serialize p0 server out).
Proof.
  split; [|split].
  - intros p. unfold unserialize.
    destruct (toClarkNotation (getFirstChild dom)) as [name|] eqn:E; [|discriminate].
    destruct (String.eqb_spec name "{DAV:}href") as [->|]; [|discriminate].
    destruct (getFirstChild dom) as [c|]; [|discriminate].
    intros [= <-]. repeat split.
    + now exists c.
  - intros H. unfold unserialize.
    destruct (toClarkNotation (getFirstChild dom)) as [name|]; [|reflexivity].
    destruct (String.eqb_spec name "{DAV:}href") as [->|]; [now elim H | reflexivity].
  - intros server p0 c Hc Hn Ht. unfold unserialize. rewrite Hc, Hn.
    cbn [String.eqb Ascii.eqb Bool.eqb]. eexists. split; [reflexivity|].
    split; [exact Ht|]. intros out. unfold serialize.
    cbn [new autoPrefix href]. rewrite Ht. unfold emitted.
    cbn [append]. now rewrite append_assoc.
Qed.

(** The theorem on the property [new "a/b" (Some true)] of a server at
    "/dav/". *)
Lemma href_unserialize_roundtrip_witness :
  let server := {| xmlNamespaces := [("DAV:", "d")]; baseUri := "/dav/" |} in
  let dom := Element "DAV:" "prop" [Element "DAV:" "href" [TextNode "/dav/a/b"]] in
  exists q, unserialize dom = Some q
            /\ href q = "/dav/a/b"
            /\ forall out, serialize q server out
                           = serialize (new "a/b" (Some true)) server out.
Proof.
  intros server dom.
  exact (proj2 (proj2 (href_unserialize_roundtrip dom)) server (new "a/b" (Some true))
           (Element "DAV:" "href" [TextNode "/dav/a/b"]) eq_refl eq_refl eq_refl).
Defined.

End HrefFacts.

(** ** The principal collection *)

Section PrincipalCollectionFacts.

Import PrincipalCollection.

Variables PrincipalInfo Node : Type.

(** C9.  With [disableListing] set, [getChildren] hands its callback a
    MethodNotAllowed (405) error, while [getChild] still asks the backend
    for [principalPrefix/name] and resolves what it finds through
    [getChildForPrincipal]; without a principal under that name it reports
    NotFound. *)
Theorem disableListing_getChildren_getChild
    (this : jsDAVACL_AbstractPrincipalCollection PrincipalInfo Node) :
  disableListing this = true ->
  getChildren this = Called (Throw Exc.jsDAV_Exception_MethodNotAllowed)
  /\ Exc.code Exc.jsDAV_Exception_MethodNotAllowed = 405%Z
  /\ (forall name err principalInfo,
        getPrincipalByPath (principalBackend this)
          (principalPrefix this ++ "/" ++ name) = (err, Some principalInfo) ->
        getChild this name = getChildForPrincipal this principalInfo)
  /\ (forall name err,
        getPrincipalByPath (principalBackend this)
          (principalPrefix this ++ "/" ++ name) = (err, None) ->
        getChild this name = Called (Throw Exc.jsDAV_Exception_FileNotFound)).
Proof.
  intros H. repeat split.
  - unfold getChildren. now rewrite H.
  - intros name err info E. unfold getChild. now rewrite E.
  - intros name err E. unfold getChild. now rewrite E.
Qed.

End PrincipalCollectionFacts.

(** The theorem on a collection of two principals whose listing is
    disabled. *)
Lemma disableListing_getChildren_getChild_witness :
  let backend :=
    {| PrincipalCollection.getPrincipalsByPrefix := fun _ => (None, ["principals/ann"; "principals/bob"]);
       PrincipalCollection.getPrincipalByPath := fun p =>
         (None, if String.eqb p "principals/ann" then Some p else None) |} in
  let this :=
    {| PrincipalCollection.principalPrefix := "principals";
       PrincipalCollection.principalBackend := backend;
       PrincipalCollection.disableListing := true;
       PrincipalCollection.getChildForPrincipal := fun info =>
         PrincipalCollection.Called (Ok (String.length info)) |} in
  PrincipalCollection.getChildren this
    = PrincipalCollection.Called (Throw Exc.jsDAV_Exception_MethodNotAllowed)
  /\ PrincipalCollection.getChild this "ann" = PrincipalCollection.Called (Ok 14).
Proof.
  intros backend this.
  destruct (disableListing_getChildren_getChild string nat this eq_refl)
    as (H1 & _ & H2 & _).
  split; [exact H1|]. exact (H2 "ann" None "principals/ann" eq_refl).
Defined.

(** ** [getHTTPDepth] and [httpPropfind] *)

Section DepthFacts.

Import JsVal Request.

Example getHTTPDepth_examples :
  getHTTPDepth {| url := "/"; headers := [("depth", "0")] |} 1 = JNum 1
  /\ getHTTPDepth {| url := "/"; headers := [("depth", "1")] |} 1 = JNum 1
  /\ getHTTPDepth {| url := "/"; headers := [("depth", "infinity")] |} 1 = JNum (-1)
  /\ getHTTPDepth {| url := "/"; headers := [] |} 1 = JNum 1
  /\ getHTTPDepth_of (JNum 0) 1 = JNum 1
  /\ getHTTPDepth_of (JNum 3) 1 = JNum 3.
Proof. repeat split; reflexivity. Qed.

(** Whatever the Depth header holds, [getHTTPDepth(1)] is not 0: a string
    is not of type "number", and the number 0 is falsy. *)
Lemma getHTTPDepth_never_zero (depth : JsVal.t) :
  getHTTPDepth_of depth 1 <> JNum 0.
Proof.
  unfold getHTTPDepth_of. cbn [Z.eqb].
  destruct depth as [| |b|n| |s]; cbn; try discriminate.
  - destruct b; discriminate.
  - destruct n; cbn; discriminate.
  - destruct (JS.truthy s); cbn; [|discriminate].
    destruct (String.eqb s "infinity"); discriminate.
Qed.

Lemma propfindDepth_always_one (req : Request.t) : propfindDepth req = 1%Z.
Proof.
  unfold propfindDepth, propfindDepth_of.
  pose proof (getHTTPDepth_never_zero (header "depth" req)) as H.
  destruct (getHTTPDepth_of (header "depth" req) 1) as [| |b|n| |s]; try reflexivity.
  destruct n; [now elim H | reflexivity | reflexivity].
Qed.

End DepthFacts.

(** ** Byte ranges in [httpGet] *)

Section RangeFacts.

Import JsVal Request Get.

Example getHTTPRange_examples :
  getHTTPRange {| url := "/f"; headers := [("range", "bytes=0-4")] |}
    = Some (JStr "0", JStr "4")
  /\ getHTTPRange {| url := "/f"; headers := [("range", "BYTES=7-")] |}
    = Some (JStr "7", JNull)
  /\ getHTTPRange {| url := "/f"; headers := [("range", "bytes=-3")] |}
    = Some (JNull, JStr "3")
  /\ getHTTPRange {| url := "/f"; headers := [("range", "bytes=-")] |} = None
  /\ getHTTPRange {| url := "/f"; headers := [("range", "bytes=1-2x")] |} = None
  /\ getHTTPRange {| url := "/f"; headers := [] |} = None.
Proof. repeat split; reflexivity. Qed.

(** C2 on the code, at [Range: bytes=9-10] on a file of 20 bytes: both
    offsets are still the strings the regular expression captured, so
    [end < start] compares "10" with "9" as strings, finds it smaller, and
    the request is refused with 416 instead of being served with 206. *)
Lemma httpGet_range_9_10_refused :
  respond digitsDate zeroBuffer
    {| url := "/f"; headers := [("range", "bytes=9-10")] |}
    [("Content-Type", JStr "text/plain"); ("Content-Length", JNum 20)]
    "abcdefghijklmnopqrst"
  = Throw Exc.jsDAV_Exception_RequestedRangeNotSatisfiable
  /\ Exc.code Exc.jsDAV_Exception_RequestedRangeNotSatisfiable = 416%Z.
Proof. split; reflexivity. Qed.

(** The scenario of the spec, [bytes=0-4] on "abcdefghij": status and
    headers are as claimed, but [body.copy(newStream, offlen, start)]
    writes at offset [offlen], the very end of the new buffer, so nothing
    is copied and the body is the buffer as it was allocated. *)
Lemma substring_none (n : nat) (s : string) : substring n 0 s = "".
Proof. revert n. induction s as [|c s IH]; intros [|n]; cbn; auto. Qed.

Lemma substring_all (s : string) : substring 0 (String.length s) s = s.
Proof. induction s as [|c s IH]; cbn; [reflexivity|now rewrite IH]. Qed.

Lemma substr_all (s : string) : JS.substr (String.length s) s = "".
Proof. induction s as [|c s IH]; cbn; auto. Qed.

Lemma append_empty (s : string) : s ++ "" = s.
Proof. induction s as [|c s IH]; cbn; [reflexivity|now rewrite IH]. Qed.

(** Copying to the end of the target copies nothing. *)
Lemma Buffer_copy_at_end (source target : string) (sourceStart : nat) :
  Buffer_copy source target (String.length target) sourceStart = target.
Proof.
  unfold Buffer_copy. rewrite Nat.sub_diag, substring_none. cbn [String.length].
  now rewrite Nat.add_0_r, substring_all, substr_all, append_empty.
Qed.

Lemma httpGet_range_0_4_body (newBuffer : nat -> string) :
  String.length (newBuffer 5) = 5%nat ->
  respond digitsDate newBuffer
    {| url := "/f"; headers := [("range", "bytes=0-4")] |}
    [("Content-Type", JStr "text/plain"); ("Content-Length", JNum 10)]
    "abcdefghij"
  = Ok {| status := 206;
          respHeaders := [("Content-Type", JStr "text/plain");
                          ("Content-Length", JNum 5);
                          ("Content-Range", JStr "bytes 0-4/10")];
          respBody := newBuffer 5 |}.
Proof.
  intros H. cbv - [Buffer_copy]. do 2 f_equal.
  rewrite <- H at 2. apply Buffer_copy_at_end.
Qed.

End RangeFacts.

(** ** [checkPreconditions] *)

Section PrecondFacts.

Import JsVal Request Precond Sample.

(** Where the code does what C3 says: with no If-Match header, an
    If-None-Match that names the ETag of the node ends in 304 for a GET
    and in PreconditionFailed otherwise. *)
Lemma checkPreconditions_ifNoneMatch_alone
    (pathname : string -> option string)
    (baseUri : string) (getNodeForPath : string -> result Node.t)
    (parseDate : JsVal.t -> option Z) (req : Request.t) (handleAsGET : bool)
    (uri ifNoneMatch etag : string) (n : Node.t) :
  Uri.calculateUri pathname baseUri (url req) = Ok uri ->
  header "if-match" req = JUndefined ->
  header "if-none-match" req = JStr ifNoneMatch ->
  getNodeForPath uri = Ok n ->
  Node.getETag n = Some etag ->
  JS.truthy etag = true ->
  Util.trim ifNoneMatch dquote = etag ->
  checkPreconditions pathname baseUri getNodeForPath parseDate req handleAsGET
  = if handleAsGET then Redirected 304
    else Failed Exc.jsDAV_Exception_PreconditionFailed.
Proof.
  intros Hu Hm Hn Hl He Ht Hq.
  unfold checkPreconditions, getRequestUri. rewrite Hu, Hm.
  unfold afterIfMatch. rewrite Hn.
  assert (Hi : JS.truthy ifNoneMatch = true).
  { destruct ifNoneMatch; [|reflexivity]. subst etag. discriminate Ht. }
  rewrite Hi, Hl, He, Hq. unfold etagTruthy, etagIs.
  now rewrite Ht, String.eqb_refl, orb_true_r.
Qed.

(** Where it does not: once a passing If-Match header has made the server
    fetch the node, the If-None-Match comparison is skipped altogether. *)
Lemma checkPreconditions_ifMatch_skips_ifNoneMatch
    (pathname : string -> option string)
    (baseUri : string) (getNodeForPath : string -> result Node.t)
    (parseDate : JsVal.t -> option Z) (req : Request.t) (handleAsGET : bool)
    (uri ifMatch ifNoneMatch : string) (n : Node.t) :
  Uri.calculateUri pathname baseUri (url req) = Ok uri ->
  header "if-match" req = JStr ifMatch ->
  JS.truthy ifMatch = true ->
  getNodeForPath uri = Ok n ->
  Node.getETag n = Some (Util.trim ifMatch dquote) ->
  header "if-none-match" req = JStr ifNoneMatch ->
  JS.truthy ifNoneMatch = true ->
  header "if-unmodified-since" req = JUndefined ->
  checkPreconditions pathname baseUri getNodeForPath parseDate req handleAsGET = Passed.
Proof.
  intros Hu Hm Ht Hl He Hn Hi Hs.
  unfold checkPreconditions, getRequestUri. rewrite Hu, Hm, Ht, Hl, He.
  unfold etagIs. rewrite String.eqb_refl, andb_false_r.
  unfold afterIfMatch. rewrite Hn, Hi.
  unfold afterIfNoneMatch. cbn [truthy]. rewrite Hi. cbn [negb andb].
  unfold afterIfModifiedSince. now rewrite Hs.
Qed.

(** C3 on the code, at a PUT-like request (not handled as GET) for "/f"
    whose ETag is abc, with both [If-Match: "abc"] and
    [If-None-Match: "abc"]: the preconditions pass, where the claim has a
    412; handled as GET they pass as well, where the claim has a 304. *)
Lemma checkPreconditions_both_headers_pass :
  let req := {| url := "/f";
                headers := [("if-match", quoted "abc");
                            ("if-none-match", quoted "abc")] |} in
  checkPreconditions noPathname "/" (oneFile "abc") Get.digitsDate req false = Passed
  /\ checkPreconditions noPathname "/" (oneFile "abc") Get.digitsDate req true = Passed
  /\ checkPreconditions noPathname "/" (oneFile "abc") Get.digitsDate
       {| url := "/f"; headers := [("if-none-match", quoted "abc")] |} false
     = Failed Exc.jsDAV_Exception_PreconditionFailed.
Proof. repeat split; reflexivity. Qed.

End PrecondFacts.

(** ** [updateProperties] *)

Section UpdateFacts.

Import JsVal Request Update Sample.

(** A name in Clark notation is not an array index. *)
Lemma arrayIndex_clark (s : string) : arrayIndex (String "{" s) = None.
Proof. reflexivity. Qed.

Lemma assign_length (k : string) (arr : JsArray) :
  arrayIndex k = None -> length arr = 0%N -> length (assign k arr) = 0%N.
Proof.
  intros H H0. unfold assign. destruct (String.eqb k "length"); [reflexivity|].
  cbn [length]. now rewrite H.
Qed.

Lemma set_allEmpty (status : string) (arr : JsArray) (result : list (string * JsArray)) :
  length arr = 0%N -> allEmpty result -> allEmpty (set status arr result).
Proof.
  intros Ha H. induction H as [|[k v] r Hv Hr IH]; cbn.
  - constructor; [exact Ha | constructor].
  - destruct (String.eqb status k); constructor; auto.
Qed.

Lemma get_allEmpty (status : string) (arr : JsArray) (result : list (string * JsArray)) :
  allEmpty result -> get status result = Some arr -> length arr = 0%N.
Proof.
  intros H. induction H as [|[k v] r Hv Hr IH]; cbn; [discriminate|].
  destruct (String.eqb status k); [now intros [= <-] | exact IH].
Qed.

Lemma assignAll_allEmpty (status : string) (l : list string)
    (result : list (string * JsArray)) :
  Forall (fun k => arrayIndex k = None) l ->
  allEmpty result -> allEmpty (assignAll status l result).
Proof.
  intros Hl. revert result. unfold assignAll.
  induction Hl as [|k l Hk Hl IH]; intros result H; cbn; [exact H|].
  apply IH. unfold assignIn.
  destruct (get status result) as [arr|] eqn:E; [|exact H].
  apply set_allEmpty; [|exact H].
  apply (assign_length _ _ Hk). exact (get_allEmpty _ _ _ H E).
Qed.

Lemma strip_allEmpty (result : list (string * JsArray)) :
  allEmpty result -> strip result = [].
Proof.
  intros H. induction H as [|[k v] r Hv Hr IH]; cbn; [reflexivity|].
  cbn in Hv. now rewrite Hv.
Qed.

Lemma Forall_filter_keep {A : Type} (P : A -> Prop) (f : A -> bool) (l : list A) :
  Forall P l -> Forall P (filter f l).
Proof.
  intros H. induction H as [|a l Ha Hl IH]; cbn; [constructor|].
  destruct (f a); [constructor|]; assumption.
Qed.

Section WithStore.

Variable Store : Type.
Variable node_updateProperties :
  Node.t -> list (string * Node.PropValue) -> Store -> NodeUpdate * Store.
Variable getNodeForPath : string -> result Node.t.

(** The part of C1 that holds: with a protected name among the properties
    [node.updateProperties] is not called, and the store is as before. *)
Lemma updateProperties_protected_store (uri : string)
    (properties : list (string * Node.PropValue)) (store : Store) :
  existsb isProtected (names properties) = true ->
  snd (updateProperties Store node_updateProperties getNodeForPath uri properties store)
  = store.
Proof.
  intros H. unfold updateProperties.
  destruct (getNodeForPath uri) as [node|e]; [|reflexivity].
  destruct (Node.IPROPERTIES node); cbn [negb]; [|reflexivity].
  now rewrite H.
Qed.

(** The defect behind C1 and C5: a property name that is not an array
    index does not count towards [length], so when the node returns [true]
    or is not asked at all, the three buckets all have [length] 0 at the
    end and are all removed; only [href] is returned. *)
Lemma updateProperties_buckets_stripped (uri : string)
    (properties : list (string * Node.PropValue)) (store : Store) (r : Result) :
  Forall (fun k => arrayIndex k = None) (names properties) ->
  (forall node, getNodeForPath uri = Ok node ->
     Node.IPROPERTIES node = true ->
     existsb isProtected (names properties) = false ->
     fst (node_updateProperties node properties store) = UTrue) ->
  fst (updateProperties Store node_updateProperties getNodeForPath uri properties store)
    = Ok r ->
  r = {| statuses := []; href := uri |}.
Proof.
  intros Hk Hu. unfold updateProperties.
  assert (H0 : allEmpty initial) by (repeat constructor).
  destruct (getNodeForPath uri) as [node|e]; [|discriminate].
  specialize (Hu node eq_refl).
  destruct (Node.IPROPERTIES node); cbn [negb].
  - destruct (existsb isProtected (names properties)).
    + cbn [fst]. intros [= <-]. unfold finish, withRemaining. f_equal.
      apply strip_allEmpty, assignAll_allEmpty.
      * now apply Forall_filter_keep.
      * apply assignAll_allEmpty; [now apply Forall_filter_keep | exact H0].
    + specialize (Hu eq_refl eq_refl).
      destruct (node_updateProperties node properties store) as [u store'].
      cbn [fst] in Hu. subst u. cbn [fst]. intros [= <-].
      unfold finish, withRemaining. f_equal.
      apply strip_allEmpty. cbn [assignAll fold_left].
      apply assignAll_allEmpty; [exact Hk|].
      apply assignAll_allEmpty; [now apply Forall_filter_keep | exact H0].
  - cbn [fst]. intros [= <-]. unfold finish, withRemaining. f_equal.
    apply strip_allEmpty. cbn [assignAll fold_left].
    apply assignAll_allEmpty; [exact Hk | exact H0].
Qed.

End WithStore.

(** C1 on the code, at a PROPPATCH of [{DAV:}getetag] and
    [{DAV:}displayname]: the node is not asked to update anything (the
    store is unchanged), but the result carries neither a 403 for
    [{DAV:}getetag] nor a 424 for [{DAV:}displayname]; both buckets were
    filled under non-index keys, have length 0 and are removed. *)
Lemma updateProperties_protected_reports_nothing :
  let properties := [("{DAV:}getetag", Node.Plain (JStr "x"));
                     ("{DAV:}displayname", Node.Plain (JStr "y"))] in
  updateProperties _ recordingUpdate propsTree "f" properties []
  = (Ok {| statuses := []; href := "f" |}, [])
  /\ withRemaining
       (assignAll "403" (filter isProtected (names properties)) initial)
       (filter (fun n => negb (isProtected n)) (names properties))
     = [("200", emptyArray);
        ("403", {| length := 0; keys := ["{DAV:}getetag"] |});
        ("424", {| length := 0; keys := ["{DAV:}displayname"] |})].
Proof. split; reflexivity. Qed.

(** C5 on the code, at a PROPPATCH of [{DAV:}displayname] that the node
    accepts: the node has written the property, but the result has no 200
    bucket, only [href]. *)
Lemma updateProperties_success_reports_nothing :
  let properties := [("{DAV:}displayname", Node.Plain (JStr "y"))] in
  updateProperties _ recordingUpdate propsTree "f" properties []
  = (Ok {| statuses := []; href := "f" |}, [properties])
  /\ assignAll "200" (names properties) initial
     = [("200", {| length := 0; keys := ["{DAV:}displayname"] |});
        ("403", emptyArray); ("424", emptyArray)].
Proof. split; reflexivity. Qed.

(** Only a name that is an array index survives the removal. *)
Example updateProperties_index_key :
  updateProperties _ recordingUpdate propsTree "f" [("7", Node.Plain (JStr "y"))] []
  = (Ok {| statuses := [("200", {| length := 8; keys := ["7"] |})]; href := "f" |},
     [[("7", Node.Plain (JStr "y"))]]).
Proof. reflexivity. Qed.

End UpdateFacts.

(** ** [getCopyAndMoveInfo] and [httpMove] *)

Section CopyMoveFacts.

Import JsVal Request CopyMove.

Variable Tree : Type.
Variable getNodeForPath : Tree -> string -> result Node.t.
Variable delete : Tree -> Node.t -> option Exc.t * Tree.
Variable move : Tree -> string -> string -> option Exc.t * Tree.
Variable pathname : string -> option string.
Variable baseUri : string.

Lemma httpMove_error (tree : Tree) (req : Request.t) (e : Exc.t) :
  getCopyAndMoveInfo Tree getNodeForPath pathname baseUri tree req = Throw e ->
  httpMove Tree getNodeForPath delete move pathname baseUri tree req = (Error e, tree).
Proof. intros H. unfold httpMove. now rewrite H. Qed.

Lemma overwriteFlag_none (ow : string) :
  JS.truthy ow = true ->
  JS.toUpperCase ow <> "T" -> JS.toUpperCase ow <> "F" ->
  overwriteFlag (JStr ow) = None.
Proof.
  intros Ht H1 H2. unfold overwriteFlag. rewrite Ht.
  destruct (String.eqb_spec (JS.toUpperCase ow) "T"); [contradiction|].
  destruct (String.eqb_spec (JS.toUpperCase ow) "F"); [contradiction|].
  reflexivity.
Qed.

(** C7, as the code has it.  For a MOVE whose request uri lies under the
    base uri, with the tree left as it was in every case:
    - no Destination header: 400;
    - a non-empty Overwrite value that is neither T nor F once upper-cased:
      400;
    - the parent of the destination not found: 409;
    - the parent of the destination not a collection: 415;
    - the destination found and Overwrite F (or f): 412. *)
Theorem httpMove_refusals (tree : Tree) (req : Request.t) (src : string) :
  Uri.calculateUri pathname baseUri (url req) = Ok src ->
  (truthy (header "destination" req) = false ->
   httpMove Tree getNodeForPath delete move pathname baseUri tree req
   = (Error Exc.jsDAV_Exception_BadRequest, tree))
  /\ (forall dest dst,
        header "destination" req = JStr dest -> JS.truthy dest = true ->
        Uri.calculateUri pathname baseUri dest = Ok dst ->
        (forall ow,
           header "overwrite" req = JStr ow -> JS.truthy ow = true ->
           JS.toUpperCase ow <> "T" -> JS.toUpperCase ow <> "F" ->
           httpMove Tree getNodeForPath delete move pathname baseUri tree req
           = (Error Exc.jsDAV_Exception_BadRequest, tree))
        /\ (forall b,
              overwriteFlag (header "overwrite" req) = Some b ->
              (getNodeForPath tree (fst (splitPath dst))
               = Throw Exc.jsDAV_Exception_FileNotFound ->
               httpMove Tree getNodeForPath delete move pathname baseUri tree req
               = (Error Exc.jsDAV_Exception_Conflict, tree))
              /\ (forall parent,
                    getNodeForPath tree (fst (splitPath dst)) = Ok parent ->
                    Node.ICOLLECTION parent = false ->
                    httpMove Tree getNodeForPath delete move pathname baseUri tree req
                    = (Error Exc.jsDAV_Exception_UnsupportedMediaType, tree)))
        /\ (forall ow parent node,
              header "overwrite" req = JStr ow -> JS.toUpperCase ow = "F" ->
              getNodeForPath tree (fst (splitPath dst)) = Ok parent ->
              Node.ICOLLECTION parent = true ->
              getNodeForPath tree dst = Ok node ->
              httpMove Tree getNodeForPath delete move pathname baseUri tree req
              = (Error Exc.jsDAV_Exception_PreconditionFailed, tree)))
  /\ (statusOf (Error Exc.jsDAV_Exception_BadRequest) = 400
      /\ statusOf (Error Exc.jsDAV_Exception_Conflict) = 409
      /\ statusOf (Error Exc.jsDAV_Exception_UnsupportedMediaType) = 415
      /\ statusOf (Error Exc.jsDAV_Exception_PreconditionFailed) = 412)%Z.
Proof.
  intros Hs. split; [|split; [|repeat split]].
  - intros Hd. apply httpMove_error. unfold getCopyAndMoveInfo. rewrite Hs.
    destruct (header "destination" req) as [| |b|n| |s]; try reflexivity.
    cbn [truthy] in Hd. now rewrite Hd.
  - intros dest dst Hd Ht Hc. split; [|split].
    + intros ow Ho Hot H1 H2. apply httpMove_error.
      unfold getCopyAndMoveInfo. rewrite Hs, Hd, Ht, Hc, Ho.
      now rewrite (overwriteFlag_none _ Hot H1 H2).
    + intros b Ho. split.
      * intros Hp. apply httpMove_error.
        unfold getCopyAndMoveInfo. now rewrite Hs, Hd, Ht, Hc, Ho, Hp.
      * intros parent Hp Hcoll. apply httpMove_error.
        unfold getCopyAndMoveInfo. now rewrite Hs, Hd, Ht, Hc, Ho, Hp, Hcoll.
    + intros ow parent node Ho Hf Hp Hcoll Hn. apply httpMove_error.
      unfold getCopyAndMoveInfo. rewrite Hs, Hd, Ht, Hc, Ho.
      assert (Hflag : overwriteFlag (JStr ow) = Some false).
      { unfold overwriteFlag.
        assert (Hot : JS.truthy ow = true) by (destruct ow; [discriminate Hf|reflexivity]).
        now rewrite Hot, Hf. }
      now rewrite Hflag, Hp, Hcoll, Hn.
Qed.

End CopyMoveFacts.

(** The theorem on [MOVE /a] to "/b" with [Overwrite: F], where "b"
    exists: 412, and the tree is the tree as it was. *)
Lemma httpMove_refusals_witness :
  let req := {| Request.url := "/a";
                Request.headers := [("destination", "/b"); ("overwrite", "F")] |} in
  CopyMove.httpMove Sample.ListTree Sample.listLookup Sample.listDelete
    Sample.listMove Sample.noPathname "/" Sample.abTree req
  = (CopyMove.Error Exc.jsDAV_Exception_PreconditionFailed, Sample.abTree).
Proof.
  intros req.
  destruct (httpMove_refusals Sample.ListTree Sample.listLookup Sample.listDelete
              Sample.listMove Sample.noPathname "/" Sample.abTree req "a" eq_refl)
    as (_ & H & _).
  destruct (H "/b" "b" eq_refl eq_refl eq_refl) as (_ & _ & H412).
  exact (H412 "F" (Sample.collectionAt "") (Sample.fileWithETag "b" "2")
           eq_refl eq_refl eq_refl eq_refl eq_refl).
Defined.

(** C7 as stated fails: "t" is an Overwrite value other than T and F, yet
    the request is not refused with 400; the value is upper-cased before
    it is compared, and the move is carried out. *)
Lemma httpMove_lowercase_overwrite_accepted :
  let req := {| Request.url := "/a";
                Request.headers := [("destination", "/c"); ("overwrite", "t")] |} in
  "t" <> "T" /\ "t" <> "F"
  /\ fst (CopyMove.httpMove Sample.ListTree Sample.listLookup Sample.listDelete
            Sample.listMove Sample.noPathname "/" Sample.abTree req)
     = CopyMove.Status 201
  /\ CopyMove.statusOf
       (fst (CopyMove.httpMove Sample.ListTree Sample.listLookup Sample.listDelete
               Sample.listMove Sample.noPathname "/" Sample.abTree req)) <> 400%Z.
Proof.
  intros req. split; [discriminate|]. split; [discriminate|].
  remember (CopyMove.httpMove _ _ _ _ _ _ _ _) as r eqn:E.
  vm_compute in E. subst r. split; [reflexivity | discriminate].
Qed.

(** ** [getPropertiesForPath] *)

Section PropfindFacts.

Import JsVal Node Request Propfind Sample.

Example getPropertiesForPath_root_depth1 :
  option_map (map (fun e => (fst e, href (snd e))))
    (match getPropertiesForPath sampleLookup sampleChildren "" [] 1 with
     | Ok l => Some l | Throw _ => None end)
  = Some [("path", Some "path/"); ("a", Some "a"); ("sub", Some "sub/")].
Proof. reflexivity. Qed.

End PropfindFacts.

Section ObjectFacts.

Import Request.

Context {A : Type}.

Lemma get_set_same (k : string) (v : A) (o : list (string * A)) :
  get k (set k v o) = Some v.
Proof.
  induction o as [|[k' v'] o IH]; cbn.
  - now rewrite String.eqb_refl.
  - destruct (String.eqb_spec k k') as [->|n]; cbn.
    + now rewrite String.eqb_refl.
    + destruct (String.eqb_spec k k'); [contradiction | exact IH].
Qed.

Lemma get_set_other (k k' : string) (v : A) (o : list (string * A)) :
  k <> k' -> get k (set k' v o) = get k o.
Proof.
  intros Hk. induction o as [|[k2 v2] o IH]; cbn.
  - destruct (String.eqb_spec k k'); [contradiction | reflexivity].
  - destruct (String.eqb_spec k' k2) as [->|n]; cbn.
    + destruct (String.eqb_spec k k2); [contradiction | reflexivity].
    + destruct (String.eqb_spec k k2); [reflexivity | exact IH].
Qed.



End ObjectFacts.

(** ** [getPropertiesForPath]: the href of an entry *)

Section HrefSlashFacts.

Import JsVal Node Request Propfind.






Section OneNode.

Variables (allProperties remRT : bool) (myPath : string) (node : Node.t).






End OneNode.





Section Tree.

Variable getNodeForPath : string -> result Node.t.
Variable getChildren : Node.t -> result (list Node.t).


End Tree.

End HrefSlashFacts.



(** C4 on the code, at a PROPFIND with [Depth: 0] on the sample root
    collection: the header is a string, so [getHTTPDepth] falls back to
    the default 1, the effective depth is 1, and the response lists the
    two children next to the target. *)
Lemma httpPropfind_depth_0_lists_children :
  let req := {| Request.url := "/"; Request.headers := [("depth", "0")] |} in
  Request.getHTTPDepth req 1 = JsVal.JNum 1
  /\ Request.propfindDepth req = 1%Z
  /\ exists resp,
       Propfind.httpPropfind Sample.sampleLookup Sample.sampleChildren
         Sample.noPathname "/" req [] = Ok resp
       /\ map fst resp = ["path"; "a"; "sub"].
Proof.
  split; [reflexivity|]. split; [reflexivity|].
  remember (Propfind.httpPropfind _ _ _ _ _ _) as r eqn:E.
  vm_compute in E. subst r.
  eexists. split; reflexivity.
Qed.

Example splitPath_examples :
  CopyMove.splitPath "a/b/c" = ("a/b", "c")
  /\ CopyMove.splitPath "c" = ("", "c")
  /\ CopyMove.splitPath "" = ("", "").
Proof. repeat split; reflexivity. Qed.

(* ================================================================== *)
(** * Part III: further properties of the code                         *)
(* ================================================================== *)

(** ** [setBaseUri] and [calculateUri] *)

Section MoreUriFacts.

Lemma length_app_one (b : string) (c : ascii) :
  String.length (b ++ String c "") = S (String.length b).
Proof. induction b as [|a b IH]; cbn; [reflexivity | now rewrite IH]. Qed.

Lemma endsWithSlash_app (b : string) : Uri.endsWithSlash (b ++ "/") = true.
Proof.
  unfold Uri.endsWithSlash.
  rewrite length_app_one, Nat.sub_succ, Nat.sub_0_r, substr_app. reflexivity.
Qed.

(** X1.  [setBaseUri] stores a uri that ends with a slash, leaves a uri that
    already ends with one as it is, and setting its own result again
    changes nothing. *)
Theorem setBaseUri_slash_idempotent (uri : string) :
  (exists b, Uri.setBaseUri uri = b ++ "/")
  /\ (Uri.endsWithSlash uri = true -> Uri.setBaseUri uri = uri)
  /\ (Uri.endsWithSlash uri = false -> Uri.setBaseUri uri = uri ++ "/")
  /\ Uri.setBaseUri (Uri.setBaseUri uri) = Uri.setBaseUri uri.
Proof.
  split; [apply setBaseUri_slash|]. unfold Uri.setBaseUri.
  destruct (Uri.endsWithSlash uri) eqn:E.
  - repeat split; try discriminate. now rewrite E.
  - repeat split; try discriminate. now rewrite endsWithSlash_app.
Qed.

(** X2.  The path [calculateUri] hands on neither begins nor ends with a
    slash, whatever the base uri and the request uri are. *)
Theorem calculateUri_no_outer_slash (pathname : string -> option string)
    (baseUri uri path : string) :
  Uri.calculateUri pathname baseUri uri = Ok path ->
  JS.startsWith "/" path = false /\ forall t, path <> t ++ "/".
Proof.
  intros H. destruct (calculateUri_inv _ _ _ _ H) as [Hh Ht]. split.
  - destruct path as [|a p]; [reflexivity|]. cbn [JS.startsWith Util.notHead] in *.
    destruct (Ascii.eqb_spec "/" a) as [<-|]; [now elim Hh | reflexivity].
  - intros t E. rewrite <- Ht in E. unfold Util.trim in E.
    exact (rtrim_last _ _ _ E).
Qed.

Lemma calculateUri_no_outer_slash_witness :
  JS.startsWith "/" "a/b" = false /\ forall t, "a/b" <> t ++ "/".
Proof.
  exact (calculateUri_no_outer_slash Sample.noPathname "/dav/" "/dav//a/b//" "a/b"
           eq_refl).
Defined.

End MoreUriFacts.

(** ** [getHTTPDepth] and [getHTTPRange] *)

Section MoreHeaderFacts.

Import JsVal Request Headers.

(** The number in a Depth header is never used: [getHTTPDepth] returns
    [DEPTH_INFINITY] for the value "infinity", and for every other value,
    as for no header at all, the default (with [DEPTH_INFINITY] standing
    in for a default of 0). *)
Theorem getHTTPDepth_ignores_numbers (req : Request.t) (def : Z) :
  getHTTPDepth req def =
  JNum (if match get "depth" (headers req) with
           | Some s => String.eqb s "infinity"
           | None => false
           end
        then DEPTH_INFINITY
        else if Z.eqb def 0 then DEPTH_INFINITY else def).
Proof.
  unfold getHTTPDepth, header, getHTTPDepth_of.
  destruct (get "depth" (headers req)) as [s|]; [|reflexivity].
  cbn [truthy looseEqStr typeof].
  destruct (JS.truthy s) eqn:Ht; cbn [negb].
  - destruct (String.eqb s "infinity"); reflexivity.
  - destruct s; [reflexivity | discriminate Ht].
Qed.

Lemma spanDigits_sound (s d r : string) :
  spanDigits s = (d, r) -> s = d ++ r /\ allDigits d = true.
Proof.
  revert d r. induction s as [|c s IH]; intros d r; cbn.
  - intros [= <- <-]. now split.
  - destruct (isDigit c) eqn:E.
    + destruct (spanDigits s) as [d' r']. intros [= <- <-].
      destruct (IH d' r' eq_refl) as [-> Hd]. cbn. now rewrite E.
    + intros [= <- <-]. now split.
Qed.

Lemma spanDigits_app (d r : string) :
  allDigits d = true ->
  (match r with String c _ => isDigit c = false | EmptyString => True end) ->
  spanDigits (d ++ r) = (d, r).
Proof.
  intros Hd Hr. induction d as [|c d IH]; cbn in *.
  - destruct r as [|c r]; [reflexivity|]. cbn. now rewrite Hr.
  - apply andb_prop in Hd as [Hc Hd]. now rewrite Hc, (IH Hd).
Qed.

Lemma group_nullOrDigits (m : string) :
  allDigits m = true -> nullOrDigits (group m).
Proof.
  intros H. unfold group. destruct m as [|c m]; [now left|].
  right. exists (String c m). now repeat split.
Qed.

(** X3.  What [getHTTPRange] returns is never a pair of two nulls, and each
    half is null or a non-empty run of digits. *)
Theorem getHTTPRange_sound (req : Request.t) (a b : JsVal.t) :
  getHTTPRange req = Some (a, b) ->
  nullOrDigits a /\ nullOrDigits b /\ ~ (a = JNull /\ b = JNull).
Proof.
  unfold getHTTPRange.
  destruct (header "range" req) as [| | | | |range]; try discriminate.
  destruct (JS.truthy range); cbn [negb]; [|discriminate].
  unfold matchRange.
  destruct (String.eqb _ "BYTES="); [|discriminate].
  destruct (spanDigits (JS.substr 6 range)) as [m1 r1] eqn:E1.
  destruct r1 as [|c r2]; [discriminate|].
  destruct (Ascii.eqb c "-"); [|discriminate].
  destruct (spanDigits r2) as [m2 r3] eqn:E2.
  destruct r3; [|discriminate].
  apply spanDigits_sound in E1 as [_ H1]. apply spanDigits_sound in E2 as [_ H2].
  destruct (String.eqb_spec m1 "") as [->|N1]; cbn [andb].
  - destruct (String.eqb_spec m2 "") as [->|N2]; [discriminate|].
    intros [= <- <-]. split; [now left|]. split; [now apply (group_nullOrDigits m2)|].
    intros [_ H]. destruct m2; [now elim N2 | discriminate H].
  - intros [= <- <-]. split; [now apply (group_nullOrDigits m1)|].
    split; [now apply (group_nullOrDigits m2)|].
    intros [H _]. destruct m1; [now elim N1 | discriminate H].
Qed.

Lemma getHTTPRange_sound_witness :
  nullOrDigits (JStr "0") /\ nullOrDigits (JStr "4")
  /\ ~ (JStr "0" = JNull /\ JStr "4" = JNull).
Proof.
  exact (getHTTPRange_sound {| url := "/f"; headers := [("range", "bytes=0-4")] |}
           (JStr "0") (JStr "4") eq_refl).
Defined.

Lemma getHTTPRange_of_digits (req : Request.t) (d1 d2 : string) :
  get "range" (headers req) = Some ("bytes=" ++ d1 ++ "-" ++ d2) ->
  allDigits d1 = true -> allDigits d2 = true ->
  (d1 <> "" \/ d2 <> "") ->
  getHTTPRange req = Some (group d1, group d2).
Proof.
  intros Hr H1 H2 Hne. unfold getHTTPRange, header. rewrite Hr.
  cbn [JS.truthy append negb]. unfold matchRange.
  cbn [append substring JS.toUpperCase JS.substr].
  rewrite substring_none. cbn [JS.toUpperCase].
  change (String.eqb _ "BYTES=") with true. cbn iota.
  rewrite (spanDigits_app d1 (String "-" d2) H1 eq_refl).
  change (Ascii.eqb "-" "-") with true. cbn iota.
  replace d2 with (d2 ++ "") at 1 by apply append_empty.
  rewrite (spanDigits_app d2 "" H2 I).
  destruct (String.eqb_spec d1 "") as [->|N1]; cbn [andb]; [|reflexivity].
  destruct (String.eqb_spec d2 "") as [->|N2]; [|reflexivity].
  destruct Hne as [H|H]; now elim H.
Qed.

(** X4.  Every header "bytes=" followed by two runs of digits around a dash,
    not both empty, is understood, and the two runs come back as they
    were written. *)
Theorem getHTTPRange_complete (req : Request.t) (d1 d2 : string) :
  get "range" (headers req) = Some ("bytes=" ++ d1 ++ "-" ++ d2) ->
  allDigits d1 = true -> allDigits d2 = true ->
  (d1 <> "" \/ d2 <> "") ->
  getHTTPRange req = Some (group d1, group d2).
Proof. exact (getHTTPRange_of_digits req d1 d2). Qed.

Lemma getHTTPRange_complete_witness :
  getHTTPRange {| url := "/f"; headers := [("range", "bytes=" ++ "" ++ "-" ++ "500")] |}
  = Some (JNull, JStr "500").
Proof.
  apply (getHTTPRange_complete
           {| url := "/f"; headers := [("range", "bytes=" ++ "" ++ "-" ++ "500")] |}
           "" "500" eq_refl eq_refl eq_refl).
  right. discriminate.
Defined.

End MoreHeaderFacts.

(** ** The answers of [httpGet] *)

Section MoreGetFacts.

Import JsVal Request Headers Get.

Variable parseDate : JsVal.t -> option Z.
Variable newBuffer : nat -> string.

Lemma get_delete_other {A : Type} (k k' : string) (o : list (string * A)) :
  k <> k' -> get k (delete k' o) = get k o.
Proof.
  intros Hk. induction o as [|[k2 v2] o IH]; cbn; [reflexivity|].
  destruct (String.eqb_spec k' k2) as [->|n]; cbn.
  - destruct (String.eqb_spec k k2); [contradiction | reflexivity].
  - destruct (String.eqb_spec k k2); [reflexivity | exact IH].
Qed.

Lemma field_set_same (k : string) (v : JsVal.t) (o : list (string * JsVal.t)) :
  field k (set k v o) = v.
Proof. unfold field. now rewrite get_set_same. Qed.

Lemma field_set_other (k k' : string) (v : JsVal.t) (o : list (string * JsVal.t)) :
  k <> k' -> field k (set k' v o) = field k o.
Proof. intros H. unfold field. now rewrite get_set_other. Qed.

Lemma field_delete_other (k k' : string) (o : list (string * JsVal.t)) :
  k <> k' -> field k (delete k' o) = field k o.
Proof. intros H. unfold field. now rewrite get_delete_other. Qed.

Lemma Buffer_copy_fresh (source target : string) (n sourceStart : nat) :
  String.length target = n -> Buffer_copy source target n sourceStart = target.
Proof. intros <-. apply Buffer_copy_at_end. Qed.

Lemma partial_outcomes (httpHeaders : list (string * JsVal.t))
    (nodeSize start end_ : JsVal.t) (body : string) :
  (forall n, String.length (newBuffer n) = n) ->
  match partial newBuffer httpHeaders nodeSize start end_ body with
  | Ok r => status r = 206%Z /\ exists n, respBody r = newBuffer n
  | Throw e => e = Exc.RangeError
  end.
Proof.
  intros Hn. unfold partial.
  destruct (toNumber (addNum (sub end_ start) (JNum 1))) as [size|]; [|reflexivity].
  destruct (size <? 0)%Z; [reflexivity|].
  destruct (String.length body <? toNat start)%nat; [reflexivity|].
  split; [reflexivity|]. cbn [respBody]. eexists. apply Buffer_copy_fresh, Hn.
Qed.

Lemma ranged_outcomes (httpHeaders : list (string * JsVal.t)) (nodeSize : JsVal.t)
    (range : JsVal.t * JsVal.t) (body : string) :
  (forall n, String.length (newBuffer n) = n) ->
  match ranged newBuffer httpHeaders nodeSize range body with
  | Ok r => status r = 206%Z /\ exists n, respBody r = newBuffer n
  | Throw e => e = Exc.jsDAV_Exception_RequestedRangeNotSatisfiable
               \/ e = Exc.RangeError
  end.
Proof.
  intros Hn.
  assert (P : forall start end_,
    match partial newBuffer httpHeaders nodeSize start end_ body with
    | Ok r => status r = 206%Z /\ exists n, respBody r = newBuffer n
    | Throw e => e = Exc.jsDAV_Exception_RequestedRangeNotSatisfiable
                 \/ e = Exc.RangeError
    end).
  { intros start end_.
    pose proof (partial_outcomes httpHeaders nodeSize start end_ body Hn) as H.
    destruct (partial newBuffer httpHeaders nodeSize start end_ body);
      [exact H | now right]. }
  unfold ranged. destruct (truthy (fst range)); [|apply P].
  destruct (gt (fst range) nodeSize); [now left|].
  destruct (lt _ (fst range)); [now left | apply P].
Qed.

(** X5.  Once headers and content are at hand, [httpGet] ends in one of
    four ways: 200 with the content of the node as it is; 206 with a
    buffer that is still as [new Buffer] made it, the copy into it
    starting at its end; the error 416; or a RangeError of the buffer
    calls. *)
Theorem respond_outcomes (req : Request.t) (httpHeaders : list (string * JsVal.t))
    (body : string) :
  (forall n, String.length (newBuffer n) = n) ->
  match respond parseDate newBuffer req httpHeaders body with
  | Ok r => (status r = 200%Z /\ respBody r = body)
            \/ (status r = 206%Z /\ exists n, respBody r = newBuffer n)
  | Throw e => e = Exc.jsDAV_Exception_RequestedRangeNotSatisfiable
               \/ e = Exc.RangeError
  end.
Proof.
  intros Hn. unfold respond.
  destruct (getHTTPRange req) as [r|]; [|now left].
  match goal with |- context [if ?c then ranged _ ?h ?s _ _ else _] =>
    destruct c; [|now left];
    pose proof (ranged_outcomes h s r body Hn) as H;
    destruct (ranged newBuffer h s r body); [now right | exact H]
  end.
Qed.

(** Without a Range header the server understands, the answer is 200 with
    the whole content; the Content-Length is the one of the node, and a
    node without a content type is served as application/octet-stream. *)
Theorem respond_without_range (req : Request.t)
    (httpHeaders : list (string * JsVal.t)) (body : string) :
  getHTTPRange req = None ->
  exists r,
    respond parseDate newBuffer req httpHeaders body = Ok r
    /\ status r = 200%Z /\ respBody r = body
    /\ field "Content-Length" (respHeaders r) = field "Content-Length" httpHeaders
    /\ field "Content-Type" (respHeaders r)
       = (if truthy (field "Content-Type" httpHeaders)
          then field "Content-Type" httpHeaders
          else JStr "application/octet-stream").
Proof.
  intros Hr. unfold respond. rewrite Hr. eexists. split; [reflexivity|].
  cbn [status respBody respHeaders]. split; [reflexivity|]. split; [reflexivity|].
  set (h1 := if negb (truthy (field "Content-Type" httpHeaders)) then _ else _).
  assert (Hcl : field "Content-Length" h1 = field "Content-Length" httpHeaders).
  { subst h1. destruct (truthy (field "Content-Type" httpHeaders)); cbn [negb];
      [reflexivity | now apply field_set_other]. }
  assert (Hct : field "Content-Type" h1
                = if truthy (field "Content-Type" httpHeaders)
                  then field "Content-Type" httpHeaders
                  else JStr "application/octet-stream").
  { subst h1. destruct (truthy (field "Content-Type" httpHeaders)); cbn [negb];
      [reflexivity | apply field_set_same]. }
  rewrite Hcl. destruct (truthy (field "Content-Length" httpHeaders)) eqn:Ht.
  - cbv iota. rewrite Ht. split; [now rewrite field_set_same|].
    rewrite field_set_other, field_delete_other by discriminate. exact Hct.
  - cbn [truthy]. now split.
Qed.

End MoreGetFacts.

Lemma respond_without_range_witness :
  exists r,
    Get.respond Get.digitsDate Get.zeroBuffer
      {| Request.url := "/f"; Request.headers := [("range", "lines=1-2")] |}
      [("Content-Length", JsVal.JNum 3)] "abc" = Ok r
    /\ Get.status r = 200%Z /\ Get.respBody r = "abc"
    /\ Get.field "Content-Length" (Get.respHeaders r) = JsVal.JNum 3
    /\ Get.field "Content-Type" (Get.respHeaders r)
       = JsVal.JStr "application/octet-stream".
Proof.
  exact (respond_without_range Get.digitsDate Get.zeroBuffer
           {| Request.url := "/f"; Request.headers := [("range", "lines=1-2")] |}
           [("Content-Length", JsVal.JNum 3)] "abc" eq_refl).
Defined.


Lemma zeroBuffer_length (n : nat) : String.length (Get.zeroBuffer n) = n.
Proof. induction n as [|n IH]; cbn; [reflexivity | now rewrite IH]. Qed.

Lemma respond_outcomes_witness :
  match Get.respond Get.digitsDate Get.zeroBuffer
          {| Request.url := "/f"; Request.headers := [("range", "bytes=0-4")] |}
          [("Content-Length", JsVal.JNum 10)] "abcdefghij" with
  | Ok r => (Get.status r = 200%Z /\ Get.respBody r = "abcdefghij")
            \/ (Get.status r = 206%Z /\ exists n, Get.respBody r = Get.zeroBuffer n)
  | Throw e => e = Exc.jsDAV_Exception_RequestedRangeNotSatisfiable
               \/ e = Exc.RangeError
  end.
Proof.
  exact (respond_outcomes Get.digitsDate Get.zeroBuffer
           {| Request.url := "/f"; Request.headers := [("range", "bytes=0-4")] |}
           [("Content-Length", JsVal.JNum 10)] "abcdefghij" zeroBuffer_length).
Defined.

(** ** Ranges with one open side *)

Section OpenRangeFacts.

Import JsVal Request Headers Get.

Variable parseDate : JsVal.t -> option Z.
Variable newBuffer : nat -> string.

(** With a range, a known size and no If-Range header, [respond] is the
    range block applied to the headers without their Content-Length. *)
Lemma respond_ranged (req : Request.t) (httpHeaders : list (string * JsVal.t))
    (body : string) (range : JsVal.t * JsVal.t) (n : Z) :
  getHTTPRange req = Some range ->
  header "if-range" req = JUndefined ->
  field "Content-Length" httpHeaders = JNum n -> n <> 0%Z ->
  exists h,
    respond parseDate newBuffer req httpHeaders body
    = ranged newBuffer h (JNum n) range body.
Proof.
  intros Hr Hi Hc Hn. unfold respond. rewrite Hr, Hi.
  set (h1 := if negb (truthy (field "Content-Type" httpHeaders)) then _ else _).
  assert (Hcl : field "Content-Length" h1 = JNum n).
  { subst h1. destruct (truthy (field "Content-Type" httpHeaders)); cbn [negb];
      [exact Hc | now rewrite field_set_other]. }
  assert (Htn : truthy (JNum n) = true).
  { unfold truthy. now destruct (Z.eqb_spec n 0). }
  rewrite Hcl. repeat (rewrite Htn; cbv iota).
  change (truthy JUndefined) with false. rewrite andb_false_r.
  cbn [negb andb]. now eexists.
Qed.

(** The 206 answer for offsets that are numbers, when the buffer calls
    go through. *)
Lemma partial_ok (httpHeaders : list (string * JsVal.t))
    (nodeSize start end_ : JsVal.t) (body : string) (s e : Z) :
  toNumber start = Some s -> toNumber end_ = Some e ->
  (0 <= e - s + 1)%Z -> (Z.to_nat s <= String.length body)%nat ->
  exists r,
    partial newBuffer httpHeaders nodeSize start end_ body = Ok r
    /\ status r = 206%Z
    /\ field "Content-Length" (respHeaders r) = JNum (e - s + 1)
    /\ field "Content-Range" (respHeaders r)
       = JStr ("bytes " ++ toString start ++ "-" ++ toString end_ ++ "/"
                        ++ toString nodeSize).
Proof.
  intros Hs He Hlen Hb. unfold partial, addNum, sub, toNat. rewrite Hs, He.
  cbn [toNumber].
  destruct (Z.ltb_spec (e - s + 1) 0) as [|_]; [lia|].
  destruct (Nat.ltb_spec (String.length body) (Z.to_nat s)) as [|_]; [lia|].
  eexists. split; [reflexivity|]. split; [reflexivity|]. cbn [respHeaders].
  rewrite field_set_other, !field_set_same by discriminate. now split.
Qed.

(** X6.  [Range: bytes=-k] asks for the last [k] bytes: of a node whose
    content has the [n] bytes it declares the answer is 206 for the bytes
    from [max 0 (n - k)] to [n - 1], with the matching Content-Length. *)
Theorem respond_suffix_range (req : Request.t)
    (httpHeaders : list (string * JsVal.t)) (body d : string) (k n : Z) :
  get "range" (headers req) = Some ("bytes=" ++ "" ++ "-" ++ d) ->
  header "if-range" req = JUndefined ->
  allDigits d = true -> d <> "" -> digitsVal 0 d = Some k ->
  field "Content-Length" httpHeaders = JNum n -> n <> 0%Z ->
  Z.of_nat (String.length body) = n ->
  safeInteger n -> safeInteger k ->
  exists r,
    respond parseDate newBuffer req httpHeaders body = Ok r
    /\ status r = 206%Z
    /\ field "Content-Length" (respHeaders r) = JNum (n - Z.max 0 (n - k))
    /\ field "Content-Range" (respHeaders r)
       = JStr ("bytes " ++ toString (JNum (Z.max 0 (n - k))) ++ "-"
                        ++ toString (JNum (n - 1)) ++ "/" ++ toString (JNum n)).
Proof.
  intros Hr Hi Hd Hne Hk Hc Hn Hb [Hn0 _] [Hk0 _].
  assert (Hg : getHTTPRange req = Some (JNull, JStr d)).
  { rewrite (getHTTPRange_of_digits req "" d Hr eq_refl Hd (or_intror Hne)).
    unfold group. destruct d; [now elim Hne | reflexivity]. }
  destruct (respond_ranged req httpHeaders body _ n Hg Hi Hc Hn) as [h ->].
  unfold ranged. cbn [fst snd truthy sub toNumber lt]. rewrite Hk.
  change (lt (JNum (n - k)) (JNum 0)) with (Z.ltb (n - k) 0).
  destruct (Z.ltb_spec (n - k) 0) as [Hlt|Hge].
  - destruct (partial_ok h (JNum n) (JNum 0) (JNum (n - 1)) body 0 (n - 1)
                eq_refl eq_refl) as (r & E & Hs & Hcl & Hcr); [lia | lia |].
    exists r. split; [exact E|]. split; [exact Hs|].
    rewrite Hcl, Hcr, Z.max_l by lia. split; [f_equal; lia | reflexivity].
  - destruct (partial_ok h (JNum n) (JNum (n - k)) (JNum (n - 1)) body (n - k) (n - 1)
                eq_refl eq_refl) as (r & E & Hs & Hcl & Hcr); [lia | lia |].
    exists r. split; [exact E|]. split; [exact Hs|].
    rewrite Hcl, Hcr, Z.max_r by lia. split; [f_equal; lia | reflexivity].
Qed.

(** X7.  [Range: bytes=s-] asks for everything from offset [s] on: below
    the size [n] of the node, whose content has the [n] bytes it
    declares, the answer is 206 for [s] to [n - 1], the offset echoed as
    it was written; from [n] on it is the error 416. *)
Theorem respond_open_range (req : Request.t)
    (httpHeaders : list (string * JsVal.t)) (body d : string) (s n : Z) :
  get "range" (headers req) = Some ("bytes=" ++ d ++ "-" ++ "") ->
  header "if-range" req = JUndefined ->
  allDigits d = true -> d <> "" -> digitsVal 0 d = Some s ->
  field "Content-Length" httpHeaders = JNum n -> n <> 0%Z ->
  Z.of_nat (String.length body) = n ->
  safeInteger n -> safeInteger s ->
  ((s < n)%Z ->
   exists r,
     respond parseDate newBuffer req httpHeaders body = Ok r
     /\ status r = 206%Z
     /\ field "Content-Length" (respHeaders r) = JNum (n - s)
     /\ field "Content-Range" (respHeaders r)
        = JStr ("bytes " ++ d ++ "-" ++ toString (JNum (n - 1)) ++ "/"
                         ++ toString (JNum n)))
  /\ ((n <= s)%Z ->
      respond parseDate newBuffer req httpHeaders body
      = Throw Exc.jsDAV_Exception_RequestedRangeNotSatisfiable).
Proof.
  intros Hr Hi Hd Hne Hs Hc Hn Hb [Hn0 _] [Hs0 _].
  assert (Hg : getHTTPRange req = Some (JStr d, JNull)).
  { rewrite (getHTTPRange_of_digits req d "" Hr Hd eq_refl (or_introl Hne)).
    unfold group. destruct d; [now elim Hne | reflexivity]. }
  destruct (respond_ranged req httpHeaders body _ n Hg Hi Hc Hn) as [h ->].
  unfold ranged. cbn [fst snd truthy].
  assert (Ht : JS.truthy d = true) by (destruct d; [now elim Hne | reflexivity]).
  rewrite Ht. unfold gt. cbn [sub toNumber lt]. rewrite Hs.
  split.
  - intros Hlt.
    destruct (Z.ltb_spec n s) as [|_]; [lia|].
    destruct (Z.ltb_spec (n - 1) s) as [|_]; [lia|].
    destruct (Z.ltb_spec n (n - 1)) as [|_]; [lia|].
    destruct (partial_ok h (JNum n) (JStr d) (JNum (n - 1)) body s (n - 1)
                Hs eq_refl) as (r & E & Hst & Hcl & Hcr); [lia | lia |].
    exists r. split; [exact E|]. split; [exact Hst|].
    rewrite Hcl, Hcr. split; [f_equal; lia | reflexivity].
  - intros Hge.
    destruct (Z.ltb_spec n s); [reflexivity|].
    destruct (Z.ltb_spec (n - 1) s); [reflexivity | lia].
Qed.

(** X8.  An If-Range header on a node without Last-Modified switches the
    range off: the answer is 200 with the whole content. *)
Theorem respond_if_range_without_date (req : Request.t)
    (httpHeaders : list (string * JsVal.t)) (body ifRange : string) :
  header "if-range" req = JStr ifRange -> JS.truthy ifRange = true ->
  truthy (field "Last-Modified" httpHeaders) = false ->
  exists r,
    respond parseDate newBuffer req httpHeaders body = Ok r
    /\ status r = 200%Z /\ respBody r = body.
Proof.
  intros Hi Ht Hl. unfold respond. rewrite Hi. cbn [truthy]. rewrite Ht.
  destruct (getHTTPRange req) as [range|]; [|now eexists].
  set (h1 := if negb (truthy (field "Content-Type" httpHeaders)) then _ else _).
  assert (Hlm : forall h2, (h2 = h1 \/ h2 = delete "Content-Length" h1) ->
                           field "Last-Modified" h2 = field "Last-Modified" httpHeaders).
  { assert (H1 : field "Last-Modified" h1 = field "Last-Modified" httpHeaders).
    { subst h1. destruct (truthy (field "Content-Type" httpHeaders)); cbn [negb];
        [reflexivity | now rewrite field_set_other]. }
    intros h2 [->| ->]; [exact H1|]. now rewrite field_delete_other. }
  destruct (truthy (field "Content-Length" h1)) eqn:Hn.
  - rewrite Hn. cbn [andb]. unfold ignoreRange.
    rewrite (Hlm _ (or_intror eq_refl)), Hl. cbn [negb andb]. now eexists.
  - cbn [truthy andb]. rewrite andb_false_r. now eexists.
Qed.

End OpenRangeFacts.

Lemma respond_suffix_range_witness :
  exists r,
    Get.respond Get.digitsDate Get.zeroBuffer
      {| Request.url := "/f"; Request.headers := [("range", "bytes=" ++ "" ++ "-" ++ "3")] |}
      [("Content-Length", JsVal.JNum 10)] "abcdefghij" = Ok r
    /\ Get.status r = 206%Z
    /\ Get.field "Content-Length" (Get.respHeaders r) = JsVal.JNum (10 - Z.max 0 (10 - 3))
    /\ Get.field "Content-Range" (Get.respHeaders r)
       = JsVal.JStr ("bytes " ++ JsVal.toString (JsVal.JNum (Z.max 0 (10 - 3))) ++ "-"
                              ++ JsVal.toString (JsVal.JNum (10 - 1)) ++ "/"
                              ++ JsVal.toString (JsVal.JNum 10)).
Proof.
  apply (respond_suffix_range Get.digitsDate Get.zeroBuffer
           {| Request.url := "/f";
              Request.headers := [("range", "bytes=" ++ "" ++ "-" ++ "3")] |}
           [("Content-Length", JsVal.JNum 10)] "abcdefghij" "3" 3 10);
    try reflexivity; try discriminate; unfold JsVal.safeInteger; lia.
Defined.

Lemma respond_open_range_witness :
  exists r,
    Get.respond Get.digitsDate Get.zeroBuffer
      {| Request.url := "/f"; Request.headers := [("range", "bytes=" ++ "7" ++ "-" ++ "")] |}
      [("Content-Length", JsVal.JNum 10)] "abcdefghij" = Ok r
    /\ Get.status r = 206%Z
    /\ Get.field "Content-Length" (Get.respHeaders r) = JsVal.JNum (10 - 7)
    /\ Get.field "Content-Range" (Get.respHeaders r)
       = JsVal.JStr ("bytes " ++ "7" ++ "-" ++ JsVal.toString (JsVal.JNum (10 - 1)) ++ "/"
                              ++ JsVal.toString (JsVal.JNum 10)).
Proof.
  apply (respond_open_range Get.digitsDate Get.zeroBuffer
           {| Request.url := "/f";
              Request.headers := [("range", "bytes=" ++ "7" ++ "-" ++ "")] |}
           [("Content-Length", JsVal.JNum 10)] "abcdefghij" "7" 7 10);
    try reflexivity; try discriminate; unfold JsVal.safeInteger; lia.
Defined.

Lemma respond_if_range_without_date_witness :
  exists r,
    Get.respond Get.digitsDate Get.zeroBuffer
      {| Request.url := "/f";
         Request.headers := [("range", "bytes=0-4"); ("if-range", "etag")] |}
      [("Content-Length", JsVal.JNum 10)] "abcdefghij" = Ok r
    /\ Get.status r = 200%Z /\ Get.respBody r = "abcdefghij".
Proof.
  exact (respond_if_range_without_date Get.digitsDate Get.zeroBuffer
           {| Request.url := "/f";
              Request.headers := [("range", "bytes=0-4"); ("if-range", "etag")] |}
           [("Content-Length", JsVal.JNum 10)] "abcdefghij" "etag"
           eq_refl eq_refl eq_refl).
Defined.

(** ** More on [checkPreconditions] *)

Section MorePrecondFacts.

Import JsVal Request Headers Precond.

Variable pathname : string -> option string.
Variable baseUri : string.
Variable getNodeForPath : string -> result Node.t.
Variable parseDate : JsVal.t -> option Z.

(** Inside the If-None-Match block the If-Modified-Since test cannot
    succeed: it asks for the If-None-Match header to be falsy. *)
Lemma afterIfNoneMatch_truthy (req : Request.t) (ifNoneMatch uri : string)
    (node : option Node.t) :
  JS.truthy ifNoneMatch = true ->
  afterIfNoneMatch getNodeForPath parseDate req (JStr ifNoneMatch) uri node
  = afterIfModifiedSince getNodeForPath parseDate req uri node.
Proof. intros H. unfold afterIfNoneMatch. cbn [truthy]. now rewrite H. Qed.

(** X9.  The If-Modified-Since header is never acted upon: adding it to a
    request, with whatever value, leaves the verdict as it was. *)
Theorem checkPreconditions_ignores_ifModifiedSince
    (req : Request.t) (handleAsGET : bool) (value : string) :
  checkPreconditions pathname baseUri getNodeForPath parseDate
    (withHeader "if-modified-since" value req) handleAsGET
  = checkPreconditions pathname baseUri getNodeForPath parseDate req handleAsGET.
Proof.
  assert (Hh : forall name, String.eqb name "if-modified-since" = false ->
                 header name (withHeader "if-modified-since" value req)
                 = header name req).
  { intros name H. unfold header, withHeader. cbn [headers get]. now rewrite H. }
  assert (Hu : forall uri node,
            afterIfModifiedSince getNodeForPath parseDate
              (withHeader "if-modified-since" value req) uri node
            = afterIfModifiedSince getNodeForPath parseDate req uri node).
  { intros uri node. unfold afterIfModifiedSince.
    now rewrite (Hh "if-unmodified-since" eq_refl). }
  assert (Hm : forall uri node,
            afterIfMatch getNodeForPath parseDate
              (withHeader "if-modified-since" value req) handleAsGET uri node
            = afterIfMatch getNodeForPath parseDate req handleAsGET uri node).
  { intros uri node. unfold afterIfMatch. rewrite (Hh "if-none-match" eq_refl).
    destruct (header "if-none-match" req) as [| | | | |inm]; try reflexivity.
    destruct (JS.truthy inm) eqn:Ht; [|reflexivity].
    destruct node as [n|]; [|destruct (getNodeForPath uri) as [n|]]; try reflexivity;
      rewrite !afterIfNoneMatch_truthy by exact Ht; now rewrite Hu. }
  unfold checkPreconditions, getRequestUri. rewrite (Hh "if-match" eq_refl).
  change (url (withHeader "if-modified-since" value req)) with (url req).
  destruct (Uri.calculateUri pathname baseUri (url req)) as [uri|]; [|reflexivity].
  destruct (header "if-match" req); rewrite ?Hm; try reflexivity.
  destruct (JS.truthy s); rewrite ?Hm; [|reflexivity].
  destruct (getNodeForPath uri); [|reflexivity]. now rewrite Hm.
Qed.

(** X10.  A request without an If-None-Match header is judged by its If-Match
    header alone: it passes or fails with 412, it passes when there is no
    If-Match, and an If-Unmodified-Since header makes no difference. *)
Theorem checkPreconditions_without_ifNoneMatch
    (req : Request.t) (handleAsGET : bool) (uri : string) :
  Uri.calculateUri pathname baseUri (url req) = Ok uri ->
  truthy (header "if-none-match" req) = false ->
  (checkPreconditions pathname baseUri getNodeForPath parseDate req handleAsGET = Passed
   \/ checkPreconditions pathname baseUri getNodeForPath parseDate req handleAsGET
      = Failed Exc.jsDAV_Exception_PreconditionFailed)
  /\ (truthy (header "if-match" req) = false ->
      checkPreconditions pathname baseUri getNodeForPath parseDate req handleAsGET = Passed)
  /\ (forall value,
        checkPreconditions pathname baseUri getNodeForPath parseDate
          (withHeader "if-unmodified-since" value req) handleAsGET
        = checkPreconditions pathname baseUri getNodeForPath parseDate req handleAsGET).
Proof.
  intros Hu Hn.
  assert (Ha : forall r node,
            header "if-none-match" r = header "if-none-match" req ->
            afterIfMatch getNodeForPath parseDate r handleAsGET uri node = Passed).
  { intros r node Hr. unfold afterIfMatch. rewrite Hr.
    destruct (header "if-none-match" req) as [| | | | |inm]; try reflexivity.
    cbn [truthy] in Hn. now rewrite Hn. }
  assert (G : forall r,
            url r = url req ->
            header "if-none-match" r = header "if-none-match" req ->
            checkPreconditions pathname baseUri getNodeForPath parseDate r handleAsGET
            = match header "if-match" r with
              | JStr ifMatch =>
                  if JS.truthy ifMatch then
                    match getNodeForPath uri with
                    | Throw _ => Failed Exc.jsDAV_Exception_PreconditionFailed
                    | Ok n =>
                        if negb (String.eqb ifMatch "*")
                           && negb (etagIs (Node.getETag n) (Util.trim ifMatch dquote))
                        then Failed Exc.jsDAV_Exception_PreconditionFailed
                        else Passed
                    end
                  else Passed
              | _ => Passed
              end).
  { intros r Hurl Hr. unfold checkPreconditions, getRequestUri. rewrite Hurl, Hu.
    destruct (header "if-match" r); rewrite ?(Ha r _ Hr); try reflexivity.
    destruct (JS.truthy s); rewrite ?(Ha r _ Hr); [|reflexivity].
    destruct (getNodeForPath uri); [|reflexivity]. now rewrite (Ha r _ Hr). }
  split; [|split].
  - rewrite (G req eq_refl eq_refl).
    destruct (header "if-match" req); auto.
    destruct (JS.truthy s); auto.
    destruct (getNodeForPath uri); auto.
    destruct (_ && _); auto.
  - intros Hm. rewrite (G req eq_refl eq_refl).
    destruct (header "if-match" req) as [| | | | |s]; try reflexivity.
    cbn [truthy] in Hm. now rewrite Hm.
  - intros value. rewrite (G req eq_refl eq_refl).
    rewrite (G (withHeader "if-unmodified-since" value req) eq_refl eq_refl).
    reflexivity.
Qed.

(** A failing If-Match is a 412 whatever else the request carries: the
    node is missing, or the header is not "*" and the ETag of the node is
    not the header without its quotes. *)
Theorem checkPreconditions_ifMatch_fails
    (req : Request.t) (handleAsGET : bool) (uri ifMatch : string) :
  Uri.calculateUri pathname baseUri (url req) = Ok uri ->
  header "if-match" req = JStr ifMatch -> JS.truthy ifMatch = true ->
  ((exists e, getNodeForPath uri = Throw e)
   \/ (exists n, getNodeForPath uri = Ok n /\ ifMatch <> "*"
                 /\ Node.getETag n <> Some (Util.trim ifMatch dquote))) ->
  checkPreconditions pathname baseUri getNodeForPath parseDate req handleAsGET
  = Failed Exc.jsDAV_Exception_PreconditionFailed.
Proof.
  intros Hu Hm Ht H. unfold checkPreconditions, getRequestUri.
  rewrite Hu, Hm, Ht. destruct H as [[e ->] | (n & -> & Hs & He)]; [reflexivity|].
  destruct (String.eqb_spec ifMatch "*"); [contradiction|]. cbn [negb andb].
  unfold etagIs. destruct (Node.getETag n) as [e|]; [|reflexivity].
  destruct (String.eqb_spec e (Util.trim ifMatch dquote)) as [->|]; [now elim He|].
  reflexivity.
Qed.

(** X11.  If-None-Match without If-Match, on a node that exists: the value "*"
    (quoted or not) ends in 304 for a GET and in 412 otherwise; a value
    that is neither "*" nor the ETag of the node ends in no call of the
    callback at all, so the request is never answered. *)
Theorem checkPreconditions_ifNoneMatch_star_or_silent
    (req : Request.t) (handleAsGET : bool) (uri ifNoneMatch : string) (n : Node.t) :
  Uri.calculateUri pathname baseUri (url req) = Ok uri ->
  truthy (header "if-match" req) = false ->
  header "if-none-match" req = JStr ifNoneMatch -> JS.truthy ifNoneMatch = true ->
  getNodeForPath uri = Ok n ->
  (Util.trim ifNoneMatch dquote = "*" ->
   checkPreconditions pathname baseUri getNodeForPath parseDate req handleAsGET
   = if handleAsGET then Redirected 304
     else Failed Exc.jsDAV_Exception_PreconditionFailed)
  /\ (Util.trim ifNoneMatch dquote <> "*" ->
      Node.getETag n <> Some (Util.trim ifNoneMatch dquote) ->
      checkPreconditions pathname baseUri getNodeForPath parseDate req handleAsGET = Silent).
Proof.
  intros Hu Hm Hn Ht Hl.
  assert (E : checkPreconditions pathname baseUri getNodeForPath parseDate req handleAsGET
              = afterIfMatch getNodeForPath parseDate req handleAsGET uri None).
  { unfold checkPreconditions, getRequestUri. rewrite Hu.
    destruct (header "if-match" req) as [| | | | |s]; try reflexivity.
    cbn [truthy] in Hm. now rewrite Hm. }
  rewrite E. unfold afterIfMatch. rewrite Hn, Ht, Hl. split.
  - intros ->. reflexivity.
  - intros Hs He.
    destruct (String.eqb_spec (Util.trim ifNoneMatch dquote) "*"); [contradiction|].
    unfold etagIs, etagTruthy. destruct (Node.getETag n) as [e|]; [|reflexivity].
    destruct (String.eqb_spec e (Util.trim ifNoneMatch dquote)) as [->|]; [now elim He|].
    now rewrite andb_false_r.
Qed.

(** X12.  The only redirect is the 304 of a GET with an If-None-Match header. *)
Theorem checkPreconditions_redirect_only_get
    (req : Request.t) (handleAsGET : bool) (status : Z) :
  checkPreconditions pathname baseUri getNodeForPath parseDate req handleAsGET
  = Redirected status ->
  handleAsGET = true /\ status = 304%Z
  /\ truthy (header "if-none-match" req) = true.
Proof.
  assert (Hu : forall uri node,
            afterIfModifiedSince getNodeForPath parseDate req uri node
            <> Redirected status).
  { intros uri node. unfold afterIfModifiedSince.
    destruct (truthy (header "if-unmodified-since" req)); [|discriminate].
    destruct node as [n|].
    - destruct (_ && _); discriminate.
    - destruct (getNodeForPath uri); [|discriminate].
      destruct (_ && _); discriminate. }
  assert (Ha : forall uri node,
            afterIfMatch getNodeForPath parseDate req handleAsGET uri node
            = Redirected status ->
            handleAsGET = true /\ status = 304%Z
            /\ truthy (header "if-none-match" req) = true).
  { intros uri node. unfold afterIfMatch.
    destruct (header "if-none-match" req) as [| | | | |inm]; try discriminate.
    destruct (JS.truthy inm) eqn:Ht; [|discriminate].
    destruct node as [n|];
      [rewrite afterIfNoneMatch_truthy by exact Ht; intros H; now elim (Hu _ _ H)|].
    destruct (getNodeForPath uri) as [n|];
      [|rewrite afterIfNoneMatch_truthy by exact Ht; intros H; now elim (Hu _ _ H)].
    destruct (_ || _); [|discriminate].
    destruct handleAsGET; [|discriminate].
    intros [= <-]. now repeat split. }
  unfold checkPreconditions, getRequestUri.
  destruct (Uri.calculateUri pathname baseUri (url req)) as [uri|]; [|discriminate].
  destruct (header "if-match" req); try apply Ha.
  destruct (JS.truthy s); [|apply Ha].
  destruct (getNodeForPath uri); [|discriminate].
  destruct (_ && _); [discriminate | apply Ha].
Qed.

End MorePrecondFacts.

Lemma checkPreconditions_without_ifNoneMatch_witness :
  let req := {| Request.url := "/f";
                Request.headers := [("if-unmodified-since", "5")] |} in
  Precond.checkPreconditions Sample.noPathname "/" (Sample.oneFile "abc") Get.digitsDate req false
  = Precond.Passed.
Proof.
  intros req.
  exact (proj1 (proj2 (checkPreconditions_without_ifNoneMatch Sample.noPathname "/" (Sample.oneFile "abc")
                         Get.digitsDate req false "f" eq_refl eq_refl)) eq_refl).
Defined.

Lemma checkPreconditions_ifMatch_fails_witness :
  Precond.checkPreconditions Sample.noPathname "/" (Sample.oneFile "abc") Get.digitsDate
    {| Request.url := "/f"; Request.headers := [("if-match", "xyz")] |} true
  = Precond.Failed Exc.jsDAV_Exception_PreconditionFailed.
Proof.
  apply (checkPreconditions_ifMatch_fails Sample.noPathname "/" (Sample.oneFile "abc") Get.digitsDate
           {| Request.url := "/f"; Request.headers := [("if-match", "xyz")] |}
           true "f" "xyz" eq_refl eq_refl eq_refl).
  right. exists (Sample.fileWithETag "f" "abc").
  split; [reflexivity|]. split; discriminate.
Defined.

Lemma checkPreconditions_ifNoneMatch_star_or_silent_witness :
  Precond.checkPreconditions Sample.noPathname "/" (Sample.oneFile "abc") Get.digitsDate
    {| Request.url := "/f"; Request.headers := [("if-none-match", "xyz")] |} true
  = Precond.Silent.
Proof.
  apply (proj2 (checkPreconditions_ifNoneMatch_star_or_silent Sample.noPathname "/" (Sample.oneFile "abc")
                  Get.digitsDate
                  {| Request.url := "/f"; Request.headers := [("if-none-match", "xyz")] |}
                  true "f" "xyz" (Sample.fileWithETag "f" "abc")
                  eq_refl eq_refl eq_refl eq_refl eq_refl)); discriminate.
Defined.

Lemma checkPreconditions_redirect_only_get_witness :
  true = true /\ 304%Z = 304%Z
  /\ JsVal.truthy (Request.header "if-none-match"
       {| Request.url := "/f"; Request.headers := [("if-none-match", "*")] |}) = true.
Proof.
  exact (checkPreconditions_redirect_only_get Sample.noPathname "/" (Sample.oneFile "abc") Get.digitsDate
           {| Request.url := "/f"; Request.headers := [("if-none-match", "*")] |}
           true 304 eq_refl).
Defined.

(** ** More on [updateProperties] *)

Section MoreUpdateFacts.

Import JsVal Request Update.

Variable Store : Type.
Variable node_updateProperties :
  Node.t -> list (string * Node.PropValue) -> Store -> NodeUpdate * Store.
Variable getNodeForPath : string -> result Node.t.

Lemma strip_nonempty (result : list (string * JsArray)) :
  Forall (fun e => length (snd e) <> 0%N) (strip result).
Proof.
  unfold strip. induction result as [|e l IH]; cbn; [constructor|].
  destruct (N.eqb_spec (length (snd e)) 0); cbn [negb]; [exact IH|].
  now constructor.
Qed.

(** X13.  Whatever [updateProperties] returns carries the uri it was called
    with as [href] and no bucket of length 0. *)
Theorem updateProperties_result_shape (uri : string)
    (properties : list (string * Node.PropValue)) (store : Store) (r : Result) :
  fst (updateProperties Store node_updateProperties getNodeForPath uri properties store)
  = Ok r ->
  href r = uri /\ Forall (fun e => length (snd e) <> 0%N) (statuses r).
Proof.
  unfold updateProperties.
  destruct (getNodeForPath uri) as [node|]; [|discriminate].
  destruct (negb (Node.IPROPERTIES node)).
  { intros [= <-]. split; [reflexivity | apply strip_nonempty]. }
  destruct (existsb isProtected (names properties)).
  { intros [= <-]. split; [reflexivity | apply strip_nonempty]. }
  destruct (node_updateProperties node properties store) as [[| | |o|] store'];
    cbn [fst]; try discriminate;
    intros [= <-]; (split; [reflexivity | apply strip_nonempty]).
Qed.

(** The node is asked to update at most once, with the whole property
    list, and only when it implements [IProperties] and no name is
    protected; in every other case the store is left as it was. *)
Theorem updateProperties_store (uri : string)
    (properties : list (string * Node.PropValue)) (store : Store) :
  snd (updateProperties Store node_updateProperties getNodeForPath uri properties store)
  = match getNodeForPath uri with
    | Ok node =>
        if Node.IPROPERTIES node && negb (existsb isProtected (names properties))
        then snd (node_updateProperties node properties store)
        else store
    | Throw _ => store
    end.
Proof.
  unfold updateProperties.
  destruct (getNodeForPath uri) as [node|]; [|reflexivity].
  destruct (Node.IPROPERTIES node); cbn [negb andb]; [|reflexivity].
  destruct (existsb isProtected (names properties)); cbn [negb]; [reflexivity|].
  destruct (node_updateProperties node properties store) as [[| | |o|] store'];
    reflexivity.
Qed.

(** X14.  How the answer of the node is passed on, for a node with
    [IProperties] and unprotected names: [false] ends in a ReferenceError
    (the loop meant to report 403 is spelled [foreach]); an object is
    returned as it is, in its order, without its buckets of length 0 and
    with [href] added. *)
Theorem updateProperties_node_answer (uri : string)
    (properties : list (string * Node.PropValue)) (store : Store) (node : Node.t) :
  getNodeForPath uri = Ok node ->
  Node.IPROPERTIES node = true ->
  existsb isProtected (names properties) = false ->
  (fst (node_updateProperties node properties store) = UFalse ->
   fst (updateProperties Store node_updateProperties getNodeForPath uri properties store)
   = Throw Exc.ReferenceError)
  /\ (forall o,
        fst (node_updateProperties node properties store) = UObject o ->
        fst (updateProperties Store node_updateProperties getNodeForPath uri
               properties store)
        = Ok {| statuses := filter (fun e => negb (N.eqb (length (snd e)) 0)) o;
                href := uri |}).
Proof.
  intros Hl Hi Hp. unfold updateProperties. rewrite Hl, Hi, Hp. cbn [negb].
  destruct (node_updateProperties node properties store) as [u store'].
  cbn [fst]. split; [now intros ->|]. now intros o ->.
Qed.

End MoreUpdateFacts.

Lemma updateProperties_result_shape_witness :
  Update.href {| Update.statuses := [("200", {| Update.length := 8; Update.keys := ["7"] |})];
                 Update.href := "f" |} = "f"
  /\ Forall (fun e => Update.length (snd e) <> 0%N)
       [("200", {| Update.length := 8; Update.keys := ["7"] |})].
Proof.
  exact (updateProperties_result_shape _ Sample.recordingUpdate Sample.propsTree "f"
           [("7", Node.Plain (JsVal.JStr "y"))] []
           {| Update.statuses := [("200", {| Update.length := 8; Update.keys := ["7"] |})];
              Update.href := "f" |} eq_refl).
Defined.


Lemma updateProperties_node_answer_witness :
  fst (Update.updateProperties _ Sample.refusingUpdate Sample.propsTree "f"
         [("{DAV:}displayname", Node.Plain (JsVal.JStr "y"))] 0)
  = Throw Exc.ReferenceError
  /\ fst (Update.updateProperties _ Sample.detailedUpdate Sample.propsTree "f"
         [("{DAV:}displayname", Node.Plain (JsVal.JStr "y"))] 0)
     = Ok {| Update.statuses := [("200", {| Update.length := 1; Update.keys := ["0"] |})];
             Update.href := "f" |}.
Proof.
  split.
  - exact (proj1 (updateProperties_node_answer _ Sample.refusingUpdate Sample.propsTree
                    "f" [("{DAV:}displayname", Node.Plain (JsVal.JStr "y"))] 0
                    Sample.propsNode eq_refl eq_refl eq_refl) eq_refl).
  - exact (proj2 (updateProperties_node_answer _ Sample.detailedUpdate Sample.propsTree
                    "f" [("{DAV:}displayname", Node.Plain (JsVal.JStr "y"))] 0
                    Sample.propsNode eq_refl eq_refl eq_refl) _ eq_refl).
Defined.

(** ** MOVE, COPY, DELETE, PUT and OPTIONS *)

Section HandlerFacts.

Import JsVal Request Headers CopyMove Handlers.

Variable Tree : Type.
Variable getNodeForPath : Tree -> string -> result Node.t.
Variable delete : Tree -> Node.t -> option Exc.t * Tree.
Variable move : Tree -> string -> string -> option Exc.t * Tree.
Variable copy : Tree -> string -> string -> option Exc.t * Tree.
Variable put : Tree -> Node.t -> string -> option Exc.t * Tree.
Variable node_createFile : Tree -> Node.t -> string -> string -> option Exc.t * Tree.
Variable pathname : string -> option string.
Variable baseUri : string.
Variable parseDate : JsVal.t -> option Z.

(** What [getCopyAndMoveInfo] returns for a request that passes all its
    tests. *)
Lemma getCopyAndMoveInfo_ok (tree : Tree) (req : Request.t)
    (src dest dst : string) (overwrite : bool) (parent : Node.t) :
  Uri.calculateUri pathname baseUri (url req) = Ok src ->
  header "destination" req = JStr dest -> JS.truthy dest = true ->
  Uri.calculateUri pathname baseUri dest = Ok dst ->
  overwriteFlag (header "overwrite" req) = Some overwrite ->
  getNodeForPath tree (fst (splitPath dst)) = Ok parent ->
  Node.ICOLLECTION parent = true ->
  (getNodeForPath tree dst = Throw Exc.jsDAV_Exception_FileNotFound ->
   getCopyAndMoveInfo Tree getNodeForPath pathname baseUri tree req
   = Ok {| source := src; destination := dst;
           destinationExists := false; destinationNode := None |})
  /\ (forall node,
        getNodeForPath tree dst = Ok node -> overwrite = true ->
        getCopyAndMoveInfo Tree getNodeForPath pathname baseUri tree req
        = Ok {| source := src; destination := dst;
                destinationExists := true; destinationNode := Some node |}).
Proof.
  intros Hs Hd Ht Hc Ho Hp Hcoll. unfold getCopyAndMoveInfo.
  rewrite Hs, Hd, Ht, Hc, Ho, Hp, Hcoll. cbn [negb]. split.
  - now intros ->.
  - now intros node -> ->.
Qed.

(** X15.  A MOVE that passes the tests of [getCopyAndMoveInfo].  To a free
    destination it is [tree.move], answered with 201 or with the error the
    move reports.  To a destination that exists the node there is deleted
    first: an error of the deletion is reported and nothing is moved;
    otherwise the move follows, answered with 204 or with its error.  In
    every case the tree is the one the last operation left behind, also
    where that operation reported an error. *)
Theorem httpMove_moves (tree : Tree) (req : Request.t)
    (src dest dst : string) (overwrite : bool) (parent : Node.t) :
  Uri.calculateUri pathname baseUri (url req) = Ok src ->
  header "destination" req = JStr dest -> JS.truthy dest = true ->
  Uri.calculateUri pathname baseUri dest = Ok dst ->
  overwriteFlag (header "overwrite" req) = Some overwrite ->
  getNodeForPath tree (fst (splitPath dst)) = Ok parent ->
  Node.ICOLLECTION parent = true ->
  (getNodeForPath tree dst = Throw Exc.jsDAV_Exception_FileNotFound ->
   httpMove Tree getNodeForPath delete move pathname baseUri tree req
   = (match fst (move tree src dst) with
      | None => Status 201
      | Some err => Error err
      end, snd (move tree src dst)))
  /\ (forall node,
        getNodeForPath tree dst = Ok node -> overwrite = true ->
        httpMove Tree getNodeForPath delete move pathname baseUri tree req
        = match fst (delete tree node) with
          | Some err => (Error err, snd (delete tree node))
          | None =>
              (match fst (move (snd (delete tree node)) src dst) with
               | None => Status 204
               | Some err => Error err
               end, snd (move (snd (delete tree node)) src dst))
          end).
Proof.
  intros Hs Hd Ht Hc Ho Hp Hcoll.
  destruct (getCopyAndMoveInfo_ok tree req src dest dst overwrite parent
              Hs Hd Ht Hc Ho Hp Hcoll) as [H1 H2].
  split.
  - intros Hn. unfold httpMove. rewrite (H1 Hn).
    cbn [destinationExists destinationNode source destination].
    now destruct (move tree src dst) as [[err|] tree'].
  - intros node Hn Hw. unfold httpMove. rewrite (H2 node Hn Hw).
    cbn [destinationExists destinationNode source destination].
    destruct (delete tree node) as [[err|] tree1]; [reflexivity|]. cbn [fst snd].
    now destruct (move tree1 src dst) as [[err|] tree2].
Qed.

(** X16.  COPY goes the same way with [tree.copy]: 201 to a free destination,
    and to one that exists 204 after the node there has been deleted,
    unless the Overwrite header is F: then the answer is 412 and nothing
    is touched.  An error of the deletion or of the copy is reported, and
    the tree is the one the failing operation left behind. *)
Theorem httpCopy_copies (tree : Tree) (req : Request.t)
    (src dest dst : string) (overwrite : bool) (parent : Node.t) :
  Uri.calculateUri pathname baseUri (url req) = Ok src ->
  header "destination" req = JStr dest -> JS.truthy dest = true ->
  Uri.calculateUri pathname baseUri dest = Ok dst ->
  overwriteFlag (header "overwrite" req) = Some overwrite ->
  getNodeForPath tree (fst (splitPath dst)) = Ok parent ->
  Node.ICOLLECTION parent = true ->
  (getNodeForPath tree dst = Throw Exc.jsDAV_Exception_FileNotFound ->
   httpCopy Tree getNodeForPath delete copy pathname baseUri tree req
   = (match fst (copy tree src dst) with
      | None => Status 201
      | Some err => Error err
      end, snd (copy tree src dst)))
  /\ (forall node,
        getNodeForPath tree dst = Ok node -> overwrite = true ->
        httpCopy Tree getNodeForPath delete copy pathname baseUri tree req
        = match fst (delete tree node) with
          | Some err => (Error err, snd (delete tree node))
          | None =>
              (match fst (copy (snd (delete tree node)) src dst) with
               | None => Status 204
               | Some err => Error err
               end, snd (copy (snd (delete tree node)) src dst))
          end)
  /\ (forall node,
        getNodeForPath tree dst = Ok node -> overwrite = false ->
        httpCopy Tree getNodeForPath delete copy pathname baseUri tree req
        = (Error Exc.jsDAV_Exception_PreconditionFailed, tree)).
Proof.
  intros Hs Hd Ht Hc Ho Hp Hcoll.
  destruct (getCopyAndMoveInfo_ok tree req src dest dst overwrite parent
              Hs Hd Ht Hc Ho Hp Hcoll) as [H1 H2].
  split; [|split].
  - intros Hn. unfold httpCopy. rewrite (H1 Hn).
    cbn [destinationExists destinationNode source destination].
    now destruct (copy tree src dst) as [[err|] tree'].
  - intros node Hn Hw. unfold httpCopy. rewrite (H2 node Hn Hw).
    cbn [destinationExists destinationNode source destination].
    destruct (delete tree node) as [[err|] tree1]; [reflexivity|]. cbn [fst snd].
    now destruct (copy tree1 src dst) as [[err|] tree2].
  - intros node Hn Hw. unfold httpCopy, getCopyAndMoveInfo.
    now rewrite Hs, Hd, Ht, Hc, Ho, Hp, Hcoll, Hn, Hw.
Qed.


(** DELETE removes the node under the request uri and answers 204; when
    the uri is outside the base uri or the node is not found, the error is
    reported and the tree is as before; when the removal fails, the error
    is reported and the tree is as the removal left it. *)
Theorem httpDelete_outcomes (tree : Tree) (req : Request.t) :
  match Uri.calculateUri pathname baseUri (url req) with
  | Throw ex =>
      httpDelete Tree getNodeForPath delete pathname baseUri tree req = (Error ex, tree)
  | Ok uri =>
      match getNodeForPath tree uri with
      | Throw err =>
          httpDelete Tree getNodeForPath delete pathname baseUri tree req
          = (Error err, tree)
      | Ok node =>
          httpDelete Tree getNodeForPath delete pathname baseUri tree req
          = (match fst (delete tree node) with
             | None => Status 204
             | Some err => Error err
             end, snd (delete tree node))
      end
  end.
Proof.
  unfold httpDelete.
  destruct (Uri.calculateUri pathname baseUri (url req)) as [uri|]; [|reflexivity].
  destruct (getNodeForPath tree uri) as [node|]; [|reflexivity].
  now destruct (delete tree node) as [[err|] tree'].
Qed.

(** A request with neither If-Match nor If-None-Match passes the
    preconditions. *)
Lemma checkPreconditions_plain (lookup : string -> result Node.t) (req : Request.t)
    (handleAsGET : bool) (uri : string) :
  Uri.calculateUri pathname baseUri (url req) = Ok uri ->
  truthy (header "if-match" req) = false ->
  truthy (header "if-none-match" req) = false ->
  Precond.checkPreconditions pathname baseUri lookup parseDate req handleAsGET
  = Precond.Passed.
Proof.
  intros Hu Hm Hn. unfold Precond.checkPreconditions, Precond.getRequestUri.
  rewrite Hu.
  assert (Ha : Precond.afterIfMatch lookup parseDate req handleAsGET uri None
               = Precond.Passed).
  { unfold Precond.afterIfMatch.
    destruct (header "if-none-match" req) as [| | | | |s]; try reflexivity.
    cbn [truthy] in Hn. now rewrite Hn. }
  destruct (header "if-match" req) as [| | | | |s]; try exact Ha.
  cbn [truthy] in Hm. now rewrite Hm.
Qed.

(** X18.  PUT to a uri the tree does not know.  When the parent of the uri is
    not found, the answer is 201 all the same and no file is made.  When
    the parent is a collection, the answer is 201 whatever
    [parent.createFile] reports, and the tree is the one it left behind.
    When the parent is found and is no collection, it has no method
    [createFile]: the call is a TypeError inside the callback of the tree,
    and the handler sends no answer. *)
Theorem httpPut_new_resource (tree : Tree) (req : Request.t) (body uri : string) :
  Uri.calculateUri pathname baseUri (url req) = Ok uri ->
  getNodeForPath tree uri = Throw Exc.jsDAV_Exception_FileNotFound ->
  httpPut Tree getNodeForPath put node_createFile pathname baseUri parseDate
    tree req body
  = match getNodeForPath tree (fst (splitPath uri)) with
    | Throw _ => (Answered (Status 201), tree)
    | Ok parent =>
        if Node.ICOLLECTION parent then
          (Answered (Status 201),
           snd (node_createFile tree parent (snd (splitPath uri)) body))
        else (Uncaught Exc.TypeError, tree)
    end.
Proof.
  intros Hu Hn. unfold httpPut. rewrite Hu, Hn. cbn [isFileNotFound].
  unfold createFile.
  destruct (getNodeForPath tree (fst (splitPath uri))) as [parent|]; [|reflexivity].
  destruct (Node.ICOLLECTION parent); cbn [negb]; [|reflexivity].
  now destruct (node_createFile tree parent (snd (splitPath uri)) body).
Qed.

(** X19.  PUT to a uri the tree knows, without If-Match and If-None-Match: a
    node that is no file is refused with 409 and nothing changes; a file
    is written with [node.put] and answered with 200, or with the error
    the write reports, and the tree is the one the write left behind. *)
Theorem httpPut_existing (tree : Tree) (req : Request.t) (body uri : string)
    (node : Node.t) :
  Uri.calculateUri pathname baseUri (url req) = Ok uri ->
  getNodeForPath tree uri = Ok node ->
  truthy (header "if-match" req) = false ->
  truthy (header "if-none-match" req) = false ->
  httpPut Tree getNodeForPath put node_createFile pathname baseUri parseDate
    tree req body
  = if Node.IFILE node then
      (Answered (match fst (put tree node body) with
                 | None => Status 200
                 | Some err => Error err
                 end), snd (put tree node body))
    else (Answered (Error Exc.jsDAV_Exception_Conflict), tree).
Proof.
  intros Hu Hl Hm Hn. unfold httpPut. rewrite Hu, Hl.
  rewrite (checkPreconditions_plain (getNodeForPath tree) req false uri Hu Hm Hn).
  destruct (Node.IFILE node); cbn [negb]; [|reflexivity].
  now destruct (put tree node body) as [[err|] tree'].
Qed.

(** X20.  OPTIONS on a uri under the base uri is answered with 200, the DAV
    header "1,3,extended-mkcol", and an Allow header that lists the ten
    methods of every uri, followed by MKCOL exactly when the tree has no
    node under the uri. *)
Theorem httpOptions_allow (tree : Tree) (req : Request.t) (uri : string) :
  Uri.calculateUri pathname baseUri (url req) = Ok uri ->
  exists r,
    httpOptions Tree getNodeForPath pathname baseUri tree req = Ok r
    /\ Get.status r = 200%Z
    /\ Get.field "DAV" (Get.respHeaders r) = JStr "1,3,extended-mkcol"
    /\ Get.field "Allow" (Get.respHeaders r)
       = JStr ("OPTIONS,GET,HEAD,DELETE,PROPFIND,PUT,PROPPATCH,COPY,MOVE,REPORT"
               ++ match getNodeForPath tree uri with
                  | Throw _ => ",MKCOL"
                  | Ok _ => ""
                  end).
Proof.
  intros Hu. unfold httpOptions. rewrite Hu. eexists. split; [reflexivity|].
  split; [reflexivity|]. split; [reflexivity|].
  unfold getAllowedMethods. destruct (getNodeForPath tree uri); reflexivity.
Qed.

End HandlerFacts.


(** [MOVE /a] to the free "/c" with a backend that removes the source and
    then reports an error: the error is what the client is sent, and "a"
    is gone. *)
Lemma httpMove_moves_witness :
  let req := {| Request.url := "/a"; Request.headers := [("destination", "/c")] |} in
  CopyMove.httpMove Sample.ListTree Sample.listLookup Sample.listDelete
    Sample.brokenMove Sample.noPathname "/" Sample.abTree req
  = (CopyMove.Error Exc.jsDAV_Exception, Request.delete "a" Sample.abTree).
Proof.
  intros req.
  exact (proj1 (httpMove_moves Sample.ListTree Sample.listLookup Sample.listDelete
                  Sample.brokenMove Sample.noPathname "/" Sample.abTree req
                  "a" "/c" "c" true
                  (Sample.collectionAt "") eq_refl eq_refl eq_refl eq_refl eq_refl
                  eq_refl eq_refl) eq_refl).
Defined.

(** [COPY /a] over the existing "/b" in the sample tree: "b" is deleted,
    "a" copied in its place, and the answer is 204. *)
Lemma httpCopy_copies_witness :
  let req := {| Request.url := "/a"; Request.headers := [("destination", "/b")] |} in
  Handlers.httpCopy Sample.ListTree Sample.listLookup Sample.listDelete
    Sample.listCopy Sample.noPathname "/" Sample.abTree req
  = (CopyMove.Status 204,
     Request.set "b" (Sample.fileWithETag "a" "1") (Request.delete "b" Sample.abTree)).
Proof.
  intros req.
  exact (proj1 (proj2 (httpCopy_copies Sample.ListTree Sample.listLookup
                         Sample.listDelete Sample.listCopy Sample.noPathname "/"
                         Sample.abTree req
                         "a" "/b" "b" true (Sample.collectionAt "")
                         eq_refl eq_refl eq_refl eq_refl eq_refl eq_refl eq_refl))
           (Sample.fileWithETag "b" "2") eq_refl eq_refl).
Defined.


(** [PUT /a/new] below the file "a": the TypeError, and no answer. *)
Lemma httpPut_new_resource_witness :
  let req := {| Request.url := "/a/new"; Request.headers := [] |} in
  Handlers.httpPut Sample.ListTree Sample.listLookup Sample.listPut
    Sample.listCreateFile Sample.noPathname "/" Get.digitsDate Sample.abTree req "hi"
  = (Handlers.Uncaught Exc.TypeError, Sample.abTree).
Proof.
  intros req.
  exact (httpPut_new_resource Sample.ListTree Sample.listLookup Sample.listPut
           Sample.listCreateFile Sample.noPathname "/" Get.digitsDate Sample.abTree
           req "hi" "a/new" eq_refl eq_refl).
Defined.

(** [PUT /] on the root collection of the sample tree: 409. *)
Lemma httpPut_existing_witness :
  let req := {| Request.url := "/"; Request.headers := [] |} in
  Handlers.httpPut Sample.ListTree Sample.listLookup Sample.listPut
    Sample.listCreateFile Sample.noPathname "/" Get.digitsDate Sample.abTree req "hi"
  = (Handlers.Answered (CopyMove.Error Exc.jsDAV_Exception_Conflict), Sample.abTree).
Proof.
  intros req.
  exact (httpPut_existing Sample.ListTree Sample.listLookup Sample.listPut
           Sample.listCreateFile Sample.noPathname "/" Get.digitsDate Sample.abTree
           req "hi" "" (Sample.collectionAt "") eq_refl eq_refl eq_refl eq_refl).
Defined.

(** [OPTIONS /new] on the sample tree, which has no node "new". *)
Lemma httpOptions_allow_witness :
  exists r,
    Handlers.httpOptions Sample.ListTree Sample.listLookup Sample.noPathname "/"
      Sample.abTree {| Request.url := "/new"; Request.headers := [] |} = Ok r
    /\ Get.status r = 200%Z
    /\ Get.field "DAV" (Get.respHeaders r) = JsVal.JStr "1,3,extended-mkcol"
    /\ Get.field "Allow" (Get.respHeaders r)
       = JsVal.JStr ("OPTIONS,GET,HEAD,DELETE,PROPFIND,PUT,PROPPATCH,COPY,MOVE,REPORT"
                     ++ ",MKCOL").
Proof.
  exact (httpOptions_allow Sample.ListTree Sample.listLookup Sample.noPathname "/"
           Sample.abTree
           {| Request.url := "/new"; Request.headers := [] |} "new" eq_refl).
Defined.

(** ** [getHTTPHeaders], [httpHead] and [httpGet] *)

Section ServeFacts.

Import JsVal Node Request Headers Get Serve.

Variable getNodeForPath : string -> result Node.t.
Variable getChildren : Node.t -> result (list Node.t).
Variable dateFormat : JsVal.t -> string.
Variable pathname : string -> option string.
Variable baseUri : string.
Variable parseDate : JsVal.t -> option Z.
Variable newBuffer : nat -> string.

Lemma getHTTPHeaders_plain_node (uri : string) (node : Node.t) :
  getNodeForPath uri = Ok node ->
  IPROPERTIES node = false ->
  exists h,
    getHTTPHeaders getNodeForPath getChildren dateFormat uri = Ok h
    /\ plainHeaders h = Some (nodeHeaders dateFormat node).
Proof.
  intros Hn Hp.
  unfold getHTTPHeaders, getProperties, Propfind.getPropertiesForPath. rewrite Hn.
  destruct node as [path ifile icoll iprops iquota etag lastmod size ct quota gp g].
  cbn in Hp. subst iprops. clear Hn.
  destruct ifile, ct as [[|c ct]|], etag as [[|e etag]|], size as [|p|p];
    eexists; split; vm_compute; reflexivity.
Qed.

(** X21.  The headers of a node that supplies no properties itself: a file has
    a Content-Type when its content type is a non-empty string, a
    Content-Length when its size is not 0 and an ETag when its ETag is a
    non-empty string; every node has a Last-Modified, the formatted time
    of its last change; a node that is no file has nothing else. *)
Theorem getHTTPHeaders_of_node (uri : string) (node : Node.t) :
  getNodeForPath uri = Ok node ->
  IPROPERTIES node = false ->
  exists h,
    getHTTPHeaders getNodeForPath getChildren dateFormat uri = Ok h
    /\ plainHeaders h = Some (nodeHeaders dateFormat node).
Proof. exact (getHTTPHeaders_plain_node uri node). Qed.

(** X22.  HEAD never sends a header: whatever it answers is a bare 200, and
    that is what it answers for every node that supplies no properties
    itself, the headers computed for a file being left behind. *)
Theorem httpHead_sends_no_headers (req : Request.t) :
  (forall r, httpHead getNodeForPath getChildren dateFormat pathname baseUri req = Ok r ->
             r = {| status := 200; respHeaders := []; respBody := "" |})
  /\ (forall uri node,
        Uri.calculateUri pathname baseUri (url req) = Ok uri ->
        getNodeForPath uri = Ok node ->
        IPROPERTIES node = false ->
        httpHead getNodeForPath getChildren dateFormat pathname baseUri req
        = Ok {| status := 200; respHeaders := []; respBody := "" |}).
Proof.
  split.
  - intros r. unfold httpHead.
    destruct (Uri.calculateUri pathname baseUri (url req)) as [uri|]; [|discriminate].
    destruct (getNodeForPath uri) as [node|]; [|discriminate].
    destruct (IFILE node).
    + destruct (getHTTPHeaders _ _ _ uri); [|discriminate]. now intros [= <-].
    + now intros [= <-].
  - intros uri node Hu Hn Hp. unfold httpHead. rewrite Hu, Hn.
    destruct (getHTTPHeaders_plain_node uri node Hn Hp) as (h & -> & _).
    now destruct (IFILE node).
Qed.

(** X23.  GET on a node that is no file (a collection) is refused with 501 Not
    Implemented. *)
Theorem httpGet_not_a_file (req : Request.t) (uri : string) (node : Node.t) :
  Uri.calculateUri pathname baseUri (url req) = Ok uri ->
  truthy (header "if-match" req) = false ->
  truthy (header "if-none-match" req) = false ->
  getNodeForPath uri = Ok node ->
  IFILE node = false ->
  httpGet getNodeForPath getChildren dateFormat pathname baseUri parseDate newBuffer req
  = Failed Exc.jsDAV_Exception_NotImplemented
  /\ Exc.code Exc.jsDAV_Exception_NotImplemented = 501%Z.
Proof.
  intros Hu Hm Hi Hn Hf. split; [|reflexivity]. unfold httpGet.
  rewrite Hu, (checkPreconditions_plain pathname baseUri parseDate getNodeForPath req true uri
                 Hu Hm Hi), Hn, Hf.
  reflexivity.
Qed.

Lemma respond_whole (req : Request.t) (httpHeaders : list (string * JsVal.t))
    (body : string) :
  getHTTPRange req = None ->
  exists r,
    respond parseDate newBuffer req httpHeaders body = Ok r
    /\ status r = 200%Z /\ respBody r = body
    /\ field "Content-Type" (respHeaders r)
       = (if truthy (field "Content-Type" httpHeaders)
          then field "Content-Type" httpHeaders
          else JStr "application/octet-stream")
    /\ forall k, k <> "Content-Type" ->
                 field k (respHeaders r) = field k httpHeaders.
Proof.
  intros Hr. unfold respond. rewrite Hr. eexists. split; [reflexivity|].
  cbn [status respBody respHeaders]. split; [reflexivity|]. split; [reflexivity|].
  set (h1 := if negb (truthy (field "Content-Type" httpHeaders)) then _ else _).
  assert (Hk : forall k, k <> "Content-Type" -> field k h1 = field k httpHeaders).
  { intros k Hne. subst h1. destruct (truthy (field "Content-Type" httpHeaders));
      cbn [negb]; [reflexivity | now apply field_set_other]. }
  assert (Hct : field "Content-Type" h1
                = if truthy (field "Content-Type" httpHeaders)
                  then field "Content-Type" httpHeaders
                  else JStr "application/octet-stream").
  { subst h1. destruct (truthy (field "Content-Type" httpHeaders)); cbn [negb];
      [reflexivity | apply field_set_same]. }
  destruct (truthy (field "Content-Length" h1)) eqn:Ht.
  - cbv iota. rewrite Ht. split.
    + rewrite field_set_other, field_delete_other by discriminate. exact Hct.
    + intros k Hne. destruct (String.eqb_spec k "Content-Length") as [->|Hn].
      * rewrite field_set_same. now apply Hk.
      * rewrite field_set_other, field_delete_other by congruence. now apply Hk.
  - cbn [truthy]. split; [exact Hct | exact Hk].
Qed.

(** X24.  GET on a file that supplies no properties itself, without conditions
    and without a Range header the server understands.  When [node.get]
    reports an error, that error is the answer.  When it hands over the
    content: 200 with that content; the Content-Type is the one of the
    file, or application/octet-stream when it has none; there is a
    Content-Length unless the size is 0, and an ETag unless the file has
    none. *)
Theorem httpGet_file (req : Request.t) (uri : string) (node : Node.t) :
  Uri.calculateUri pathname baseUri (url req) = Ok uri ->
  truthy (header "if-match" req) = false ->
  truthy (header "if-none-match" req) = false ->
  getHTTPRange req = None ->
  getNodeForPath uri = Ok node ->
  IFILE node = true ->
  IPROPERTIES node = false ->
  (forall err,
     Node.get node = Throw err ->
     httpGet getNodeForPath getChildren dateFormat pathname baseUri parseDate
       newBuffer req
     = Failed err)
  /\ (forall body,
        Node.get node = Ok body ->
        exists r,
          httpGet getNodeForPath getChildren dateFormat pathname baseUri parseDate
            newBuffer req
          = Sent r
          /\ status r = 200%Z
          /\ respBody r = body
          /\ field "Content-Type" (respHeaders r)
             = JStr (match getContentType node with
                     | Some ct =>
                         if JS.truthy ct then ct else "application/octet-stream"
                     | None => "application/octet-stream"
                     end)
          /\ field "Content-Length" (respHeaders r)
             = (if Z.eqb (getSize node) 0 then JUndefined else JNum (getSize node))
          /\ field "Last-Modified" (respHeaders r)
             = JStr (dateFormat (getLastModified node))
          /\ field "ETag" (respHeaders r)
             = match getETag node with
               | Some etag => if JS.truthy etag then JStr etag else JUndefined
               | None => JUndefined
               end).
Proof.
  intros Hu Hm Hi Hr Hn Hf Hp. unfold httpGet.
  rewrite Hu, (checkPreconditions_plain pathname baseUri parseDate getNodeForPath
                 req true uri Hu Hm Hi), Hn, Hf.
  cbn [negb]. split.
  - now intros err ->.
  - intros body ->.
    destruct (getHTTPHeaders_plain_node uri node Hn Hp) as (h & -> & ->).
    destruct (respond_whole req (nodeHeaders dateFormat node) body Hr)
      as (r & -> & Hs & Hb & Hct & Hk).
    exists r. split; [reflexivity|]. split; [exact Hs|]. split; [exact Hb|].
    rewrite Hct, !Hk by discriminate. clear Hct Hk Hs Hb r Hn.
    destruct node as [path ifile icoll iprops iquota etag lastmod size ct quota gp g].
    cbn in Hf, Hp. subst ifile iprops.
    cbn [getContentType getSize getLastModified getETag].
    destruct ct as [[|c ct]|], etag as [[|e etag]|], size as [|p|p];
      repeat split; vm_compute; reflexivity.
Qed.

End ServeFacts.

(** HEAD on the file "f". *)
Lemma httpHead_sends_no_headers_witness :
  Serve.httpHead (Sample.oneFile "abc") Sample.sampleChildren JsVal.toString Sample.noPathname "/"
    {| Request.url := "/f"; Request.headers := [] |}
  = Ok {| Get.status := 200; Get.respHeaders := []; Get.respBody := "" |}.
Proof.
  exact (proj2 (httpHead_sends_no_headers (Sample.oneFile "abc") Sample.sampleChildren
                  JsVal.toString Sample.noPathname "/" {| Request.url := "/f"; Request.headers := [] |})
           "f" (Sample.fileWithETag "f" "abc") eq_refl eq_refl eq_refl).
Defined.

(** The headers of the file "f": its size 3, its time [null] and its
    ETag. *)
Lemma getHTTPHeaders_of_node_witness :
  exists h,
    Serve.getHTTPHeaders (Sample.oneFile "abc") Sample.sampleChildren JsVal.toString "f"
    = Ok h
    /\ Serve.plainHeaders h
       = Some [ ("Content-Length", JsVal.JNum 3); ("Last-Modified", JsVal.JStr "null");
                ("ETag", JsVal.JStr "abc") ].
Proof.
  exact (getHTTPHeaders_of_node (Sample.oneFile "abc") Sample.sampleChildren
           JsVal.toString "f" (Sample.fileWithETag "f" "abc") eq_refl eq_refl).
Defined.

(** GET on the root collection. *)
Lemma httpGet_not_a_file_witness :
  Serve.httpGet Sample.sampleLookup Sample.sampleChildren JsVal.toString Sample.noPathname "/"
    Get.digitsDate Get.zeroBuffer {| Request.url := "/"; Request.headers := [] |}
  = Serve.Failed Exc.jsDAV_Exception_NotImplemented
  /\ Exc.code Exc.jsDAV_Exception_NotImplemented = 501%Z.
Proof.
  exact (httpGet_not_a_file Sample.sampleLookup Sample.sampleChildren JsVal.toString
           Sample.noPathname "/" Get.digitsDate Get.zeroBuffer
           {| Request.url := "/"; Request.headers := [] |} "" (Sample.collectionAt "")
           eq_refl eq_refl eq_refl eq_refl eq_refl).
Defined.

(** GET on the file "f", whose content is "abc". *)
Lemma httpGet_file_witness :
  exists r,
    Serve.httpGet (Sample.oneFile "abc") Sample.sampleChildren JsVal.toString
      Sample.noPathname "/" Get.digitsDate Get.zeroBuffer
      {| Request.url := "/f"; Request.headers := [] |}
    = Serve.Sent r
    /\ Get.status r = 200%Z
    /\ Get.respBody r = "abc"
    /\ Get.field "Content-Type" (Get.respHeaders r)
       = JsVal.JStr "application/octet-stream"
    /\ Get.field "Content-Length" (Get.respHeaders r) = JsVal.JNum 3
    /\ Get.field "Last-Modified" (Get.respHeaders r) = JsVal.JStr "null"
    /\ Get.field "ETag" (Get.respHeaders r) = JsVal.JStr "abc".
Proof.
  exact (proj2 (httpGet_file (Sample.oneFile "abc") Sample.sampleChildren
                  JsVal.toString Sample.noPathname "/" Get.digitsDate Get.zeroBuffer
                  {| Request.url := "/f"; Request.headers := [] |} "f"
                  (Sample.fileWithETag "f" "abc") eq_refl eq_refl eq_refl eq_refl
                  eq_refl eq_refl eq_refl) "abc" eq_refl).
Defined.

(** ** The resource type as XML *)

Section ResourceTypeFacts.

Import Node ResourceTypeXml.

Variable inherited : string -> option string.

Lemma untilBrace_app (ns rest : string) :
  without (fun c => Ascii.eqb c "}") ns = true ->
  untilBrace (ns ++ String "}" rest) = Some (ns, rest).
Proof.
  clear inherited.
  induction ns as [|c ns IH]; cbn [append untilBrace without]; intros H.
  - reflexivity.
  - apply andb_prop in H. destruct H as [Hc Hns].
    destruct (Ascii.eqb c "}"); [discriminate|]. now rewrite (IH Hns).
Qed.

Lemma line_whole (name : string) :
  without isLineTerminator name = true -> line name = name.
Proof.
  clear inherited.
  induction name as [|c name IH]; cbn [line without]; intros H; [reflexivity|].
  apply andb_prop in H. destruct H as [Hc Hn].
  destruct (isLineTerminator c); [discriminate|]. now rewrite (IH Hn).
Qed.

Lemma matchClark_clark (ns name : string) :
  without (fun c => Ascii.eqb c "}") ns = true ->
  without isLineTerminator name = true ->
  matchClark (clark ns name) = Some (ns, name).
Proof.
  clear inherited.
  intros Hns Hname. unfold clark, matchClark. cbn [append].
  change (Ascii.eqb "{" "{") with true. cbv iota.
  now rewrite (untilBrace_app ns name Hns), (line_whole name Hname).
Qed.

(** X25.  A resource type [{ns}name] becomes the empty element [name], added
    at the end of the document.  Its prefix is the one the server has for
    [ns]; when the server has an empty one, the prefix is "custom" and the
    namespace is declared on the element; when the server has none, the
    prefix is what a plain object inherits under the name [ns] (as for
    "toString"), and "custom" with the declaration when nothing is
    inherited under that name. *)
Theorem serialize_clark (server : Href.Server) (ns name recDom : string) :
  without (fun c => Ascii.eqb c "}") ns = true ->
  without isLineTerminator name = true ->
  serialize inherited (jsDAV_Property_ResourceType (RTStr (clark ns name)))
    server recDom
  = recDom ++
    match Href.lookup ns (Href.xmlNamespaces server) with
    | Some (String c p) => "<" ++ String c p ++ ":" ++ name ++ "/>"
    | Some EmptyString =>
        "<custom:" ++ name ++ " xmlns:custom=" ++ Precond.quoted ns ++ "/>"
    | None =>
        match inherited ns with
        | Some member => "<" ++ member ++ ":" ++ name ++ "/>"
        | None =>
            "<custom:" ++ name ++ " xmlns:custom=" ++ Precond.quoted ns ++ "/>"
        end
    end.
Proof.
  intros Hns Hname. cbn [jsDAV_Property_ResourceType serialize].
  unfold clark at 1. cbn [append JS.truthy]. fold (clark ns name).
  unfold element, prefixOf. rewrite (matchClark_clark ns name Hns Hname).
  destruct (Href.lookup ns (Href.xmlNamespaces server)) as [[|c p]|];
    try reflexivity.
  now destruct (inherited ns).
Qed.

Lemma serialize_list (server : Href.Server) (l : list string) (recDom : string) :
  fold_left (fun dom s => dom ++ element inherited server s) l recDom
  = recDom ++ fold_left (fun dom s => dom ++ element inherited server s) l "".
Proof.
  revert recDom. induction l as [|s l IH]; intros recDom; cbn [fold_left].
  - now rewrite append_empty.
  - rewrite IH. rewrite (IH ("" ++ element inherited server s)). cbn [append].
    now rewrite append_assoc.
Qed.

(** [serialize] only adds to the document: what it returns is the
    document it was given followed by what it returns for the empty
    document; for a file (the type [NODE_FILE]) that is nothing. *)
Theorem serialize_appends (this : ResourceType) (server : Href.Server)
    (recDom : string) :
  serialize inherited (jsDAV_Property_ResourceType this) server recDom
  = recDom ++ serialize inherited (jsDAV_Property_ResourceType this) server ""
  /\ serialize inherited (jsDAV_Property_ResourceType (RTNum NODE_FILE)) server recDom
     = recDom.
Proof.
  split; [|reflexivity].
  assert (H : forall t, serialize inherited t server recDom
                        = recDom ++ serialize inherited t server "").
  { intros [|n|s|l]; cbn [serialize].
    - now rewrite append_empty.
    - now rewrite append_empty.
    - destruct (JS.truthy s); [reflexivity | now rewrite append_empty].
    - apply serialize_list. }
  apply H.
Qed.

End ResourceTypeFacts.

(** A resource type in the namespace "toString" on a server that has no
    prefix of that name: the prefix is the inherited function. *)
Lemma serialize_clark_witness :
  ResourceTypeXml.serialize Sample.objectMembers
    (Node.jsDAV_Property_ResourceType (Node.RTStr "{toString}x"))
    {| Href.xmlNamespaces := [("DAV:", "d")]; Href.baseUri := "/" |} "<d:resourcetype>"
  = "<d:resourcetype><function toString() { [native code] }:x/>".
Proof.
  exact (serialize_clark Sample.objectMembers
           {| Href.xmlNamespaces := [("DAV:", "d")]; Href.baseUri := "/" |}
           "toString" "x" "<d:resourcetype>" eq_refl eq_refl).
Defined.

(** ** Listing the principals *)

Section MorePrincipalFacts.

Import PrincipalCollection.

Variables PrincipalInfo Node : Type.

(** X26.  [getChildren] never hands its callback a child: when it reports
    success the list is empty and the backend has found no principal
    under the prefix; and when the first principal of the backend is
    turned into a node, the callback is not called at all, the iteration
    going on only after an error. *)
Theorem getChildren_lists_nothing
    (this : jsDAVACL_AbstractPrincipalCollection PrincipalInfo Node) :
  (forall children,
     getChildren this = Called (Ok children) ->
     children = []
     /\ snd (getPrincipalsByPrefix (principalBackend this) (principalPrefix this)) = [])
  /\ (forall principalInfo rest child,
        disableListing this = false ->
        getPrincipalsByPrefix (principalBackend this) (principalPrefix this)
        = (None, principalInfo :: rest) ->
        getChildForPrincipal this principalInfo = Called (Ok child) ->
        getChildren this = NeverCalled).
Proof.
  split.
  - intros children. unfold getChildren.
    destruct (disableListing this); [discriminate|].
    destruct (getPrincipalsByPrefix _ _) as [[err|] principals]; [discriminate|].
    destruct principals as [|p ps]; cbn [eachPrincipal snd].
    + now intros [= <-].
    + destruct (getChildForPrincipal this p) as [|[c|e]]; discriminate.
  - intros p ps child Hd Hb Hc. unfold getChildren. rewrite Hd, Hb.
    cbn [eachPrincipal]. now rewrite Hc.
Qed.

End MorePrincipalFacts.

(** Two principals, each of which becomes a node: the listing does not
    complete. *)
Lemma getChildren_lists_nothing_witness :
  let backend :=
    {| PrincipalCollection.getPrincipalsByPrefix := fun _ =>
         (None, ["principals/ann"; "principals/bob"]);
       PrincipalCollection.getPrincipalByPath := fun p => (None, Some p) |} in
  let this :=
    PrincipalCollection.initialize string nat backend None
      (fun info => PrincipalCollection.Called (Ok (String.length info))) in
  PrincipalCollection.getChildren this = PrincipalCollection.NeverCalled.
Proof.
  intros backend this.
  exact (proj2 (getChildren_lists_nothing string nat this)
           "principals/ann" ["principals/bob"] 14 eq_refl eq_refl eq_refl).
Defined.

(** ** [httpMkcol] and [createCollection] *)

Section MkcolFacts.

Import JsVal Node Request Mkcol.

Variable Tree : Type.
Variable E : Type.
Variable getNodeForPath : Tree -> string -> result Node.t.
Variable node_getChild : Tree -> Node.t -> string -> option Exc.t * option Node.t.
Variable IEXTCOLLECTION : Node.t -> bool.
Variable createExtendedCollection :
  Tree -> Node.t -> string -> list string -> list (string * PropValue)
  -> Outcome (list E) * Tree.
Variable node_createDirectory : Tree -> Node.t -> string -> option Exc.t * Tree.
Variable node_updateProperties :
  Node.t -> list (string * PropValue) -> Tree -> Update.NodeUpdate * Tree.
Variable parseBody : string -> Parsed.
Variable generateMultiStatus : list E -> string.
Variable pathname : string -> option string.
Variable baseUri : string.

(** X27.  MKCOL without a body, for a uri whose parent is a plain collection
    that has no child of the new name: the parent creates the directory
    and the answer is 201 with a Content-Length of 0; when the parent
    reports an error, that error is the answer.  Either way the tree is
    the one [createDirectory] of the parent left behind. *)
Theorem httpMkcol_creates (tree : Tree) (req : Request.t) (uri : string)
    (parent : Node.t) (err : option Exc.t) :
  Uri.calculateUri pathname baseUri (url req) = Ok uri ->
  getNodeForPath tree (fst (CopyMove.splitPath uri)) = Ok parent ->
  ICOLLECTION parent = true ->
  IEXTCOLLECTION parent = false ->
  node_getChild tree parent (snd (CopyMove.splitPath uri)) = (err, None) ->
  err = None \/ err = Some Exc.jsDAV_Exception_FileNotFound ->
  (Mkcol.httpMkcol Tree E getNodeForPath node_getChild IEXTCOLLECTION
     createExtendedCollection node_createDirectory node_updateProperties
     parseBody generateMultiStatus pathname baseUri tree req "")
  = (match fst (node_createDirectory tree parent (snd (CopyMove.splitPath uri))) with
     | None =>
         Sent {| Get.status := 201;
                 Get.respHeaders := [("Content-Length", JStr "0")];
                 Get.respBody := "" |}
     | Some e => Refused (Raised e)
     end,
     snd (node_createDirectory tree parent (snd (CopyMove.splitPath uri)))).
Proof.
  intros Hu Hp Hc Hx Hg He. unfold Mkcol.httpMkcol, Mkcol.afterParse.
  cbn [JS.truthy]. rewrite Hu. unfold Mkcol.createCollection.
  change (Update.mem "{DAV:}collection" ["{DAV:}collection"]) with true.
  cbn [negb]. rewrite Hp, Hc, Hx, Hg. cbn [negb List.length Nat.ltb Nat.leb].
  change (gt (propertiesLength []) (JNum 0)) with false. cbv iota.
  destruct He as [-> | ->]; cbn [CopyMove.isFileNotFound negb];
    destruct (node_createDirectory tree parent _) as [[e|] tree']; reflexivity.
Qed.

(** X28.  MKCOL without a body is refused, the tree staying as it is: with 409
    when the parent of the uri cannot be found, whatever the error of the
    tree was, and when it is no collection; with 405 when the parent
    already has a child of that name. *)
Theorem httpMkcol_refusals (tree : Tree) (req : Request.t) (uri : string) :
  Uri.calculateUri pathname baseUri (url req) = Ok uri ->
  (forall e,
     getNodeForPath tree (fst (CopyMove.splitPath uri)) = Throw e ->
     (Mkcol.httpMkcol Tree E getNodeForPath node_getChild IEXTCOLLECTION
     createExtendedCollection node_createDirectory node_updateProperties
     parseBody generateMultiStatus pathname baseUri tree req "") = (Refused (Raised Exc.jsDAV_Exception_Conflict), tree))
  /\ (forall parent,
        getNodeForPath tree (fst (CopyMove.splitPath uri)) = Ok parent ->
        ICOLLECTION parent = false ->
        (Mkcol.httpMkcol Tree E getNodeForPath node_getChild IEXTCOLLECTION
     createExtendedCollection node_createDirectory node_updateProperties
     parseBody generateMultiStatus pathname baseUri tree req "") = (Refused (Raised Exc.jsDAV_Exception_Conflict), tree))
  /\ (forall parent err child,
        getNodeForPath tree (fst (CopyMove.splitPath uri)) = Ok parent ->
        ICOLLECTION parent = true ->
        node_getChild tree parent (snd (CopyMove.splitPath uri)) = (err, Some child) ->
        (Mkcol.httpMkcol Tree E getNodeForPath node_getChild IEXTCOLLECTION
     createExtendedCollection node_createDirectory node_updateProperties
     parseBody generateMultiStatus pathname baseUri tree req "")
        = (Refused (Raised Exc.jsDAV_Exception_MethodNotAllowed), tree))
  /\ Exc.code Exc.jsDAV_Exception_Conflict = 409%Z
  /\ Exc.code Exc.jsDAV_Exception_MethodNotAllowed = 405%Z.
Proof.
  intros Hu.
  assert (Hm : Update.mem "{DAV:}collection" ["{DAV:}collection"] = true)
    by reflexivity.
  repeat split.
  - intros e Hp. unfold Mkcol.httpMkcol, Mkcol.afterParse. cbn [JS.truthy].
    rewrite Hu. unfold Mkcol.createCollection. rewrite Hm. cbn [negb].
    now rewrite Hp.
  - intros parent Hp Hc. unfold Mkcol.httpMkcol, Mkcol.afterParse. cbn [JS.truthy].
    rewrite Hu. unfold Mkcol.createCollection. rewrite Hm. cbn [negb].
    now rewrite Hp, Hc.
  - intros parent err child Hp Hc Hg. unfold Mkcol.httpMkcol, Mkcol.afterParse.
    cbn [JS.truthy]. rewrite Hu. unfold Mkcol.createCollection. rewrite Hm.
    cbn [negb]. rewrite Hp, Hc, Hg. now destruct err.
Qed.

(** A MKCOL request with a body is refused with 415 when its Content-Type
    begins with neither application/xml nor text/xml, and when it has no
    Content-Type at all the server throws a TypeError instead of
    answering; the tree stays as it is. *)
Theorem httpMkcol_body_content_type (tree : Tree) (req : Request.t)
    (requestBody : string) :
  requestBody <> "" ->
  (header "content-type" req = JUndefined ->
   (Mkcol.httpMkcol Tree E getNodeForPath node_getChild IEXTCOLLECTION
     createExtendedCollection node_createDirectory node_updateProperties
     parseBody generateMultiStatus pathname baseUri tree req requestBody) = (Crashed Exc.TypeError, tree))
  /\ (forall contentType,
        header "content-type" req = JStr contentType ->
        JS.startsWith "application/xml" contentType = false ->
        JS.startsWith "text/xml" contentType = false ->
        (Mkcol.httpMkcol Tree E getNodeForPath node_getChild IEXTCOLLECTION
     createExtendedCollection node_createDirectory node_updateProperties
     parseBody generateMultiStatus pathname baseUri tree req requestBody)
        = (Refused (Raised Exc.jsDAV_Exception_UnsupportedMediaType), tree)
        /\ Exc.code Exc.jsDAV_Exception_UnsupportedMediaType = 415%Z).
Proof.
  intros Hb.
  assert (Ht : JS.truthy requestBody = true) by now destruct requestBody.
  split.
  - intros Hh. unfold Mkcol.httpMkcol. now rewrite Ht, Hh.
  - intros ct Hh Ha Hx. split; [|reflexivity].
    unfold Mkcol.httpMkcol. now rewrite Ht, Hh, Ha, Hx.
Qed.

(** X29.  A plain collection never sees the properties given to
    [createCollection]: unless they have a key "length", the outcome is
    the one for no properties at all; and whenever [createCollection]
    reports success, the tree is the one [createDirectory] of the parent
    returned. *)
Theorem createCollection_ignores_properties (tree : Tree) (uri : string)
    (resourceType : list string) (properties : list (string * PropValue))
    (parent : Node.t) :
  getNodeForPath tree (fst (CopyMove.splitPath uri)) = Ok parent ->
  IEXTCOLLECTION parent = false ->
  (get "length" properties = None ->
   (Mkcol.createCollection Tree E getNodeForPath node_getChild IEXTCOLLECTION
     createExtendedCollection node_createDirectory node_updateProperties tree uri resourceType properties)
   = (Mkcol.createCollection Tree E getNodeForPath node_getChild IEXTCOLLECTION
     createExtendedCollection node_createDirectory node_updateProperties tree uri resourceType []))
  /\ (forall r tree',
        (Mkcol.createCollection Tree E getNodeForPath node_getChild IEXTCOLLECTION
     createExtendedCollection node_createDirectory node_updateProperties tree uri resourceType properties) = (Called None r, tree') ->
        r = None
        /\ node_createDirectory tree parent (snd (CopyMove.splitPath uri))
           = (None, tree')).
Proof.
  intros Hp Hx. split.
  - intros Hl. unfold Mkcol.createCollection. rewrite Hp, Hx.
    unfold propertiesLength. rewrite Hl. reflexivity.
  - intros r tree'. unfold Mkcol.createCollection. rewrite Hp, Hx.
    destruct (negb (Update.mem _ resourceType)); [discriminate|].
    destruct (negb (ICOLLECTION parent)); [discriminate|].
    assert (Hc : forall o,
      o = (if (1 <? List.length resourceType)%nat
           then (Called (Some jsDAV_Exception_InvalidResourceType) None, tree)
           else match node_createDirectory tree parent (snd (CopyMove.splitPath uri)) with
                | (Some err, t1) => (Called (Some (Raised err)) None, t1)
                | (None, t1) =>
                    if gt (propertiesLength properties) (JNum 0) then
                      match Update.updateProperties Tree node_updateProperties
                              (getNodeForPath t1) uri properties t1 with
                      | (Throw e, t2) => (Thrown e, t2)
                      | (Ok _, t2) => (Unanswered, t2)
                      end
                    else (Called None None, t1)
                end) ->
      o = (Called None r, tree') ->
      r = None
      /\ node_createDirectory tree parent (snd (CopyMove.splitPath uri))
         = (None, tree')).
    { intros o ->. destruct (1 <? List.length resourceType)%nat; [discriminate|].
      destruct (node_createDirectory tree parent _) as [[err|] t1]; [discriminate|].
      destruct (gt (propertiesLength properties) (JNum 0)).
      - destruct (Update.updateProperties _ _ _ _ _ _) as [[?|?] ?]; discriminate.
      - now intros [= <- <-]. }
    destruct (node_getChild tree parent _) as [[err|] [ch|]]; try discriminate.
    + destruct (negb (CopyMove.isFileNotFound err)); [discriminate|].
      now apply Hc.
    + now apply Hc.
Qed.

End MkcolFacts.

Lemma listGetChild_absent :
  Sample.listGetChild Sample.abTree (Sample.collectionAt "") "c"
  = (Some Exc.jsDAV_Exception_FileNotFound, None).
Proof. reflexivity. Qed.

(** [MKCOL /c] in the sample tree. *)
Lemma httpMkcol_creates_witness :
  Mkcol.httpMkcol Sample.ListTree unit Sample.listLookup Sample.listGetChild
    (fun _ => false) Sample.noExtended Sample.listCreateDirectory Sample.listUpdate
    Sample.noBody Sample.noMultiStatus Sample.noPathname "/" Sample.abTree
    {| Request.url := "/c"; Request.headers := [] |} ""
  = (Mkcol.Sent {| Get.status := 201;
                   Get.respHeaders := [("Content-Length", JsVal.JStr "0")];
                   Get.respBody := "" |},
     (Sample.abTree ++ [("c", Sample.collectionAt "c")])%list).
Proof.
  exact (httpMkcol_creates Sample.ListTree unit Sample.listLookup Sample.listGetChild
           (fun _ => false) Sample.noExtended Sample.listCreateDirectory
           Sample.listUpdate Sample.noBody Sample.noMultiStatus Sample.noPathname "/" Sample.abTree
           {| Request.url := "/c"; Request.headers := [] |} "c" (Sample.collectionAt "")
           (Some Exc.jsDAV_Exception_FileNotFound)
           eq_refl eq_refl eq_refl eq_refl listGetChild_absent (or_intror eq_refl)).
Defined.

(** [MKCOL /a], where the file "a" is. *)
Lemma httpMkcol_refusals_witness :
  Mkcol.httpMkcol Sample.ListTree unit Sample.listLookup Sample.listGetChild
    (fun _ => false) Sample.noExtended Sample.listCreateDirectory Sample.listUpdate
    Sample.noBody Sample.noMultiStatus Sample.noPathname "/" Sample.abTree
    {| Request.url := "/a"; Request.headers := [] |} ""
  = (Mkcol.Refused (Mkcol.Raised Exc.jsDAV_Exception_MethodNotAllowed), Sample.abTree).
Proof.
  exact (proj1 (proj2 (proj2
           (httpMkcol_refusals Sample.ListTree unit Sample.listLookup
              Sample.listGetChild (fun _ => false) Sample.noExtended
              Sample.listCreateDirectory Sample.listUpdate Sample.noBody
              Sample.noMultiStatus Sample.noPathname "/" Sample.abTree
              {| Request.url := "/a"; Request.headers := [] |} "a" eq_refl)))
           (Sample.collectionAt "") None (Sample.fileWithETag "a" "1")
           eq_refl eq_refl eq_refl).
Defined.

(** [MKCOL /c] with a body and no Content-Type. *)
Lemma httpMkcol_body_content_type_witness :
  Mkcol.httpMkcol Sample.ListTree unit Sample.listLookup Sample.listGetChild
    (fun _ => false) Sample.noExtended Sample.listCreateDirectory Sample.listUpdate
    Sample.noBody Sample.noMultiStatus Sample.noPathname "/" Sample.abTree
    {| Request.url := "/c"; Request.headers := [] |} "<mkcol/>"
  = (Mkcol.Crashed Exc.TypeError, Sample.abTree).
Proof.
  refine (proj1 (httpMkcol_body_content_type Sample.ListTree unit Sample.listLookup
                   Sample.listGetChild (fun _ => false) Sample.noExtended
                   Sample.listCreateDirectory Sample.listUpdate Sample.noBody
                   Sample.noMultiStatus Sample.noPathname "/" Sample.abTree
                   {| Request.url := "/c"; Request.headers := [] |} "<mkcol/>" _)
            eq_refl).
  discriminate.
Defined.

(** A collection "c" created with a display name that is never stored. *)
Lemma createCollection_ignores_properties_witness :
  Mkcol.createCollection Sample.ListTree unit Sample.listLookup Sample.listGetChild
    (fun _ => false) Sample.noExtended Sample.listCreateDirectory Sample.listUpdate
    Sample.abTree "c" ["{DAV:}collection"]
    [("{DAV:}displayname", Node.Plain (JsVal.JStr "C"))]
  = Mkcol.createCollection Sample.ListTree unit Sample.listLookup Sample.listGetChild
      (fun _ => false) Sample.noExtended Sample.listCreateDirectory Sample.listUpdate
      Sample.abTree "c" ["{DAV:}collection"] [].
Proof.
  exact (proj1 (createCollection_ignores_properties Sample.ListTree unit
                  Sample.listLookup Sample.listGetChild (fun _ => false)
                  Sample.noExtended Sample.listCreateDirectory Sample.listUpdate
                  Sample.abTree "c" ["{DAV:}collection"]
                  [("{DAV:}displayname", Node.Plain (JsVal.JStr "C"))]
                  (Sample.collectionAt "") eq_refl eq_refl) eq_refl).
Defined.

(** ** The temporary directory and the guessed base uri *)

Section SetupFacts.

Import Setup.

Lemma lastIndexOf_last (c : ascii) (s : string) :
  lastIndexOf c (s ++ String c "") = Some (String.length s).
Proof.
  induction s as [|a s IH]; cbn [append lastIndexOf String.length].
  - now rewrite Ascii.eqb_refl.
  - now rewrite IH.
Qed.

Lemma lastIndexOf_other (c d : ascii) (s : string) :
  d <> c ->
  match lastIndexOf c (s ++ String d "") with
  | Some i => i < String.length s
  | None => True
  end.
Proof.
  intros Hd. induction s as [|a s IH]; cbn [append lastIndexOf String.length].
  - destruct (Ascii.eqb_spec d c); [contradiction | exact I].
  - destruct (lastIndexOf c (s ++ String d "")) as [i|].
    + lia.
    + destruct (Ascii.eqb a c); [lia | exact I].
Qed.

Lemma length_append (s t : string) :
  String.length (s ++ t) = String.length s + String.length t.
Proof. induction s as [|a s IH]; cbn; [reflexivity | now rewrite IH]. Qed.

Lemma substring_prefix (s t : string) :
  substring 0 (String.length s) (s ++ t) = s.
Proof.
  induction s as [|a s IH]; cbn [append String.length substring].
  - now destruct t.
  - now rewrite IH.
Qed.

(** X30.  A temporary directory given with a slash at its end loses the slash
    and the character before it ("/tmp/" becomes "/tm", "/" the empty
    string); one that ends otherwise is kept as it is, and without one
    the directory is "/tmp". *)
Theorem tmpDir_trailing_slash :
  (forall s c, tmpDir (Some (s ++ String c "/")) = s)
  /\ (forall s c, c <> "/"%char -> tmpDir (Some (s ++ String c "")) = s ++ String c "")
  /\ tmpDir (Some "/") = ""
  /\ tmpDir (Some "") = "/tmp"
  /\ tmpDir None = "/tmp".
Proof.
  split; [|split; [|repeat split]].
  - intros s c. unfold tmpDir.
    assert (Ht : JS.truthy (s ++ String c "/") = true) by now destruct s.
    rewrite Ht.
    change (s ++ String c "/") with (s ++ String c ("" ++ String "/" "")).
    replace (s ++ String c ("" ++ String "/" ""))
      with ((s ++ String c "") ++ String "/" "")
      by (now rewrite append_assoc).
    rewrite lastIndexOf_last, !length_append. cbn [String.length].
    replace (String.length s + 1 + 1 - 1) with (String.length s + 1) by lia.
    rewrite Nat.eqb_refl.
    replace (String.length s + 1 - 1) with (String.length s) by lia.
    rewrite append_assoc. apply substring_prefix.
  - intros s c Hc. unfold tmpDir.
    assert (Ht : JS.truthy (s ++ String c "") = true) by now destruct s.
    rewrite Ht. pose proof (lastIndexOf_other "/" c s Hc) as H.
    destruct (lastIndexOf "/" (s ++ String c "")) as [i|]; [|reflexivity].
    rewrite length_append. cbn [String.length].
    destruct (Nat.eqb_spec i (String.length s + 1 - 1)); [lia | reflexivity].
Qed.

Variable pathname : string -> option string.

(** [guessBaseUri] never computes a base uri: before the first request
    and for a request uri without a path it returns "/", and for a
    request uri with a path it throws, a ReferenceError where the uri ends
    with the path and a jsDAV exception where it does not. *)
Theorem guessBaseUri_root_or_error (httpRequest : option Request.t) :
  (forall baseUri, guessBaseUri pathname httpRequest = Ok baseUri -> baseUri = "/")
  /\ (forall req pathInfo,
        httpRequest = Some req ->
        pathname (Request.url req) = Some pathInfo ->
        pathInfo <> "" ->
        guessBaseUri pathname httpRequest = Throw Exc.ReferenceError
        \/ guessBaseUri pathname httpRequest = Throw Exc.jsDAV_Exception).
Proof.
  split.
  - intros baseUri. unfold guessBaseUri. destruct httpRequest as [req|].
    + destruct (pathname (Request.url req)) as [pathInfo|].
      * destruct (JS.truthy pathInfo).
        -- destruct (String.eqb _ pathInfo); discriminate.
        -- now intros [= <-].
      * now intros [= <-].
    + now intros [= <-].
  - intros req pathInfo -> Hp Hne. unfold guessBaseUri. rewrite Hp.
    assert (Ht : JS.truthy pathInfo = true) by now destruct pathInfo.
    rewrite Ht. destruct (String.eqb _ pathInfo); [now left | now right].
Qed.

End SetupFacts.

(** The request uri "/dav/f" with the path "/f". *)
Lemma guessBaseUri_root_or_error_witness :
  Setup.guessBaseUri (fun uri => Some (JS.substr 4 uri))
    (Some {| Request.url := "/dav/f"; Request.headers := [] |})
  = Throw Exc.ReferenceError
  \/ Setup.guessBaseUri (fun uri => Some (JS.substr 4 uri))
       (Some {| Request.url := "/dav/f"; Request.headers := [] |})
     = Throw Exc.jsDAV_Exception.
Proof.
  refine (proj2 (guessBaseUri_root_or_error (fun uri => Some (JS.substr 4 uri))
                   (Some {| Request.url := "/dav/f"; Request.headers := [] |}))
            {| Request.url := "/dav/f"; Request.headers := [] |} "/f"
            eq_refl eq_refl _).
  discriminate.
Defined.

(** The directory "/tmp/". *)
Lemma tmpDir_trailing_slash_witness : Setup.tmpDir (Some "/tmp/") = "/tm".
Proof. exact (proj1 tmpDir_trailing_slash "/tm" "p"%char). Defined.
